(** * Cluster coordination layer and stores of the multi-model database engine

    A shallow embedding of [internal/database/cluster.go] (node registry,
    failure detector, gossip, partitioner, replicator), of the stores of
    [internal/database/engine.go] (documents, key-values, columns, graph),
    of the router and the handlers of [internal/server/routes.go], and
    theorems about them.

    Conventions of the embedding:
    - a Go [int] is a [Z] kept in the signed range of [intSize] bits, every
      arithmetic result being wrapped explicitly;
    - a [*Node] is an address into a heap of [Node] objects, so that the
      aliasing between [selfNode], the registry and the slices returned by
      [GetActiveNodes] is the one of the program;
    - a run-time panic (nil dereference, index out of range) is [Panics];
    - what the program obtains from its environment is an explicit argument:
      the clock ([now]), the order in which a [range] over the registry map
      visits its keys ([ord]), the outcome of each HTTP call, what a request
      body decodes to;
    - a [Document] (a Go map, shared by reference) is an address into a heap
      of maps, [None] being the nil map. *)

From Stdlib Require Import ZArith Lia.
From Stdlib Require Import Sorted.
From stdpp Require Import base option list gmap strings fin_maps pretty.

Open Scope Z_scope.

(** ** Go's [int] *)

Module goint.

(** Two's-complement reduction of [z] to [w] bits. *)
Definition wrap (w z : Z) : Z := (z + 2 ^ (w - 1)) mod 2 ^ w - 2 ^ (w - 1).

Definition add (w a b : Z) : Z := wrap w (a + b).
Definition sub (w a b : Z) : Z := wrap w (a - b).
Definition neg (w a : Z) : Z := wrap w (- a).
Definition shl (w a k : Z) : Z := wrap w (Z.shiftl a k).
(** [%] truncates towards zero: the result has the sign of the dividend. *)
Definition rem (a b : Z) : Z := Z.rem a b.

Definition in_range (w z : Z) : Prop := - 2 ^ (w - 1) <= z < 2 ^ (w - 1).

End goint.

(** Width of [int] on the 64-bit targets the Dockerfile builds for. *)
Definition intSize : Z := 64.

(** ** Strings and runes

    A Go string is a byte sequence; [for _, r := range key] decodes it as
    UTF-8, an invalid byte yielding U+FFFD and advancing by one byte. *)

Module utf8.

Definition RuneError : Z := 0xFFFD.
Definition MaxRune : Z := 0x10FFFF.

Definition bytes (s : string) : list Z :=
  (fun a => Z.of_N (Ascii.N_of_ascii a)) <$> String.list_ascii_of_string s.

(** continuation byte, 0x80..0xBF *)
Definition cont (b : Z) : bool := (0x80 <=? b) && (b <=? 0xBF).

Fixpoint decode (s : list Z) : list Z :=
  match s with
  | [] => []
  | b0 :: s1 =>
    let invalid := fun _ : unit => RuneError :: decode s1 in
    if b0 <? 0x80 then b0 :: decode s1
    else if (0xC0 <=? b0) && (b0 <? 0xE0) then
      match s1 with
      | b1 :: s2 =>
        if cont b1 then
          let r := Z.lor (Z.shiftl (Z.land b0 0x1F) 6) (Z.land b1 0x3F) in
          if 0x7F <? r then r :: decode s2 else invalid ()
        else invalid ()
      | _ => invalid ()
      end
    else if (0xE0 <=? b0) && (b0 <? 0xF0) then
      match s1 with
      | b1 :: (b2 :: s3) =>
        if cont b1 && cont b2 then
          let r := Z.lor (Z.lor (Z.shiftl (Z.land b0 0x0F) 12)
                                (Z.shiftl (Z.land b1 0x3F) 6))
                         (Z.land b2 0x3F) in
          if (0x7FF <? r) && negb ((0xD800 <=? r) && (r <=? 0xDFFF))
          then r :: decode s3 else invalid ()
        else invalid ()
      | _ => invalid ()
      end
    else if (0xF0 <=? b0) && (b0 <? 0xF8) then
      match s1 with
      | b1 :: (b2 :: (b3 :: s4)) =>
        if cont b1 && cont b2 && cont b3 then
          let r := Z.lor (Z.lor (Z.lor (Z.shiftl (Z.land b0 0x07) 18)
                                       (Z.shiftl (Z.land b1 0x3F) 12))
                                (Z.shiftl (Z.land b2 0x3F) 6))
                         (Z.land b3 0x3F) in
          if (0xFFFF <? r) && (r <=? MaxRune)
          then r :: decode s4 else invalid ()
        else invalid ()
      | _ => invalid ()
      end
    else invalid ()
  end.

(** The runes a [range] loop over [s] yields, in order. *)
Definition runes (s : string) : list Z := decode (bytes s).

End utf8.

(** ** The partitioner's hash *)

(** [hash = (hash << 5) - hash + int(r)] *)
Definition hashStep (w : Z) (hash r : Z) : Z :=
  goint.add w (goint.sub w (goint.shl w hash 5) hash) r.

(** [hash := 0; for _, r := range key { ... }] over an already decoded key. *)
Definition hashRunes (w : Z) (rs : list Z) : Z := fold_left (hashStep w) rs 0.

Definition hashKey (w : Z) (key : string) : Z := hashRunes w (utf8.runes key).

(** The rolling polynomial accumulator as the specification words it:
    [h = h*31 + codepoint], seeded at 0, reduced to [w] bits at each step. *)
Definition polyStep (w : Z) (h c : Z) : Z := goint.wrap w (h * 31 + c).
Definition polyHash (w : Z) (cs : list Z) : Z := fold_left (polyStep w) cs 0.

(** The same accumulator over unbounded integers. *)
Definition polyExact (cs : list Z) : Z := fold_left (fun h c => h * 31 + c) cs 0.


(** ** Panics *)

(** A computation that either returns or panics; it is the option monad, so
    that stdpp's [x ← m; k] sequencing reads as the program's. *)
Abbreviation outcome := option (only parsing).
Abbreviation Returns := Some (only parsing).
Abbreviation Panics := None (only parsing).

(** [len(s)] *)
Definition len {A} (s : list A) : Z := Z.of_nat (length s).

(** [s[i]]: panics when [i] is out of range. *)
Definition index {A} (s : list A) (i : Z) : outcome A :=
  if decide (0 <= i < len s) then s !! Z.to_nat i else Panics.

(** ** Data model *)

Module config.

Record Config := mkConfig {
  Port : string;
  DataDir : string;
  ClusterEnabled : bool;
  ClusterPort : string;
  ReplicationFactor : Z;
  ConsistencyLevel : string;
}.

End config.

Record Node := mkNode {
  ID : string;
  Address : string;
  Port : string;
  Status : string;   (* active, inactive, joining, leaving *)
  LastSeen : Z;
}.

#[global] Instance Node_eq_dec : EqDecision Node.
Proof. solve_decision. Defined.

Definition set_Status (s : string) (n : Node) : Node :=
  mkNode (ID n) (Address n) (Port n) s (LastSeen n).
Definition set_LastSeen (t : Z) (n : Node) : Node :=
  mkNode (ID n) (Address n) (Port n) (Status n) t.

(** A non-nil [*Node]. *)
Abbreviation addr := nat (only parsing).

(** The [Cluster] struct, together with the [Node] objects its pointers
    refer to ([heap]).  The mutex, the HTTP client and the context carry no
    data of the registry. *)
Record Cluster := mkCluster {
  selfNode : addr;
  nodes : gmap string addr;
  config : config.Config;
  heap : gmap addr Node;
}.

Definition with_heap (h : gmap addr Node) (c : Cluster) : Cluster :=
  mkCluster (selfNode c) (nodes c) (config c) h.

(** [new(Node)]: an address not in use. *)
Definition alloc (h : gmap addr Node) : addr := fresh (dom h).

(** Outcome of an HTTP call of [httpClient]: a transport error, or a
    response with its status code. *)
Inductive HttpResult :=
| HttpErr (cause : string)
| HttpResp (StatusCode : Z).

Definition StatusOK : Z := 200.

Inductive error :=
| ErrNotEnoughActive (replicationFactor : Z)
    (* "not enough active nodes for replication factor %d" *)
| ErrReplicateTo (id : string) (cause : string)
    (* "failed to replicate to node %s: %w" *)
| ErrReplicateStatus (code : Z)
    (* "replication request failed with status: %d" *).

Inductive LogLine :=
| LogAdded (id : string)              (* "Added node %s to cluster" *)
| LogRemoved (id : string)            (* "Removed node %s from cluster" *)
| LogGossipFailed (id : string) (cause : string)
| LogGossipStatus (id : string) (code : Z)
| LogReplicateFailed (key id : string) (err : error).

(** ** Node registry *)

(** [generateNodeID]: ["node-%d-%d"] of the clock and of [rand.Intn(10000)]. *)
Definition generateNodeID (unix rnd : Z) : string :=
  "node-" +:+ pretty unix +:+ "-" +:+ pretty rnd.

(** [NewCluster], without the two background loops it launches. *)
Definition NewCluster (unix rnd : Z) (cfg : config.Config) : Cluster :=
  let self := mkNode (generateNodeID unix rnd) "localhost"
                     (config.ClusterPort cfg) "active" 0 in
  let p := alloc ∅ in
  mkCluster p {[ ID self := p ]} cfg {[ p := self ]}.

Definition AddNode (now : Z) (node : addr) (c : Cluster)
  : outcome (Cluster * list LogLine) :=
  n ← heap c !! node;
  let n' := set_LastSeen now n in
  Returns (mkCluster (selfNode c) (<[ID n' := node]> (nodes c)) (config c)
                     (<[node := n']> (heap c)),
           [LogAdded (ID n')]).

Definition RemoveNode (nodeID : string) (c : Cluster)
  : outcome (Cluster * list LogLine) :=
  match nodes c !! nodeID with
  | Some node =>
    n ← heap c !! node;
    Returns (with_heap (<[node := set_Status "inactive" n]> (heap c)) c,
             [LogRemoved nodeID])
  | None => Returns (c, [])
  end.

(** The values a [range] over the map [m] yields when it visits the keys in
    the order [ord]. *)
Definition rangeMap (ord : list string) (m : gmap string addr) : list addr :=
  omap (fun k => m !! k) ord.

(** [ord] is an order in which a [range] loop may visit the keys of [m]:
    every key once.  Go leaves the order unspecified and varies it from one
    loop to the next. *)
Definition iteration_order (m : gmap string addr) (ord : list string) : Prop :=
  NoDup ord ∧ list_to_set ord = dom m.

#[global] Instance iteration_order_dec m ord : Decision (iteration_order m ord).
Proof. unfold iteration_order. apply _. Defined.

Fixpoint collectActive (h : gmap addr Node) (visited : list addr)
    (activeNodes : list addr) : outcome (list addr) :=
  match visited with
  | [] => Returns activeNodes
  | node :: rest =>
    n ← h !! node;
    collectActive h rest
      (if decide (Status n = "active") then activeNodes ++ [node]
       else activeNodes)
  end.

Definition GetActiveNodes (ord : list string) (c : Cluster)
  : outcome (list addr) :=
  collectActive (heap c) (rangeMap ord (nodes c)) [].

Definition GetNode (nodeID : string) (c : Cluster) : option addr :=
  nodes c !! nodeID.

(** ** Failure detector *)

Definition pingNode (r : HttpResult) : bool :=
  match r with
  | HttpErr _ => false
  | HttpResp code => bool_decide (code = StatusOK)
  end.

Definition updateNodeStatus (now : Z) (nodeID : string) (alive : bool)
    (c : Cluster) : outcome Cluster :=
  match nodes c !! nodeID with
  | Some node =>
    n ← heap c !! node;
    let n' := if alive then set_LastSeen now (set_Status "active" n)
              else set_Status "inactive" n in
    Returns (with_heap (<[node := n']> (heap c)) c)
  | None => Returns c
  end.

(** The loop of [performHeartbeat] over the snapshot, from its [i]-th element
    on; the [i]-th probe is answered by [http i] at time [clock i].  Returns
    the cluster and the nodes that were probed. *)
Fixpoint heartbeatLoop (http : nat → HttpResult) (clock : nat → Z) (i : nat)
    (snapshot : list addr) (c : Cluster) : outcome (Cluster * list addr) :=
  match snapshot with
  | [] => Returns (c, [])
  | node :: rest =>
    n ← heap c !! node;
    self ← heap c !! selfNode c;
    if decide (ID n = ID self) then heartbeatLoop http clock (S i) rest c
    else
      let alive := pingNode (http i) in
      c' ← updateNodeStatus (clock i) (ID n) alive c;
      '(c'', probed) ← heartbeatLoop http clock (S i) rest c';
      Returns (c'', node :: probed)
  end.

Definition performHeartbeat (ord : list string) (http : nat → HttpResult)
    (clock : nat → Z) (c : Cluster) : outcome (Cluster * list addr) :=
  heartbeatLoop http clock 0 (rangeMap ord (nodes c)) c.

(** ** Partitioner *)

Definition GetPartitionForKey (ord : list string) (key : string) (c : Cluster)
  : outcome (option addr) :=
  activeNodes ← GetActiveNodes ord c;
  if decide (len activeNodes = 0) then Returns None
  else
    let hash := hashKey intSize key in
    let idx := goint.rem hash (len activeNodes) in
    let idx := if decide (idx < 0) then goint.neg intSize idx else idx in
    node ← index activeNodes idx;
    Returns (Some node).

(** ** Replicator and gossip *)

Section replication.

(** The replicated value, an [interface{}] that is only marshalled. *)
Context {Value : Type}.

Inductive Body :=
| ReplicateBody (key : string) (value : Value)   (* {"key":..,"value":..} *)
| GossipBody (members : list Node).

(** What a run does to the outside: an HTTP POST, a log line. *)
Inductive Event :=
| Posted (url : string) (body : Body)
| Logged (line : LogLine).

Definition nodeURL (n : Node) (path : string) : string :=
  "http://" +:+ Address n +:+ ":" +:+ Port n +:+ path.

(** [replicateToNode]: the POST, and the error it returns given the
    outcome [r] of the call. *)
Definition replicateToNode (n : Node) (key : string) (value : Value)
    (r : HttpResult) : Event * option error :=
  (Posted (nodeURL n "/data/replicate") (ReplicateBody key value),
   match r with
   | HttpErr cause => Some (ErrReplicateTo (ID n) cause)
   | HttpResp code =>
     if decide (code = StatusOK) then None
     else Some (ErrReplicateStatus code)
   end).

(** [primaryIdx := 0; for j, node := range activeNodes { if node.ID ==
    nodes[0].ID { primaryIdx = j; break } }], from position [j] on. *)
Fixpoint findPrimaryIdx (h : gmap addr Node) (nodes : list (option addr))
    (j : Z) (rest : list addr) : outcome Z :=
  match rest with
  | [] => Returns 0
  | node :: rest' =>
    n ← h !! node;
    first ← index nodes 0;
    p ← first;
    pn ← h !! p;
    if decide (ID n = ID pn) then Returns j
    else findPrimaryIdx h nodes (j + 1) rest'
  end.

(** One turn of the replica loop, for the value [i] of its counter. *)
Definition addReplica (h : gmap addr Node) (activeNodes : list addr)
    (nodes : list (option addr)) (i : Z) : outcome (list (option addr)) :=
  primaryIdx ← findPrimaryIdx h nodes 0 activeNodes;
  let replicaIdx :=
    goint.rem (goint.add intSize primaryIdx i) (len activeNodes) in
  replica ← index activeNodes replicaIdx;
  Returns (nodes ++ [Some replica]).

(** [for i := 1; i < replicationFactor && i < len(activeNodes); i++]: the
    counter takes the values [1 .. min(replicationFactor, len) - 1]. *)
Definition replicaSet (h : gmap addr Node) (replicationFactor : Z)
    (activeNodes : list addr) (primary : option addr)
  : outcome (list (option addr)) :=
  foldl (fun acc i => nodes ← acc; addReplica h activeNodes nodes i)
        (Returns [primary])
        (seqZ 1 (Z.min replicationFactor (len activeNodes) - 1)).

(** The push loop; the [k]-th outbound call is answered by [http k]. *)
Fixpoint pushLoop (http : nat → HttpResult) (k : nat) (c : Cluster)
    (key : string) (value : Value) (nodes : list (option addr))
  : outcome (list Event) :=
  match nodes with
  | [] => Returns []
  | node :: rest =>
    p ← node;
    n ← heap c !! p;
    self ← heap c !! selfNode c;
    if decide (ID n = ID self) then pushLoop http k c key value rest
    else
      let '(post, err) := replicateToNode n key value (http k) in
      evs ← pushLoop http (S k) c key value rest;
      Returns (post ::
               match err with
               | Some e => [Logged (LogReplicateFailed key (ID n) e)]
               | None => []
               end ++ evs)
  end.

(** [ReplicateData]; [ord] is the iteration order of its own snapshot,
    [ord'] the one of the snapshot [GetPartitionForKey] takes. *)
Definition ReplicateData (ord ord' : list string) (http : nat → HttpResult)
    (key : string) (value : Value) (c : Cluster)
  : outcome (option error * list Event) :=
  let replicationFactor := config.ReplicationFactor (config c) in
  if decide (replicationFactor <= 1) then Returns (None, [])
  else
    activeNodes ← GetActiveNodes ord c;
    if decide (len activeNodes < replicationFactor)
    then Returns (Some (ErrNotEnoughActive replicationFactor), [])
    else
      primary ← GetPartitionForKey ord' key c;
      nodes ← replicaSet (heap c) replicationFactor activeNodes primary;
      evs ← pushLoop http 0 c key value nodes;
      Returns (None, evs).

(** [exchangeGossip]: posts the local active nodes to [node]; whatever the
    peer answers, nothing is read from the response. *)
Definition exchangeGossip (ord : list string) (node : addr) (r : HttpResult)
    (c : Cluster) : outcome (list Event) :=
  n ← heap c !! node;
  localNodes ← GetActiveNodes ord c;
  members ← mapM (fun p => heap c !! p) localNodes;
  let post := Posted (nodeURL n "/cluster/gossip") (GossipBody members) in
  Returns (post ::
           match r with
           | HttpErr cause => [Logged (LogGossipFailed (ID n) cause)]
           | HttpResp code =>
             if decide (code = StatusOK) then []
             else [Logged (LogGossipStatus (ID n) code)]
           end).

End replication.

Arguments Body : clear implicits.
Arguments Event : clear implicits.

(** ** HTTP surface of the cluster *)

Module server.

Inductive Method := GET | POST | PUT | DELETE.

#[global] Instance Method_eq_dec : EqDecision Method.
Proof. solve_decision. Defined.

Inductive Handler :=
| healthHandler
| createDocumentHandler | getDocumentHandler | updateDocumentHandler
| deleteDocumentHandler | queryDocumentsHandler
| setKeyValueHandler | getKeyValueHandler | deleteKeyHandler
| insertColumnHandler | getColumnHandler
| createNodeHandler | getNodeHandler | createEdgeHandler | getEdgeHandler
| clusterStatusHandler | addNodeHandler
| notFoundHandler.

(** A segment of a route template: a literal, or a [{variable}], which
    matches one non-empty segment. *)
Inductive Seg := Lit (s : string) | Var.

Record Route := mkRoute {
  template : list Seg;
  isPrefix : bool;            (* [PathPrefix] rather than [HandleFunc] *)
  methods : list Method;      (* empty: no [Methods] restriction *)
  handler : Handler;
}.

(** The routes [SetupRoutes] registers, in order. *)
Definition routes : list Route := [
  mkRoute [Lit "health"] false [GET] healthHandler;
  mkRoute [Lit "docs"; Var; Var] false [POST] createDocumentHandler;
  mkRoute [Lit "docs"; Var; Var] false [GET] getDocumentHandler;
  mkRoute [Lit "docs"; Var; Var] false [PUT] updateDocumentHandler;
  mkRoute [Lit "docs"; Var; Var] false [DELETE] deleteDocumentHandler;
  mkRoute [Lit "docs"; Var] false [GET] queryDocumentsHandler;
  mkRoute [Lit "kv"; Var] false [POST; PUT] setKeyValueHandler;
  mkRoute [Lit "kv"; Var] false [GET] getKeyValueHandler;
  mkRoute [Lit "kv"; Var] false [DELETE] deleteKeyHandler;
  mkRoute [Lit "columns"; Var; Var; Var] false [POST; PUT] insertColumnHandler;
  mkRoute [Lit "columns"; Var; Var; Var] false [GET] getColumnHandler;
  mkRoute [Lit "graph"; Lit "nodes"] false [POST] createNodeHandler;
  mkRoute [Lit "graph"; Lit "nodes"; Var] false [GET] getNodeHandler;
  mkRoute [Lit "graph"; Lit "edges"] false [POST] createEdgeHandler;
  mkRoute [Lit "graph"; Lit "edges"; Var] false [GET] getEdgeHandler;
  mkRoute [Lit "cluster"; Lit "status"] false [GET] clusterStatusHandler;
  mkRoute [Lit "cluster"; Lit "nodes"] false [POST] addNodeHandler;
  mkRoute [] true [] notFoundHandler
].

Definition matchSeg (t : Seg) (s : string) : bool :=
  match t with
  | Lit l => bool_decide (l = s)
  | Var => negb (bool_decide (s = ""))
  end.

Fixpoint matchPath (t : list Seg) (pre : bool) (path : list string) : bool :=
  match t, path with
  | [], [] => true
  | [], _ :: _ => pre
  | _ :: _, [] => false
  | x :: t', s :: path' => matchSeg x s && matchPath t' pre path'
  end.

Definition matchRoute (m : Method) (path : list string) (r : Route) : bool :=
  matchPath (template r) (isPrefix r) path
  && (bool_decide (methods r = []) || bool_decide (m ∈ methods r)).

(** The router: the first registered route that matches wins.  The path is
    the one the router matches, which it has found clean ([mux.isClean]
    below). *)
Definition route (m : Method) (path : list string) : Handler :=
  match find (matchRoute m path) routes with
  | Some r => handler r
  | None => notFoundHandler
  end.

(** A decoded request body. *)
Inductive RequestBody :=
| BodyObject (address port : string)  (* a JSON object, its two fields *)
| BodyArray (members : list Node)     (* a JSON array of Node objects *)
| BodyInvalid.

(** [readJSONBody(r, &nodeData)] *)
Definition readNodeData (b : RequestBody) : option (string * string) :=
  match b with
  | BodyObject a p => Some (a, p)
  | _ => None
  end.

Record Request := mkRequest {
  method : Method;
  path : list string;
  body : RequestBody;
}.

Definition StatusNotFound : Z := 404.
Definition StatusBadRequest : Z := 400.
Definition StatusServiceUnavailable : Z := 503.

(** [clusterStatusHandler]: the status code and the node list sent. *)
Definition clusterStatus (ord : list string) (db : option Cluster)
  : outcome (Z * list Node) :=
  match db with
  | None => Returns (StatusOK, [])
  | Some c =>
    nodes ← GetActiveNodes ord c;
    nodeInfo ← mapM (fun p => heap c !! p) nodes;
    Returns (StatusOK, nodeInfo)
  end.

(** [addNodeHandler] *)
Definition addNode (now : Z) (ord : list string) (b : RequestBody)
    (db : option Cluster) : outcome (option Cluster * Z) :=
  match db with
  | None => Returns (None, StatusServiceUnavailable)
  | Some c =>
    match readNodeData b with
    | None => Returns (Some c, StatusBadRequest)
    | Some (address, port) =>
      active ← GetActiveNodes ord c;
      let p := alloc (heap c) in
      let node := mkNode ("node-" +:+ pretty (len active)) address port
                         "active" 0 in
      '(c', _) ← AddNode now p (with_heap (<[p := node]> (heap c)) c);
      Returns (Some c', StatusOK)
    end
  end.

(** One request served, as far as the cluster is concerned: the new
    [db.Cluster] and the status code ([None] where it depends on the
    stores, which no cluster operation reads or writes). *)
Definition serve (now : Z) (ord : list string) (req : Request)
    (db : option Cluster) : outcome (option Cluster * option Z) :=
  match route (method req) (path req) with
  | healthHandler => Returns (db, Some StatusOK)
  | clusterStatusHandler =>
    '(code, _) ← clusterStatus ord db; Returns (db, Some code)
  | addNodeHandler =>
    '(db', code) ← addNode now ord (body req) db; Returns (db', Some code)
  | notFoundHandler => Returns (db, Some StatusNotFound)
  | _ => Returns (db, None)
  end.

End server.

(** ** Invariants and vocabulary of the statements *)

(** Every registry entry points to an allocated [Node] filed under its own
    id ([AddNode] stores [node] at [c.nodes[node.ID]] and no operation
    writes an [ID]), and [selfNode] is allocated. *)
Definition registry_ok (c : Cluster) : Prop :=
  map_Forall (fun k p => ID <$> heap c !! p = Some k) (nodes c)
  ∧ is_Some (heap c !! selfNode c).

#[global] Instance registry_ok_dec c : Decision (registry_ok c).
Proof. unfold registry_ok. apply _. Defined.

(** The registry fits in memory: index arithmetic on its length does not
    overflow an [int]. *)
Definition addressable (c : Cluster) : Prop :=
  Z.of_nat (size (nodes c)) < 2 ^ (intSize - 2).

#[global] Instance addressable_dec c : Decision (addressable c).
Proof. unfold addressable. apply _. Defined.

(** The self node is registered under its id and its status is active. *)
Definition self_active (c : Cluster) : Prop :=
  match heap c !! selfNode c with
  | Some n => nodes c !! ID n = Some (selfNode c) ∧ Status n = "active"
  | None => False
  end.

#[global] Instance self_active_dec c : Decision (self_active c).
Proof. unfold self_active. destruct (heap c !! selfNode c); apply _. Defined.

Definition selfID (c : Cluster) : option string := ID <$> heap c !! selfNode c.

Definition isActive (h : gmap addr Node) (p : addr) : Prop :=
  Status <$> h !! p = Some "active".

#[global] Instance isActive_dec h p : Decision (isActive h p).
Proof. unfold isActive. apply _. Defined.

(** The active nodes in the order the registry is visited. *)
Definition activeSnapshot (ord : list string) (c : Cluster) : list addr :=
  filter (isActive (heap c)) (rangeMap ord (nodes c)).

(** [p] is not the self node, by the test the loops use ([node.ID ==
    c.selfNode.ID]). *)
Definition notSelf (c : Cluster) (p : addr) : Prop :=
  ID <$> heap c !! p ≠ selfID c.

(** The ids of a slice of nodes, and their being in ascending order (Go
    compares strings bytewise). *)
Definition idsOf (h : gmap addr Node) (l : list addr) : list string :=
  omap (fun p => ID <$> h !! p) l.
Definition sorted_by_id (h : gmap addr Node) (l : list addr) : Prop :=
  Sorted (fun a b => String.leb a b = true) (idsOf h l).

Definition posts {V} (evs : list (Event V)) : list (string * Body V) :=
  omap (fun e => match e with Posted u b => Some (u, b) | Logged _ => None end)
       evs.
Definition logged {V} (evs : list (Event V)) : list LogLine :=
  omap (fun e => match e with Logged l => Some l | Posted _ _ => None end) evs.

#[global] Instance notSelf_dec c p : Decision (notSelf c p).
Proof. unfold notSelf. apply _. Defined.

(** The push was answered with 200. *)
Definition pushOK (r : HttpResult) : Prop :=
  match r with
  | HttpErr _ => False
  | HttpResp code => code = StatusOK
  end.

#[global] Instance pushOK_dec r : Decision (pushOK r).
Proof. destruct r; simpl; apply _. Defined.

(** The request [replicateToNode] sends to the node at [p]. *)
Definition pushTo {V} (c : Cluster) (key : string) (value : V) (p : addr)
  : option (string * Body V) :=
  n ← heap c !! p;
  Some (nodeURL n "/data/replicate", ReplicateBody key value).

(** The operations that write the registry, and the allocation of a [Node]
    by a caller ([&Node{...}]) before it calls [AddNode]. *)
Inductive Op :=
| OpNew (n : Node)
| OpAddNode (now : Z) (node : addr)
| OpRemoveNode (nodeID : string)
| OpUpdateNodeStatus (now : Z) (nodeID : string) (alive : bool)
| OpHeartbeat (ord : list string) (http : nat → HttpResult) (clock : nat → Z).

Definition run (op : Op) (c : Cluster) : outcome Cluster :=
  match op with
  | OpNew n => Returns (with_heap (<[alloc (heap c) := n]> (heap c)) c)
  | OpAddNode now node => fst <$> AddNode now node c
  | OpRemoveNode nodeID => fst <$> RemoveNode nodeID c
  | OpUpdateNodeStatus now nodeID alive => updateNodeStatus now nodeID alive c
  | OpHeartbeat ord http clock => fst <$> performHeartbeat ord http clock c
  end.

(** The operation is called on the id of the self node. *)
Definition names_self (c : Cluster) (op : Op) : Prop :=
  match op with
  | OpNew _ => False
  | OpAddNode _ node => ID <$> heap c !! node = selfID c
  | OpRemoveNode nodeID => Some nodeID = selfID c
  | OpUpdateNodeStatus _ nodeID _ => Some nodeID = selfID c
  | OpHeartbeat _ _ _ => False
  end.

Definition valid_op (c : Cluster) (op : Op) : Prop :=
  match op with
  | OpHeartbeat ord _ _ => iteration_order (nodes c) ord
  | _ => True
  end.

(** States reached from a new cluster by operations that [allowed] admits. *)
Inductive reachable (allowed : Cluster → Op → Prop) : Cluster → Prop :=
| reach_new unix rnd cfg : reachable allowed (NewCluster unix rnd cfg)
| reach_step c op c' :
    reachable allowed c → valid_op c op → allowed c op →
    run op c = Returns c' → reachable allowed c'.

Definition any_op (c : Cluster) (op : Op) : Prop := True.
Definition not_on_self (c : Cluster) (op : Op) : Prop := ¬ names_self c op.

(** "In every reachable registry state the self node is present and active." *)
Definition self_always_active : Prop :=
  ∀ c, reachable any_op c → self_active c.

(** "[last_seen] is updated only when the status is set to active": whenever
    an operation changes the [LastSeen] of a record, that record is active
    afterwards. *)
Definition last_seen_only_on_activation : Prop :=
  ∀ c op c' p n n',
    registry_ok c → valid_op c op → run op c = Returns c' →
    heap c !! p = Some n → heap c' !! p = Some n' →
    LastSeen n' ≠ LastSeen n → Status n' = "active".

(** Concrete clusters used to evaluate the operations. *)
Module sample.

Definition cfg (r : Z) : config.Config :=
  config.mkConfig "8080" "./data" true "9090" r "quorum".

Definition selfId : string := generateNodeID 1700000000 42.

(** A new cluster: the self node alone. *)
Definition c1 (r : Z) : Cluster := NewCluster 1700000000 42 (cfg r).

Definition peer (id host : string) (status : string) (seen : Z) : Node :=
  mkNode id host "9090" status seen.

(** [c] after a caller allocated [n] and passed it to [AddNode]. *)
Definition added (now : Z) (n : Node) (c : Cluster) : Cluster :=
  let p := alloc (heap c) in
  match AddNode now p (with_heap (<[p := n]> (heap c)) c) with
  | Some (c', _) => c'
  | None => c
  end.

(** Self and one peer, both active. *)
Definition c2 (r : Z) : Cluster :=
  added 50 (peer "node-1" "10.0.0.2" "active" 0) (c1 r).

(** Self and two peers, all active. *)
Definition c3 (r : Z) : Cluster :=
  added 60 (peer "node-2" "10.0.0.3" "active" 0) (c2 r).

(** The new cluster after [RemoveNode] was called on the self id. *)
Definition demoted : Cluster :=
  match RemoveNode selfId (c1 1) with
  | Some (c', _) => c'
  | None => c1 1
  end.

(** A caller has allocated a node that is still joining. *)
Definition joining : Node := peer "node-9" "10.0.0.9" "joining" 0.
Definition c1_joining : Cluster :=
  with_heap (<[alloc (heap (c1 1)) := joining]> (heap (c1 1))) (c1 1).

Definition ord2 : list string := [selfId; "node-1"].
Definition ord2' : list string := ["node-1"; selfId].
Definition ord3 : list string := [selfId; "node-1"; "node-2"].
Definition ord3' : list string := ["node-2"; selfId; "node-1"].

End sample.

(** ** The replica count with three active nodes *)

(** The self node is registered under its id (whatever its status). *)
Definition self_registered (c : Cluster) : Prop :=
  match heap c !! selfNode c with
  | Some n => nodes c !! ID n = Some (selfNode c)
  | None => False
  end.

#[global] Instance self_registered_dec c : Decision (self_registered c).
Proof. unfold self_registered. destruct (heap c !! selfNode c); apply _. Defined.

(** "[ReplicateData] with replication factor 3 against a snapshot of exactly
    3 active nodes attempts a push to exactly 2 nodes": in every reachable
    state, for every key and whatever the peers answer. *)
Definition three_active_push_two : Prop :=
  ∀ (Value : Type) (ord ord' : list string) (http : nat → HttpResult)
    (key : string) (value : Value) (c : Cluster) (activeNodes : list addr)
    (result : option error) (evs : list (@Event Value)),
    reachable any_op c →
    iteration_order (nodes c) ord → iteration_order (nodes c) ord' →
    config.ReplicationFactor (config c) = 3 →
    GetActiveNodes ord c = Returns activeNodes → len activeNodes = 3 →
    ReplicateData ord ord' http key value c = Returns (result, evs) →
    length (posts evs) = 2%nat.

(** Self and three peers, all active, and the same after [RemoveNode] was
    called on the self id: three active nodes, none of them self. *)
Module inactive_self_sample.

Definition c4 : Cluster :=
  sample.added 70 (sample.peer "node-3" "10.0.0.4" "active" 0) (sample.c3 3).

Definition c4_demoted : Cluster :=
  match RemoveNode sample.selfId c4 with
  | Some (c', _) => c'
  | None => c4
  end.

Definition ord4 : list string := [sample.selfId; "node-1"; "node-2"; "node-3"].

End inactive_self_sample.

(** ** Gossip round and joining *)

(** [rand.Intn(n)]: some value of [[0, n)]; [draw] is what the random source
    yields for this call. *)
Definition Intn (draw n : Z) : Z := draw mod n.

(** The loop of [runGossipRound], from its [i]-th turn on: the [i]-th turn
    draws [rnd i]; the exchange it makes is answered by [http i], and the
    snapshot [exchangeGossip] takes visits the registry in the order
    [ords i]. *)
Fixpoint gossipLoop {Value : Type} (ords : nat → list string) (rnd : nat → Z)
    (http : nat → HttpResult) (activeNodes : list addr) (c : Cluster)
    (i turns : nat) : outcome (list (Event Value)) :=
  match turns with
  | O => Returns []
  | S turns' =>
    let randomIndex := Intn (rnd i) (len activeNodes) in
    targetNode ← index activeNodes randomIndex;
    t ← heap c !! targetNode;
    self ← heap c !! selfNode c;
    if decide (ID t = ID self)
    then gossipLoop ords rnd http activeNodes c (S i) turns'
    else
      evs ← exchangeGossip (ords i) targetNode (http i) c;
      rest ← gossipLoop ords rnd http activeNodes c (S i) turns';
      Returns (evs ++ rest)
  end.

(** [runGossipRound]; [ord] is the iteration order of its own snapshot. *)
Definition runGossipRound {Value : Type} (ord : list string)
    (ords : nat → list string) (rnd : nat → Z) (http : nat → HttpResult)
    (c : Cluster) : outcome (list (Event Value)) :=
  activeNodes ← GetActiveNodes ord c;
  if decide (len activeNodes <= 1) then Returns []
  else
    let nodesToGossip :=
      if decide (len activeNodes < 2) then len activeNodes else 2 in
    gossipLoop ords rnd http activeNodes c 0 (Z.to_nat nodesToGossip).

Inductive JoinError :=
| ErrJoinFailed (cause : string)    (* "failed to join cluster: %w" *)
| ErrJoinStatus (code : Z)          (* "join request failed with status: %d" *).

(** [Join]: the URL and the node posted, and the error returned given the
    outcome [r] of the call. *)
Definition Join (seedAddress : string) (r : HttpResult) (c : Cluster)
  : outcome (string * Node * option JoinError) :=
  self ← heap c !! selfNode c;
  Returns ("http://" +:+ seedAddress +:+ "/cluster/join", self,
           match r with
           | HttpErr cause => Some (ErrJoinFailed cause)
           | HttpResp code =>
             if decide (code = StatusOK) then None
             else Some (ErrJoinStatus code)
           end).

(** The record [updateNodeStatus] leaves in place of [n]. *)
Definition probed_record (alive : bool) (now : Z) (n : Node) : Node :=
  if alive then set_LastSeen now (set_Status "active" n)
  else set_Status "inactive" n.

(** [p] is held by the registry. *)
Definition registered (c : Cluster) (p : addr) : Prop :=
  ∃ k, nodes c !! k = Some p.

(** What a client gets back from a peer that ran [server.serve] on its
    request. *)
Definition answerOf (r : outcome (option Cluster * option Z)) : HttpResult :=
  match r with
  | Some (_, Some code) => HttpResp code
  | _ => HttpErr "no response"
  end.

(** States of the registry that the program itself can reach: the only
    callers of the registry's writers are [addNodeHandler] ([AddNode]) and
    the heartbeat loop ([updateNodeStatus]). *)
Inductive served : Cluster → Prop :=
| served_new unix rnd cfg : served (NewCluster unix rnd cfg)
| served_addNode c now ord body c' code :
    served c → iteration_order (nodes c) ord →
    server.addNode now ord body (Some c) = Returns (Some c', code) →
    served c'
| served_heartbeat c ord http clock c' probed :
    served c → iteration_order (nodes c) ord →
    performHeartbeat ord http clock c = Returns (c', probed) →
    served c'.

(** The string has a '-' in it. *)
Fixpoint has_dash (s : string) : bool :=
  match s with
  | EmptyString => false
  | String a s' => bool_decide (String a EmptyString = "-") || has_dash s'
  end.

(** ** The stores ([internal/database/engine.go]) *)

Module db.

(** An [interface{}] holding decoded JSON: nil, bool, float64 (its IEEE-754
    bit pattern), string, [[]interface{}], [map[string]interface{}].  Nested
    slices and maps are never written once stored, so they are values. *)
#[local] Set Warnings "-register-all".
Inductive Value :=
| VNil
| VBool (b : bool)
| VFloat (bits : Z)
| VString (s : string)
| VSlice (l : list Value)
| VMap (m : gmap string Value).
#[local] Set Warnings "register-all".

Definition isNaN (bits : Z) : bool :=
  (Z.land (Z.shiftr bits 52) 0x7FF =? 0x7FF)
  && negb (Z.land bits 0xFFFFFFFFFFFFF =? 0).
Definition isZero (bits : Z) : bool := Z.land bits 0x7FFFFFFFFFFFFFFF =? 0.

(** [==] on float64 *)
Definition float_eq (x y : Z) : bool :=
  if isNaN x || isNaN y then false
  else if isZero x && isZero y then true
  else x =? y.

(** [a == b] on interface values: values of different dynamic types are
    unequal; comparing two slices or two maps panics. *)
Definition iface_eq (a b : Value) : outcome bool :=
  match a, b with
  | VNil, VNil => Returns true
  | VBool x, VBool y => Returns (bool_decide (x = y))
  | VFloat x, VFloat y => Returns (float_eq x y)
  | VString x, VString y => Returns (bool_decide (x = y))
  | VSlice _, VSlice _ => Panics
  | VMap _, VMap _ => Panics
  | _, _ => Returns false
  end.

(** The contents of a [Document] (a [map[string]interface{}]); a [Document]
    itself is a reference to such a map, [None] being the nil map. *)
Abbreviation Fields := (gmap string Value) (only parsing).
Abbreviation Document := (option addr) (only parsing).

Module GraphNode.
Record t := mk {
  ID : string;
  Labels : option (list string);
  Props : option (gmap string Value);
}.
End GraphNode.

Module GraphEdge.
Record t := mk {
  ID : string;
  From : string;
  To : string;
  Type_ : string;
  Props : Value;
}.
End GraphEdge.

Record MultiModelDatabase := mkDB {
  config : config.Config;
  documents : gmap string Document;
  keyValues : gmap string Value;
  columnFamilies : gmap string (gmap string (gmap string Value));
  graphNodes : gmap string GraphNode.t;
  graphEdges : gmap string GraphEdge.t;
  Cluster : option Cluster;
  (** the map objects that [Document]s refer to *)
  docHeap : gmap addr Fields;
}.

Definition with_documents m d :=
  mkDB (config d) m (keyValues d) (columnFamilies d) (graphNodes d)
       (graphEdges d) (Cluster d) (docHeap d).
Definition with_keyValues m d :=
  mkDB (config d) (documents d) m (columnFamilies d) (graphNodes d)
       (graphEdges d) (Cluster d) (docHeap d).
Definition with_columnFamilies m d :=
  mkDB (config d) (documents d) (keyValues d) m (graphNodes d)
       (graphEdges d) (Cluster d) (docHeap d).
Definition with_graphNodes m d :=
  mkDB (config d) (documents d) (keyValues d) (columnFamilies d) m
       (graphEdges d) (Cluster d) (docHeap d).
Definition with_graphEdges m d :=
  mkDB (config d) (documents d) (keyValues d) (columnFamilies d) (graphNodes d)
       m (Cluster d) (docHeap d).
Definition with_Cluster c d :=
  mkDB (config d) (documents d) (keyValues d) (columnFamilies d) (graphNodes d)
       (graphEdges d) c (docHeap d).
Definition with_docHeap h d :=
  mkDB (config d) (documents d) (keyValues d) (columnFamilies d) (graphNodes d)
       (graphEdges d) (Cluster d) h.

Inductive error :=
| ErrDocExists (id collection : string)
    (* "document with id %s already exists in collection %s" *)
| ErrDocNotFound (id collection : string)
    (* "document with id %s not found in collection %s" *)
| ErrKeyNotFound (key : string)                 (* "key %s not found" *)
| ErrFamilyNotFound (columnFamily : string)     (* "column family %s not found" *)
| ErrRowNotFound (rowKey columnFamily : string)
    (* "row %s not found in column family %s" *)
| ErrColumnNotFound (columnName rowKey columnFamily : string)
    (* "column %s not found in row %s of column family %s" *)
| ErrNodeExists (id : string)            (* "node with id %s already exists" *)
| ErrNodeNotFound (id : string)          (* "node with id %s not found" *)
| ErrEdgeExists (id : string)            (* "edge with id %s already exists" *)
| ErrSourceMissing (from : string)       (* "source node %s does not exist" *)
| ErrTargetMissing (to : string)         (* "target node %s does not exist" *)
| ErrEdgeNotFound (id : string)          (* "edge with id %s not found" *).

(** [NewMultiModelDatabase]; [unix] and [rnd] are what [generateNodeID]
    draws when the cluster is enabled. *)
Definition NewMultiModelDatabase (unix rnd : Z) (cfg : config.Config)
  : MultiModelDatabase :=
  mkDB cfg ∅ ∅ ∅ ∅ ∅
       (if config.ClusterEnabled cfg then Some (NewCluster unix rnd cfg)
        else None)
       ∅.

(** [collection+"."+id] *)
Definition docKey (collection id : string) : string :=
  collection +:+ "." +:+ id.

Definition InsertDocument (collection id : string) (doc : Document)
    (d : MultiModelDatabase) : MultiModelDatabase * option error :=
  match documents d !! docKey collection id with
  | Some _ => (d, Some (ErrDocExists id collection))
  | None =>
    (with_documents (<[docKey collection id := doc]> (documents d)) d, None)
  end.

Definition GetDocument (collection id : string) (d : MultiModelDatabase)
  : Document * option error :=
  match documents d !! docKey collection id with
  | Some doc => (doc, None)
  | None => (None, Some (ErrDocNotFound id collection))
  end.

(** The entries a [range] over the map behind [m] yields; a nil map has
    none. *)
Definition fieldsOf (h : gmap addr Fields) (m : Document) : outcome Fields :=
  match m with
  | None => Returns ∅
  | Some a => h !! a
  end.

(** [UpdateDocument].  The loop [for k, v := range updates { doc[k] = v }]
    writes every entry of [updates] into the map behind [doc], which panics
    at its first turn when that map is nil. *)
Definition UpdateDocument (collection id : string) (updates : Document)
    (d : MultiModelDatabase) : outcome (MultiModelDatabase * option error) :=
  let key := docKey collection id in
  match documents d !! key with
  | None => Returns (d, Some (ErrDocNotFound id collection))
  | Some doc =>
    upd ← fieldsOf (docHeap d) updates;
    if decide (upd = ∅)
    then Returns (with_documents (<[key := doc]> (documents d)) d, None)
    else
      a ← doc;
      m ← docHeap d !! a;
      Returns (with_documents (<[key := doc]> (documents d))
                 (with_docHeap (<[a := upd ∪ m]> (docHeap d)) d),
               None)
  end.

Definition DeleteDocument (collection id : string) (d : MultiModelDatabase)
  : MultiModelDatabase * option error :=
  let key := docKey collection id in
  match documents d !! key with
  | None => (d, Some (ErrDocNotFound id collection))
  | Some _ => (with_documents (delete key (documents d)) d, None)
  end.

Definition SetKeyValue (key : string) (value : Value) (d : MultiModelDatabase)
  : MultiModelDatabase * option error :=
  (with_keyValues (<[key := value]> (keyValues d)) d, None).

Definition GetKeyValue (key : string) (d : MultiModelDatabase)
  : Value * option error :=
  match keyValues d !! key with
  | Some value => (value, None)
  | None => (VNil, Some (ErrKeyNotFound key))
  end.

Definition DeleteKey (key : string) (d : MultiModelDatabase)
  : MultiModelDatabase * option error :=
  match keyValues d !! key with
  | None => (d, Some (ErrKeyNotFound key))
  | Some _ => (with_keyValues (delete key (keyValues d)) d, None)
  end.

Definition InsertColumn (columnFamily rowKey columnName : string)
    (value : Value) (d : MultiModelDatabase)
  : MultiModelDatabase * option error :=
  let cf := default ∅ (columnFamilies d !! columnFamily) in
  let row := default ∅ (cf !! rowKey) in
  let row' := <[columnName := value]> row in
  let cf' := <[rowKey := row']> cf in
  (with_columnFamilies (<[columnFamily := cf']> (columnFamilies d)) d, None).

Definition GetColumn (columnFamily rowKey columnName : string)
    (d : MultiModelDatabase) : Value * option error :=
  match columnFamilies d !! columnFamily with
  | None => (VNil, Some (ErrFamilyNotFound columnFamily))
  | Some cf =>
    match cf !! rowKey with
    | None => (VNil, Some (ErrRowNotFound rowKey columnFamily))
    | Some row =>
      match row !! columnName with
      | None => (VNil, Some (ErrColumnNotFound columnName rowKey columnFamily))
      | Some value => (value, None)
      end
    end
  end.

Definition CreateNode (id : string) (labels : option (list string))
    (props : option (gmap string Value)) (d : MultiModelDatabase)
  : MultiModelDatabase * option error :=
  match graphNodes d !! id with
  | Some _ => (d, Some (ErrNodeExists id))
  | None =>
    (with_graphNodes (<[id := GraphNode.mk id labels props]> (graphNodes d)) d,
     None)
  end.

Definition GetNode (id : string) (d : MultiModelDatabase)
  : option GraphNode.t * option error :=
  match graphNodes d !! id with
  | Some node => (Some node, None)
  | None => (None, Some (ErrNodeNotFound id))
  end.

Definition CreateEdge (id from to edgeType : string) (props : Value)
    (d : MultiModelDatabase) : MultiModelDatabase * option error :=
  match graphEdges d !! id with
  | Some _ => (d, Some (ErrEdgeExists id))
  | None =>
    match graphNodes d !! from with
    | None => (d, Some (ErrSourceMissing from))
    | Some _ =>
      match graphNodes d !! to with
      | None => (d, Some (ErrTargetMissing to))
      | Some _ =>
        (with_graphEdges
           (<[id := GraphEdge.mk id from to edgeType props]> (graphEdges d)) d,
         None)
      end
    end
  end.

Definition GetEdge (id : string) (d : MultiModelDatabase)
  : option GraphEdge.t * option error :=
  match graphEdges d !! id with
  | Some edge => (Some edge, None)
  | None => (None, Some (ErrEdgeNotFound id))
  end.

(** The filter loop of [QueryDocuments] over the entries of [filter] in the
    order they are visited: [matches] stays true as long as the document has
    each field with an equal value. *)
Fixpoint matchesFilter (doc : Fields) (entries : list (string * Value))
  : outcome bool :=
  match entries with
  | [] => Returns true
  | (field, expectedValue) :: rest =>
    match doc !! field with
    | None => Returns false
    | Some actualValue =>
      same ← iface_eq actualValue expectedValue;
      if same : bool then matchesFilter doc rest else Returns false
    end
  end.

(** The entries a [range] over [m] yields when it visits the keys in the
    order [ord]. *)
Definition rangeEntries {A} (ord : list string) (m : gmap string A)
  : list (string * A) :=
  omap (fun k => (fun v => (k, v)) <$> m !! k) ord.

(** The loop of [QueryDocuments] over the documents, from the [i]-th visited
    entry on; [fords i] is the order in which the filter is visited for that
    entry. *)
Fixpoint queryLoop (h : gmap addr Fields) (collection : string)
    (filter : Fields) (fords : nat → list string) (i : nat)
    (entries : list (string * Document)) (results : list Document)
  : outcome (list Document) :=
  match entries with
  | [] => Returns results
  | (key, doc) :: rest =>
    if bool_decide (collection = "") || String.prefix collection key then
      fields ← fieldsOf h doc;
      matches ← matchesFilter fields (rangeEntries (fords i) filter);
      queryLoop h collection filter fords (S i) rest
                (if matches : bool then results ++ [doc] else results)
    else queryLoop h collection filter fords (S i) rest results
  end.

Definition QueryDocuments (ord : list string) (fords : nat → list string)
    (collection : string) (filter : Fields) (d : MultiModelDatabase)
  : outcome (list Document * option error) :=
  results ← queryLoop (docHeap d) collection filter fords 0
                      (rangeEntries ord (documents d)) [];
  Returns (results, None).

End db.

(** ** Invariants and vocabulary for the stores *)

(** [ord] is an order in which a [range] loop may visit the keys of [m]. *)
Definition keys_order {A} (m : gmap string A) (ord : list string) : Prop :=
  NoDup ord ∧ list_to_set ord = dom m.

#[global] Instance keys_order_dec {A} (m : gmap string A) ord :
  Decision (keys_order m ord).
Proof. unfold keys_order. apply _. Defined.

(** A [Document] is nil or refers to a map that exists. *)
Definition allocated (d : db.MultiModelDatabase) (doc : db.Document) : Prop :=
  match doc with
  | None => True
  | Some a => is_Some (db.docHeap d !! a)
  end.

#[global] Instance allocated_dec d doc : Decision (allocated d doc).
Proof. destruct doc; simpl; apply _. Defined.

Definition docs_ok (d : db.MultiModelDatabase) : Prop :=
  map_Forall (fun _ doc => allocated d doc) (db.documents d).

#[global] Instance docs_ok_dec d : Decision (docs_ok d).
Proof. unfold docs_ok. apply _. Defined.

(** Every node and edge is filed under its own id, and both ends of every
    edge are nodes of the graph. *)
Definition graph_ok (d : db.MultiModelDatabase) : Prop :=
  map_Forall (fun k n => db.GraphNode.ID n = k) (db.graphNodes d)
  ∧ map_Forall (fun k e =>
                  db.GraphEdge.ID e = k
                  ∧ is_Some (db.graphNodes d !! db.GraphEdge.From e)
                  ∧ is_Some (db.graphNodes d !! db.GraphEdge.To e))
               (db.graphEdges d).

(** The operations that write the stores, and the creation of a map by a
    caller before it passes it as a [Document]. *)
Inductive StoreOp :=
| MakeMap (m : gmap string db.Value)
| DoInsertDocument (collection id : string) (doc : db.Document)
| DoUpdateDocument (collection id : string) (updates : db.Document)
| DoDeleteDocument (collection id : string)
| DoSetKeyValue (key : string) (value : db.Value)
| DoDeleteKey (key : string)
| DoInsertColumn (columnFamily rowKey columnName : string) (value : db.Value)
| DoCreateNode (id : string) (labels : option (list string))
               (props : option (gmap string db.Value))
| DoCreateEdge (id from to edgeType : string) (props : db.Value).

Definition apply (op : StoreOp) (d : db.MultiModelDatabase)
  : outcome db.MultiModelDatabase :=
  match op with
  | MakeMap m =>
    Returns (db.with_docHeap (<[fresh (dom (db.docHeap d)) := m]> (db.docHeap d)) d)
  | DoInsertDocument c id doc => Returns (db.InsertDocument c id doc d).1
  | DoUpdateDocument c id updates => fst <$> db.UpdateDocument c id updates d
  | DoDeleteDocument c id => Returns (db.DeleteDocument c id d).1
  | DoSetKeyValue k v => Returns (db.SetKeyValue k v d).1
  | DoDeleteKey k => Returns (db.DeleteKey k d).1
  | DoInsertColumn cf r c v => Returns (db.InsertColumn cf r c v d).1
  | DoCreateNode id labels props => Returns (db.CreateNode id labels props d).1
  | DoCreateEdge id from to ty props =>
    Returns (db.CreateEdge id from to ty props d).1
  end.

(** The [Document]s an operation is given refer to maps that exist. *)
Definition well_formed_op (d : db.MultiModelDatabase) (op : StoreOp) : Prop :=
  match op with
  | DoInsertDocument _ _ doc => allocated d doc
  | DoUpdateDocument _ _ updates => allocated d updates
  | _ => True
  end.

Inductive store_reachable : db.MultiModelDatabase → Prop :=
| store_new unix rnd cfg :
    store_reachable (db.NewMultiModelDatabase unix rnd cfg)
| store_step d op d' :
    store_reachable d → well_formed_op d op → apply op d = Returns d' →
    store_reachable d'.

(** The string has a '.' in it. *)
Fixpoint has_dot (s : string) : bool :=
  match s with
  | EmptyString => false
  | String a s' => bool_decide (String a EmptyString = ".") || has_dot s'
  end.

(** The values [==] compares without panicking, whatever the other side. *)
Definition comparable (v : db.Value) : bool :=
  match v with
  | db.VSlice _ | db.VMap _ => false
  | _ => true
  end.

(** The key passes the collection test of [QueryDocuments]. *)
Definition selected (collection key : string) : Prop :=
  collection = "" ∨ String.prefix collection key = true.

(** The document has every field of [filter], with an equal value. *)
Definition satisfies (h : gmap addr (gmap string db.Value))
    (filter : gmap string db.Value) (doc : db.Document) : Prop :=
  ∃ fields, db.fieldsOf h doc = Returns fields
    ∧ ∀ f v, filter !! f = Some v →
        ∃ actual, fields !! f = Some actual ∧ db.iface_eq actual v = Returns true.

(** What the column store holds at a cell, if anything. *)
Definition cell (d : db.MultiModelDatabase)
    (columnFamily rowKey columnName : string) : option db.Value :=
  cf ← db.columnFamilies d !! columnFamily;
  row ← cf !! rowKey;
  row !! columnName.

(** ** A sample store *)

Module store_sample.

Definition ann : gmap string db.Value :=
  {[ "name" := db.VString "Ann"; "city" := db.VString "Oslo" ]}.
Definition move : gmap string db.Value :=
  {[ "city" := db.VString "Rome"; "zip" := db.VString "00100" ]}.
Definition bob : gmap string db.Value :=
  {[ "name" := db.VString "Bob"; "city" := db.VString "Oslo" ]}.

(** An empty store. *)
Definition d0 : db.MultiModelDatabase :=
  db.NewMultiModelDatabase 1700000000 42 (sample.cfg 1).

(** ... after the caller made three maps ... *)
Definition d1 : db.MultiModelDatabase :=
  db.with_docHeap {[ 0%nat := ann; 1%nat := move; 2%nat := bob ]} d0.

(** ... and stored the first as "users"/"1" and the third as
    "users_archive"/"7". *)
Definition d2 : db.MultiModelDatabase :=
  (db.InsertDocument "users_archive" "7" (Some 2%nat)
     (db.InsertDocument "users" "1" (Some 0%nat) d1).1).1.

(** A graph of two nodes and an edge between them. *)
Definition g2 : db.MultiModelDatabase :=
  (db.CreateEdge "e1" "n1" "n2" "knows" db.VNil
     (db.CreateNode "n2" None None (db.CreateNode "n1" None None d0).1).1).1.

End store_sample.

(** ** Path cleaning of the router *)

(** A URL path is held by its segments: "/a/b" is ["a"; "b"], "/a/" is
    ["a"; EmptyString]; a segment has no '/' in it. *)
Module mux.

Fixpoint join (segs : list string) : string :=
  match segs with
  | [] => EmptyString
  | [s] => s
  | s :: rest => s +:+ "/" +:+ join rest
  end.

Definition render (segs : list string) : string := "/" +:+ join segs.

(** [path.Clean] on a rooted path: empty and "." elements are dropped, ".."
    drops the element before it (and is dropped itself at the root). *)
Fixpoint cleanLoop (segs out : list string) : list string :=
  match segs with
  | [] => rev out
  | s :: rest =>
    if bool_decide (s = EmptyString) || bool_decide (s = ".")
    then cleanLoop rest out
    else if bool_decide (s = "..") then cleanLoop rest (tail out)
    else cleanLoop rest (s :: out)
  end.

(** The rendered path ends with a '/'. *)
Definition endsWithSlash (segs : list string) : bool :=
  match last segs with
  | None => true
  | Some s => bool_decide (s = EmptyString)
  end.

(** [cleanPath]: [path.Clean], with the trailing slash put back. *)
Definition cleanPath (segs : list string) : string :=
  let np := render (cleanLoop segs []) in
  if endsWithSlash segs && negb (bool_decide (np = "/")) then np +:+ "/"
  else np.

(** The router answers a request whose path is not clean with a redirect
    to the clean one, before it looks at the routes. *)
Definition isClean (segs : list string) : bool :=
  bool_decide (cleanPath segs = render segs).

End mux.

(** ** The document handlers ([internal/server/routes.go]) *)

Module api.

(** What [readJSONBody(r, &dst)] leaves: an error, or the value decoded into
    [dst].  For a [Document] that is a new map, or the nil map when the body
    is the JSON [null]. *)
Inductive Decoded (A : Type) :=
| DecodeError
| DecodeOK (x : A).
Arguments DecodeError {A}.
Arguments DecodeOK {A} x.

Definition StatusCreated : Z := 201.
Definition StatusInternalServerError : Z := 500.

Inductive Failure :=
| InvalidJSON                 (* "Invalid JSON in request body" *)
| StoreError (e : db.error)   (* [err.Error()] *)
| ClusteringDisabled          (* "Clustering is not enabled" *)
| EndpointNotFound.           (* "Endpoint not found" *)

(** The [Data] of a response as it is encoded: nothing, a document (its
    entries, [None] for the nil map), a list of documents, a stored value,
    a graph node or edge, the cluster status ([enabled] and the [nodes]
    listed), the node just added. *)
Inductive Data :=
| NoData
| DocData (fields : option (gmap string db.Value))
| DocsData (docs : list (option (gmap string db.Value)))
| ValueData (value : db.Value)
| GraphNodeData (node : option db.GraphNode.t)
| GraphEdgeData (edge : option db.GraphEdge.t)
| ClusterData (enabled : bool) (nodes : list Node)
| ClusterNodeData (node : Node).

Record Response := mkResponse {
  code : Z;
  Success : bool;
  Message : string;
  data : Data;
  Error : option Failure;
}.

Definition failed (code : Z) (f : Failure) : Response :=
  mkResponse code false EmptyString NoData (Some f).

(** The [Document] that decoding [content] makes: nil, or a new map. *)
Definition newDocument (content : option (gmap string db.Value))
    (d : db.MultiModelDatabase) : db.Document * db.MultiModelDatabase :=
  match content with
  | None => (None, d)
  | Some m =>
    let a := fresh (dom (db.docHeap d)) in
    (Some a, db.with_docHeap (<[a := m]> (db.docHeap d)) d)
  end.

(** The entries of a [Document] when it is encoded. *)
Definition encode (h : gmap addr (gmap string db.Value)) (doc : db.Document)
  : outcome (option (gmap string db.Value)) :=
  match doc with
  | None => Returns None
  | Some a => Some <$> h !! a
  end.

Definition createDocumentHandler (collection id : string)
    (body : Decoded (option (gmap string db.Value)))
    (d : db.MultiModelDatabase) : db.MultiModelDatabase * Response :=
  match body with
  | DecodeError => (d, failed server.StatusBadRequest InvalidJSON)
  | DecodeOK content =>
    let '(doc, d1) := newDocument content d in
    match db.InsertDocument collection id doc d1 with
    | (d2, Some err) => (d2, failed StatusInternalServerError (StoreError err))
    | (d2, None) =>
      (d2, mkResponse StatusCreated true "Document created successfully"
                      (DocData content) None)
    end
  end.

Definition getDocumentHandler (collection id : string)
    (d : db.MultiModelDatabase) : outcome Response :=
  match db.GetDocument collection id d with
  | (_, Some err) => Returns (failed server.StatusNotFound (StoreError err))
  | (doc, None) =>
    fields ← encode (db.docHeap d) doc;
    Returns (mkResponse StatusOK true EmptyString (DocData fields) None)
  end.

Definition updateDocumentHandler (collection id : string)
    (body : Decoded (option (gmap string db.Value)))
    (d : db.MultiModelDatabase) : outcome (db.MultiModelDatabase * Response) :=
  match body with
  | DecodeError => Returns (d, failed server.StatusBadRequest InvalidJSON)
  | DecodeOK content =>
    let '(updates, d1) := newDocument content d in
    '(d2, err) ← db.UpdateDocument collection id updates d1;
    match err with
    | Some err =>
      Returns (d2, failed StatusInternalServerError (StoreError err))
    | None =>
      Returns (d2, mkResponse StatusOK true "Document updated successfully"
                              NoData None)
    end
  end.

Definition deleteDocumentHandler (collection id : string)
    (d : db.MultiModelDatabase) : db.MultiModelDatabase * Response :=
  match db.DeleteDocument collection id d with
  | (d', Some err) => (d', failed StatusInternalServerError (StoreError err))
  | (d', None) =>
    (d', mkResponse StatusOK true "Document deleted successfully" NoData None)
  end.

(** [queryDocumentsHandler]; [query] is [r.URL.Query()], of which the first
    value of each parameter becomes a filter entry. *)
Definition filtersOf (query : gmap string (list string))
  : gmap string db.Value :=
  db.VString <$> omap head query.

Definition queryDocumentsHandler (ord : list string)
    (fords : nat → list string) (collection : string)
    (query : gmap string (list string)) (d : db.MultiModelDatabase)
  : outcome Response :=
  let filters := filtersOf query in
  '(docs, err) ← db.QueryDocuments ord fords collection filters d;
  match err with
  | Some err => Returns (failed StatusInternalServerError (StoreError err))
  | None =>
    encoded ← mapM (encode (db.docHeap d)) docs;
    Returns (mkResponse StatusOK true EmptyString (DocsData encoded) None)
  end.

(** The requests that reach the handlers which write the document store. *)
Inductive Write :=
| Create (collection id : string) (body : Decoded (option (gmap string db.Value)))
| Update (collection id : string) (body : Decoded (option (gmap string db.Value)))
| Delete (collection id : string).

Definition handle (w : Write) (d : db.MultiModelDatabase)
  : outcome (db.MultiModelDatabase * Response) :=
  match w with
  | Create collection id body =>
    Returns (createDocumentHandler collection id body d)
  | Update collection id body => updateDocumentHandler collection id body d
  | Delete collection id => Returns (deleteDocumentHandler collection id d)
  end.

(** The states of the store a server that answers only these requests can
    be in. *)
Inductive reachable : db.MultiModelDatabase → Prop :=
| reachable_new unix rnd cfg :
    reachable (db.NewMultiModelDatabase unix rnd cfg)
| reachable_step d w d' r :
    reachable d → handle w d = Returns (d', r) → reachable d'.

(** *** The other handlers and the router's [ServeHTTP] *)

Definition StatusMovedPermanently : Z := 301.

Definition succeeded (code : Z) (message : string) (data : Data) : Response :=
  mkResponse code true message data None.

Definition healthHandler : Response :=
  succeeded StatusOK "Multi-Model Database Engine is running" NoData.

Definition setKeyValueHandler (key : string) (body : Decoded db.Value)
    (d : db.MultiModelDatabase) : db.MultiModelDatabase * Response :=
  match body with
  | DecodeError => (d, failed server.StatusBadRequest InvalidJSON)
  | DecodeOK value =>
    match db.SetKeyValue key value d with
    | (d', Some err) => (d', failed StatusInternalServerError (StoreError err))
    | (d', None) =>
      (d', succeeded StatusOK "Key-value pair set successfully" NoData)
    end
  end.

Definition getKeyValueHandler (key : string) (d : db.MultiModelDatabase)
  : Response :=
  match db.GetKeyValue key d with
  | (_, Some err) => failed server.StatusNotFound (StoreError err)
  | (value, None) => succeeded StatusOK EmptyString (ValueData value)
  end.

Definition deleteKeyHandler (key : string) (d : db.MultiModelDatabase)
  : db.MultiModelDatabase * Response :=
  match db.DeleteKey key d with
  | (d', Some err) => (d', failed server.StatusNotFound (StoreError err))
  | (d', None) => (d', succeeded StatusOK "Key deleted successfully" NoData)
  end.

Definition insertColumnHandler (family row column : string)
    (body : Decoded db.Value) (d : db.MultiModelDatabase)
  : db.MultiModelDatabase * Response :=
  match body with
  | DecodeError => (d, failed server.StatusBadRequest InvalidJSON)
  | DecodeOK value =>
    match db.InsertColumn family row column value d with
    | (d', Some err) => (d', failed StatusInternalServerError (StoreError err))
    | (d', None) =>
      (d', succeeded StatusOK "Column value inserted successfully" NoData)
    end
  end.

Definition getColumnHandler (family row column : string)
    (d : db.MultiModelDatabase) : Response :=
  match db.GetColumn family row column d with
  | (_, Some err) => failed server.StatusNotFound (StoreError err)
  | (value, None) => succeeded StatusOK EmptyString (ValueData value)
  end.

(** The struct that [createNodeHandler] decodes: id, labels, props. *)
Definition NodeFields : Type :=
  string * option (list string) * option (gmap string db.Value).

Definition createNodeHandler (body : Decoded NodeFields)
    (d : db.MultiModelDatabase) : db.MultiModelDatabase * Response :=
  match body with
  | DecodeError => (d, failed server.StatusBadRequest InvalidJSON)
  | DecodeOK (id, labels, props) =>
    match db.CreateNode id labels props d with
    | (d', Some err) => (d', failed StatusInternalServerError (StoreError err))
    | (d', None) => (d', succeeded StatusCreated "Node created successfully" NoData)
    end
  end.

Definition getNodeHandler (id : string) (d : db.MultiModelDatabase)
  : Response :=
  match db.GetNode id d with
  | (_, Some err) => failed server.StatusNotFound (StoreError err)
  | (node, None) => succeeded StatusOK EmptyString (GraphNodeData node)
  end.

(** The struct that [createEdgeHandler] decodes: id, from, to, type, props. *)
Definition EdgeFields : Type := string * string * string * string * db.Value.

Definition createEdgeHandler (body : Decoded EdgeFields)
    (d : db.MultiModelDatabase) : db.MultiModelDatabase * Response :=
  match body with
  | DecodeError => (d, failed server.StatusBadRequest InvalidJSON)
  | DecodeOK (id, from, to, edgeType, props) =>
    match db.CreateEdge id from to edgeType props d with
    | (d', Some err) => (d', failed StatusInternalServerError (StoreError err))
    | (d', None) => (d', succeeded StatusCreated "Edge created successfully" NoData)
    end
  end.

Definition getEdgeHandler (id : string) (d : db.MultiModelDatabase)
  : Response :=
  match db.GetEdge id d with
  | (_, Some err) => failed server.StatusNotFound (StoreError err)
  | (edge, None) => succeeded StatusOK EmptyString (GraphEdgeData edge)
  end.

Definition clusterStatusHandler (ord : list string)
    (d : db.MultiModelDatabase) : outcome Response :=
  match db.Cluster d with
  | None =>
    Returns (succeeded StatusOK "Clustering is disabled" (ClusterData false []))
  | Some c =>
    nodes ← GetActiveNodes ord c;
    nodeInfo ← mapM (fun p => heap c !! p) nodes;
    Returns (succeeded StatusOK EmptyString (ClusterData true nodeInfo))
  end.

Definition addNodeHandler (now : Z) (ord : list string)
    (body : server.RequestBody) (d : db.MultiModelDatabase)
  : outcome (db.MultiModelDatabase * Response) :=
  match db.Cluster d with
  | None => Returns (d, failed server.StatusServiceUnavailable ClusteringDisabled)
  | Some c =>
    match server.readNodeData body with
    | None => Returns (d, failed server.StatusBadRequest InvalidJSON)
    | Some (address, port) =>
      active ← GetActiveNodes ord c;
      let p := alloc (heap c) in
      let node := mkNode ("node-" +:+ pretty (len active)) address port
                         "active" 0 in
      '(c', _) ← AddNode now p (with_heap (<[p := node]> (heap c)) c);
      n ← heap c' !! p;
      Returns (db.with_Cluster (Some c') d,
               succeeded StatusOK "Node added to cluster" (ClusterNodeData n))
    end
  end.

Definition notFoundHandler : Response :=
  failed server.StatusNotFound EndpointNotFound.

(** A request: its method, path and query, and what its body decodes to as
    each of the types a handler reads it into (only the handler the request
    is routed to looks at its own). *)
Record Request := mkRequest {
  method : server.Method;
  path : list string;
  query : gmap string (list string);
  asDocument : Decoded (option (gmap string db.Value));
  asValue : Decoded db.Value;
  asNodeFields : Decoded NodeFields;
  asEdgeFields : Decoded EdgeFields;
  asClusterNode : server.RequestBody;
}.

(** What the handlers take from outside the request: the clock and the
    orders in which the maps are visited. *)
Record Env := mkEnv {
  now : Z;
  registryOrder : list string;
  documentsOrder : list string;
  filterOrder : nat → list string;
}.

Inductive Answer :=
| MovedPermanently (location : string)
| Answered (r : Response).

(** The [i]-th path segment, as [mux.Vars] gives the variable there. *)
Definition segment (req : Request) (i : nat) : string :=
  default EmptyString (path req !! i).

(** The router with the routes of [SetupRoutes]: one request served. *)
Definition ServeHTTP (env : Env) (req : Request) (d : db.MultiModelDatabase)
  : outcome (db.MultiModelDatabase * Answer) :=
  if negb (mux.isClean (path req))
  then Returns (d, MovedPermanently (mux.cleanPath (path req)))
  else
    match server.route (method req) (path req) with
    | server.healthHandler => Returns (d, Answered healthHandler)
    | server.createDocumentHandler =>
      let '(d', r) := createDocumentHandler (segment req 1) (segment req 2)
                                             (asDocument req) d in
      Returns (d', Answered r)
    | server.getDocumentHandler =>
      r ← getDocumentHandler (segment req 1) (segment req 2) d;
      Returns (d, Answered r)
    | server.updateDocumentHandler =>
      '(d', r) ← updateDocumentHandler (segment req 1) (segment req 2)
                                        (asDocument req) d;
      Returns (d', Answered r)
    | server.deleteDocumentHandler =>
      let '(d', r) := deleteDocumentHandler (segment req 1) (segment req 2) d in
      Returns (d', Answered r)
    | server.queryDocumentsHandler =>
      r ← queryDocumentsHandler (documentsOrder env) (filterOrder env)
                                (segment req 1) (query req) d;
      Returns (d, Answered r)
    | server.setKeyValueHandler =>
      let '(d', r) := setKeyValueHandler (segment req 1) (asValue req) d in
      Returns (d', Answered r)
    | server.getKeyValueHandler =>
      Returns (d, Answered (getKeyValueHandler (segment req 1) d))
    | server.deleteKeyHandler =>
      let '(d', r) := deleteKeyHandler (segment req 1) d in
      Returns (d', Answered r)
    | server.insertColumnHandler =>
      let '(d', r) := insertColumnHandler (segment req 1) (segment req 2)
                                          (segment req 3) (asValue req) d in
      Returns (d', Answered r)
    | server.getColumnHandler =>
      Returns (d, Answered (getColumnHandler (segment req 1) (segment req 2)
                                             (segment req 3) d))
    | server.createNodeHandler =>
      let '(d', r) := createNodeHandler (asNodeFields req) d in
      Returns (d', Answered r)
    | server.getNodeHandler =>
      Returns (d, Answered (getNodeHandler (segment req 2) d))
    | server.createEdgeHandler =>
      let '(d', r) := createEdgeHandler (asEdgeFields req) d in
      Returns (d', Answered r)
    | server.getEdgeHandler =>
      Returns (d, Answered (getEdgeHandler (segment req 2) d))
    | server.clusterStatusHandler =>
      r ← clusterStatusHandler (registryOrder env) d;
      Returns (d, Answered r)
    | server.addNodeHandler =>
      '(d', r) ← addNodeHandler (now env) (registryOrder env)
                                (asClusterNode req) d;
      Returns (d', Answered r)
    | server.notFoundHandler => Returns (d, Answered notFoundHandler)
    end.

End api.

(** No two keys of the document store share a map. *)
Definition docs_separate (d : db.MultiModelDatabase) : Prop :=
  ∀ k1 k2 a, db.documents d !! k1 = Some (Some a) →
             db.documents d !! k2 = Some (Some a) → k1 = k2.

(** A store as the handlers leave it. *)
Module api_sample.

Definition s0 : db.MultiModelDatabase :=
  db.NewMultiModelDatabase 1700000000 42 (sample.cfg 1).
Definition s1 : db.MultiModelDatabase :=
  (api.createDocumentHandler "users" "1"
     (api.DecodeOK (Some store_sample.ann)) s0).1.
Definition s2 : db.MultiModelDatabase :=
  (api.createDocumentHandler "users_archive" "7"
     (api.DecodeOK (Some store_sample.bob)) s1).1.

End api_sample.

(** ** A sample cluster behind the server *)

Module served_sample.

(** The probe of the second visited node fails. *)
Definition lossy (i : nat) : HttpResult :=
  match i with
  | 1%nat => HttpErr "timeout"
  | _ => HttpResp StatusOK
  end.

(** Self and two peers after a heartbeat in which "node-1" did not answer. *)
Definition c3_after_probe : Cluster :=
  match performHeartbeat sample.ord3 lossy (fun _ => 70) (sample.c3 3) with
  | Some (c, _) => c
  | None => sample.c3 3
  end.

End served_sample.

(** A request to add a peer, for a server whose registry holds self alone. *)
Module request_sample.

Definition env : api.Env :=
  api.mkEnv 80 [sample.selfId] [] (fun _ => []).

Definition addPeer : api.Request :=
  api.mkRequest server.POST ["cluster"; "nodes"] ∅
                api.DecodeError api.DecodeError api.DecodeError api.DecodeError
                (server.BodyObject "10.0.0.2" "9090").

End request_sample.

(** * Theorems *)

(** Settles a decidable closed proposition by evaluation. *)
Ltac by_evaluation :=
  match goal with
  | |- ?P => apply (@bool_decide_unpack P _); vm_compute; exact I
  end.

(** ** Fixed-width arithmetic *)

Lemma fold_left_pointwise {A B} (f g : A → B → A) (l : list B) (a : A) :
  (∀ x y, f x y = g x y) → fold_left f l a = fold_left g l a.
Proof.
  intros Hfg. revert a. induction l as [|b l IH]; intros a; simpl;
    [reflexivity|].
  rewrite Hfg. apply IH.
Qed.

Section goint_facts.

Variable w : Z.
Hypothesis w_pos : 0 < w.

Lemma pow2_split : 2 ^ w = 2 * 2 ^ (w - 1).
Proof.
  replace w with (1 + (w - 1)) at 1 by lia.
  rewrite Z.pow_add_r by lia. reflexivity.
Qed.

Lemma pow2_half_pos : 0 < 2 ^ (w - 1).
Proof. apply Z.pow_pos_nonneg; lia. Qed.

Lemma wrap_in_range z : goint.in_range w (goint.wrap w z).
Proof.
  unfold goint.in_range, goint.wrap.
  pose proof pow2_half_pos as Hh. pose proof pow2_split as Hs.
  pose proof (Z.mod_pos_bound (z + 2 ^ (w - 1)) (2 ^ w)) as Hb. lia.
Qed.

Lemma wrap_mod z : goint.wrap w z mod 2 ^ w = z mod 2 ^ w.
Proof.
  unfold goint.wrap.
  rewrite Zminus_mod_idemp_l. f_equal. lia.
Qed.

Lemma wrap_congr a b : a mod 2 ^ w = b mod 2 ^ w → goint.wrap w a = goint.wrap w b.
Proof.
  intros Hab. unfold goint.wrap.
  rewrite <- (Zplus_mod_idemp_l a), <- (Zplus_mod_idemp_l b), Hab.
  reflexivity.
Qed.

Lemma wrap_id z : goint.in_range w z → goint.wrap w z = z.
Proof.
  unfold goint.in_range, goint.wrap. intros Hz.
  pose proof pow2_split as Hs.
  rewrite Z.mod_small by lia. lia.
Qed.

Lemma hashStep_polyStep h c : hashStep w h c = polyStep w h c.
Proof.
  unfold hashStep, polyStep, goint.add, goint.sub, goint.shl.
  apply wrap_congr.
  rewrite <- Zplus_mod_idemp_l, wrap_mod, Zplus_mod_idemp_l.
  rewrite <- (Zplus_mod_idemp_l (_ - _)), <- (Zminus_mod_idemp_l _ h), wrap_mod.
  rewrite Zminus_mod_idemp_l, Zplus_mod_idemp_l.
  rewrite Z.shiftl_mul_pow2 by lia. f_equal. lia.
Qed.

Lemma fold_hashStep_polyStep rs h :
  fold_left (hashStep w) rs h = fold_left (polyStep w) rs h.
Proof.
  apply fold_left_pointwise, hashStep_polyStep.
Qed.

Lemma fold_polyStep_exact cs h h' :
  h mod 2 ^ w = h' mod 2 ^ w →
  fold_left (polyStep w) cs h mod 2 ^ w
  = fold_left (fun a c => a * 31 + c) cs h' mod 2 ^ w.
Proof.
  revert h h'. induction cs as [|c cs IH]; intros h h' Hh; cbn [fold_left];
    [exact Hh|].
  apply IH. unfold polyStep. rewrite wrap_mod.
  rewrite <- Zplus_mod_idemp_l, <- Zmult_mod_idemp_l, Hh.
  rewrite Zmult_mod_idemp_l, Zplus_mod_idemp_l. reflexivity.
Qed.

Lemma hashRunes_in_range rs : goint.in_range w (hashRunes w rs).
Proof.
  unfold hashRunes.
  destruct rs as [|r rs] using rev_ind.
  - cbn [fold_left]. unfold goint.in_range. pose proof pow2_half_pos. lia.
  - rewrite fold_left_app. cbn [fold_left]. apply wrap_in_range.
Qed.

End goint_facts.

(** C9.  For every width [w] of [int], every key and every prefix of the
    key's characters, the hash loop of [GetPartitionForKey] — the step
    [(hash << 5) - hash + int(r)] folded from 0 — computes the rolling
    polynomial accumulator [h = h*31 + codepoint] reduced to [w] bits: each
    step equals the reference step, the accumulated value equals the
    reference accumulator, and it is congruent modulo [2^w] to the
    accumulator over unbounded integers. *)
Theorem hash_is_rolling_polynomial (w : Z) (key : string) (n : nat) :
  let pre := take n (utf8.runes key) in
  (∀ h c, hashStep w h c = polyStep w h c)
  ∧ hashRunes w pre = polyHash w pre
  ∧ hashRunes w pre mod 2 ^ w = polyExact pre mod 2 ^ w
  ∧ hashKey w key = polyHash w (utf8.runes key).
Proof.
  intros pre. split; [|split; [|split]].
  - intros h c. apply hashStep_polyStep.
  - exact (fold_hashStep_polyStep w pre 0).
  - unfold hashRunes, polyExact. rewrite (fold_hashStep_polyStep w pre 0).
    apply fold_polyStep_exact; reflexivity.
  - exact (fold_hashStep_polyStep w (utf8.runes key) 0).
Qed.

Example hashKey_user42 :
  hashKey intSize "user:42" = 107227012237
  ∧ hashKey intSize "zzzzzzzzzzzzzzzzzzzzzzzz" = 175504754551494400
  ∧ polyExact (utf8.runes "zzzzzzzzzzzzzzzzzzzzzzzz")
    = 2523011487926479265299088503064172288.
Proof. vm_compute. auto. Qed.

(** ** The registry and its snapshots *)

Lemma collectActive_spec h ps acc :
  Forall (fun p => is_Some (h !! p)) ps →
  collectActive h ps acc = Returns (acc ++ filter (isActive h) ps).
Proof.
  intros Hall. revert acc.
  induction Hall as [|p ps [n Hn] _ IH]; intros acc; simpl.
  - by rewrite app_nil_r.
  - rewrite Hn. simpl. rewrite IH, filter_cons.
    destruct (decide (Status n = "active")) as [Ha|Ha].
    + rewrite decide_True; [by rewrite <- app_assoc|].
      unfold isActive. rewrite Hn. simpl. by rewrite Ha.
    + rewrite decide_False; [done|].
      unfold isActive. rewrite Hn. simpl. congruence.
Qed.

Lemma rangeMap_elem ord m p :
  p ∈ rangeMap ord m ↔ ∃ k, k ∈ ord ∧ m !! k = Some p.
Proof. unfold rangeMap. apply list_elem_of_omap. Qed.

Lemma registry_ok_lookup c k p :
  registry_ok c → nodes c !! k = Some p →
  ∃ n, heap c !! p = Some n ∧ ID n = k.
Proof.
  intros [Hm _] Hk. specialize (Hm k p Hk). simpl in Hm.
  destruct (heap c !! p) as [n|]; simplify_eq/=. eauto.
Qed.

Lemma rangeMap_allocated ord c :
  registry_ok c → Forall (fun p => is_Some (heap c !! p)) (rangeMap ord (nodes c)).
Proof.
  intros Hok. apply Forall_forall. intros p (k & _ & Hk)%rangeMap_elem.
  destruct (registry_ok_lookup c k p Hok Hk) as (n & Hn & _). eauto.
Qed.

Lemma GetActiveNodes_spec ord c :
  registry_ok c → GetActiveNodes ord c = Returns (activeSnapshot ord c).
Proof.
  intros Hok. unfold GetActiveNodes.
  rewrite collectActive_spec by by apply rangeMap_allocated. done.
Qed.

Lemma iteration_order_elem m ord k :
  iteration_order m ord → k ∈ ord ↔ is_Some (m !! k).
Proof.
  intros [_ Hd]. rewrite <- elem_of_dom, <- Hd. by rewrite elem_of_list_to_set.
Qed.

Lemma iteration_order_perm m o1 o2 :
  iteration_order m o1 → iteration_order m o2 → o1 ≡ₚ o2.
Proof.
  intros H1 H2. apply NoDup_Permutation; [apply H1|apply H2|].
  intros k. by rewrite !(iteration_order_elem m).
Qed.

Lemma iteration_order_length m ord :
  iteration_order m ord → length ord = size m.
Proof.
  intros [Hnd Hd]. rewrite <- size_dom, <- Hd.
  by rewrite size_list_to_set.
Qed.

Lemma activeSnapshot_perm c o1 o2 :
  iteration_order (nodes c) o1 → iteration_order (nodes c) o2 →
  activeSnapshot o1 c ≡ₚ activeSnapshot o2 c.
Proof.
  intros H1 H2. unfold activeSnapshot, rangeMap.
  by rewrite (iteration_order_perm _ _ _ H1 H2).
Qed.

Lemma rangeMap_length ord m : (length (rangeMap ord m) ≤ length ord)%nat.
Proof.
  unfold rangeMap. induction ord as [|k ord IH]; csimpl; [lia|].
  destruct (m !! k); csimpl; lia.
Qed.

Lemma activeSnapshot_length ord c :
  iteration_order (nodes c) ord →
  (length (activeSnapshot ord c) ≤ size (nodes c))%nat.
Proof.
  intros Ho. unfold activeSnapshot.
  pose proof (length_filter (isActive (heap c)) (rangeMap ord (nodes c))) as H1.
  pose proof (rangeMap_length ord (nodes c)) as H2.
  rewrite <- (iteration_order_length _ _ Ho).
  etrans; [exact H1|exact H2].
Qed.

(** ** Partitioner *)

Lemma rem_abs_bound a b : 0 < b → - b < goint.rem a b < b.
Proof.
  intros Hb. unfold goint.rem.
  destruct (Z_le_gt_dec 0 a) as [Ha|Ha].
  - pose proof (Z.rem_bound_pos a b Ha Hb). lia.
  - pose proof (Z.rem_bound_pos (- a) b ltac:(lia) Hb) as H.
    rewrite Z.rem_opp_l in H by lia. lia.
Qed.

(** The index [GetPartitionForKey] computes from a hash and [len]. *)
Lemma partition_index_bound hash N :
  0 < N < 2 ^ (intSize - 1) →
  let r := goint.rem hash N in
  0 <= (if decide (r < 0) then goint.neg intSize r else r) < N.
Proof.
  intros HN r. pose proof (rem_abs_bound hash N ltac:(lia)) as Hr.
  fold r in Hr. destruct (decide (r < 0)) as [Hneg|Hpos]; [|lia].
  unfold goint.neg. rewrite wrap_id; [lia| |]; unfold intSize in *; [lia|].
  unfold goint.in_range. lia.
Qed.

Lemma index_Some {A} (s : list A) i :
  0 <= i < len s → ∃ x, index s i = Returns x ∧ s !! Z.to_nat i = Some x.
Proof.
  intros Hi. unfold index. rewrite decide_True by done.
  destruct (lookup_lt_is_Some_2 s (Z.to_nat i)) as [x Hx].
  { unfold len in Hi. lia. }
  eauto.
Qed.

Lemma addressable_len ord c :
  addressable c → iteration_order (nodes c) ord →
  len (activeSnapshot ord c) < 2 ^ (intSize - 2).
Proof.
  unfold addressable, len. intros Ha Ho.
  pose proof (activeSnapshot_length ord c Ho). lia.
Qed.

Lemma GetPartitionForKey_spec ord key c :
  registry_ok c → addressable c → iteration_order (nodes c) ord →
  let snapshot := activeSnapshot ord c in
  let r := goint.rem (hashKey intSize key) (len snapshot) in
  let i := if decide (r < 0) then goint.neg intSize r else r in
  (len snapshot = 0 ∧ GetPartitionForKey ord key c = Returns None)
  ∨ (0 < len snapshot ∧ 0 <= i < len snapshot ∧
     ∃ node, snapshot !! Z.to_nat i = Some node ∧
             GetPartitionForKey ord key c = Returns (Some node)).
Proof.
  intros Hok Ha Ho snapshot r i. unfold GetPartitionForKey.
  rewrite GetActiveNodes_spec by done. simpl. fold snapshot.
  destruct (decide (len snapshot = 0)) as [Hz|Hnz]; [by left|right].
  assert (0 < len snapshot) as Hpos by (unfold len in *; lia).
  pose proof (addressable_len ord c Ha Ho) as Hlt. fold snapshot in Hlt.
  assert (0 <= i < len snapshot) as Hi.
  { apply partition_index_bound. split; [done|].
    unfold intSize in *. simpl in *. lia. }
  split; [done|]. split; [done|].
  destruct (index_Some snapshot i Hi) as (node & Hix & Hlk).
  exists node. split; [done|]. fold r. fold i. by rewrite Hix.
Qed.

(** C3.  For every key and every registry, with [N] the size of the
    active-node snapshot [GetPartitionForKey] takes: if [N = 0] it returns
    nil; if [N > 0] the index it computes lies in [0, N), so indexing the
    snapshot does not panic, and the node returned is the element of the
    snapshot at that index. *)
Theorem GetPartitionForKey_in_bounds (ord : list string) (key : string)
    (c : Cluster) :
  registry_ok c → addressable c → iteration_order (nodes c) ord →
  ∃ snapshot,
    GetActiveNodes ord c = Returns snapshot
    ∧ (len snapshot = 0 → GetPartitionForKey ord key c = Returns None)
    ∧ (0 < len snapshot →
       let r := goint.rem (hashKey intSize key) (len snapshot) in
       let i := if decide (r < 0) then goint.neg intSize r else r in
       0 <= i < len snapshot
       ∧ ∃ node, index snapshot i = Returns node
                 ∧ node ∈ snapshot
                 ∧ GetPartitionForKey ord key c = Returns (Some node)).
Proof.
  intros Hok Ha Ho. exists (activeSnapshot ord c).
  split; [by apply GetActiveNodes_spec|].
  destruct (GetPartitionForKey_spec ord key c Hok Ha Ho)
    as [[Hz Hret]|(Hpos & Hi & node & Hlk & Hret)].
  - split; [done|]. intros Hpos. lia.
  - split; [intros Hz; lia|]. intros _. split; [done|].
    exists node. split; [|split; [|done]].
    + unfold index. by rewrite decide_True.
    + by eapply list_elem_of_lookup_2.
Qed.

Lemma GetPartitionForKey_in_bounds_witness :
  registry_ok (sample.c3 3) ∧ addressable (sample.c3 3)
  ∧ iteration_order (nodes (sample.c3 3)) sample.ord3'
  ∧ ∃ snapshot node,
      GetActiveNodes sample.ord3' (sample.c3 3) = Returns snapshot
      ∧ GetPartitionForKey sample.ord3' "user:42" (sample.c3 3)
        = Returns (Some node)
      ∧ node ∈ snapshot.
Proof.
  assert (registry_ok (sample.c3 3)) as H1 by by_evaluation.
  assert (addressable (sample.c3 3)) as H2 by by_evaluation.
  assert (iteration_order (nodes (sample.c3 3)) sample.ord3') as H3
    by by_evaluation.
  split; [exact H1|]. split; [exact H2|]. split; [exact H3|].
  destruct (GetPartitionForKey_in_bounds sample.ord3' "user:42" (sample.c3 3)
              H1 H2 H3) as (snapshot & Hs & _ & Hpos).
  assert (0 < len snapshot) as Hlen.
  { assert (GetActiveNodes sample.ord3' (sample.c3 3) = Returns [2; 0; 1]%nat)
      as Hc by (vm_compute; reflexivity).
    rewrite Hc in Hs. injection Hs as <-. reflexivity. }
  destruct (Hpos Hlen) as (_ & node & _ & Hin & Hret).
  exists snapshot, node. split; [exact Hs|]. split; [exact Hret|exact Hin].
Defined.

(** C1.  The order of the snapshot is the order in which the [range] loop of
    [GetActiveNodes] happens to visit the registry map: on one registry
    (self and one peer, both active) two admissible iteration orders give
    two different snapshots, one of them not sorted by node id, and
    [GetPartitionForKey] gives two different owners for the key "user:42". *)
Theorem GetActiveNodes_order_not_fixed :
  registry_ok (sample.c2 1)
  ∧ iteration_order (nodes (sample.c2 1)) sample.ord2
  ∧ iteration_order (nodes (sample.c2 1)) sample.ord2'
  ∧ GetActiveNodes sample.ord2 (sample.c2 1) = Returns [0; 1]%nat
  ∧ GetActiveNodes sample.ord2' (sample.c2 1) = Returns [1; 0]%nat
  ∧ ¬ sorted_by_id (heap (sample.c2 1)) [0; 1]%nat
  ∧ GetPartitionForKey sample.ord2 "user:42" (sample.c2 1)
    = Returns (Some 1%nat)
  ∧ GetPartitionForKey sample.ord2' "user:42" (sample.c2 1)
    = Returns (Some 0%nat).
Proof.
  split; [by_evaluation|]. split; [by_evaluation|]. split; [by_evaluation|].
  split; [vm_compute; reflexivity|]. split; [vm_compute; reflexivity|].
  split; [|split; vm_compute; reflexivity].
  unfold sorted_by_id.
  assert (idsOf (heap (sample.c2 1)) [0; 1]%nat = [sample.selfId; "node-1"])
    as -> by (vm_compute; reflexivity).
  intros Hs. inversion Hs as [|? ? _ Hhd]; subst.
  inversion Hhd as [|? ? Hle]; subst. vm_compute in Hle. discriminate.
Qed.

(** Whatever the iteration orders, two snapshots of one registry hold the
    same nodes. *)
Lemma GetActiveNodes_permutation ord ord' c :
  registry_ok c →
  iteration_order (nodes c) ord → iteration_order (nodes c) ord' →
  ∃ s s', GetActiveNodes ord c = Returns s ∧ GetActiveNodes ord' c = Returns s'
          ∧ s ≡ₚ s'.
Proof.
  intros Hok H1 H2. exists (activeSnapshot ord c), (activeSnapshot ord' c).
  rewrite !GetActiveNodes_spec by done. auto using activeSnapshot_perm.
Qed.

(** ** Gossip *)

Lemma route_cluster_gossip m : server.route m ["cluster"; "gossip"] = server.notFoundHandler.
Proof. destruct m; vm_compute; reflexivity. Qed.

(** C2.  No route is registered for the gossip endpoint: a membership list
    posted to [/cluster/gossip] is answered by [notFoundHandler] with 404 and
    [db.Cluster] is left as it was.  In the scenario of the claim, the
    registry holds node X with [last_seen = 50], a peer posts X with
    [last_seen = 100], and afterwards X still has [last_seen = 50]. *)
Theorem gossip_membership_not_merged :
  (∀ now ord m body db,
     server.serve now ord (server.mkRequest m ["cluster"; "gossip"] body) db
     = Returns (db, Some server.StatusNotFound))
  ∧ let local := sample.added 50 (sample.peer "X" "10.0.0.9" "active" 0)
                              (sample.c1 1) in
    let incoming := [sample.peer "X" "10.0.0.9" "active" 100] in
    (LastSeen <$> (GetNode "X" local ≫= fun p => heap local !! p)) = Some 50
    ∧ ∃ db', server.serve 100 [sample.selfId; "X"]
               (server.mkRequest server.POST ["cluster"; "gossip"]
                                 (server.BodyArray incoming))
               (Some local) = Returns (Some db', Some server.StatusNotFound)
             ∧ (LastSeen <$> (GetNode "X" db' ≫= fun p => heap db' !! p))
               = Some 50.
Proof.
  assert (∀ now ord m body db,
     server.serve now ord (server.mkRequest m ["cluster"; "gossip"] body) db
     = Returns (db, Some server.StatusNotFound)) as Hserve.
  { intros now ord m body db. unfold server.serve. cbn [server.method server.path].
    rewrite route_cluster_gossip. reflexivity. }
  split; [exact Hserve|]. intros local incoming.
  split; [vm_compute; reflexivity|].
  exists local. split; [apply Hserve|vm_compute; reflexivity].
Qed.

(** ** Removing a node *)

(** C10.  For every node id absent from the registry, [RemoveNode] returns
    normally with the cluster — registry map and every record — exactly as
    it was, and logs nothing. *)
Theorem RemoveNode_absent_unchanged (nodeID : string) (c : Cluster) :
  nodes c !! nodeID = None →
  ∃ c', RemoveNode nodeID c = Returns (c', [])
        ∧ nodes c' = nodes c ∧ heap c' = heap c ∧ c' = c.
Proof.
  intros Habsent. exists c. unfold RemoveNode. rewrite Habsent. auto.
Qed.

Lemma RemoveNode_absent_unchanged_witness :
  nodes (sample.c2 1) !! "node-7" = None
  ∧ ∃ c', RemoveNode "node-7" (sample.c2 1) = Returns (c', [])
          ∧ nodes c' = nodes (sample.c2 1) ∧ heap c' = heap (sample.c2 1)
          ∧ c' = sample.c2 1.
Proof.
  assert (nodes (sample.c2 1) !! "node-7" = None) as H
    by (vm_compute; reflexivity).
  split; [exact H|]. exact (RemoveNode_absent_unchanged "node-7" _ H).
Defined.

(** ** Writes to the registry *)

Lemma registry_ok_store c p n n' :
  registry_ok c → heap c !! p = Some n → ID n' = ID n →
  registry_ok (with_heap (<[p := n']> (heap c)) c).
Proof.
  intros [Hm Hs] Hp Hid. split; simpl.
  - intros k q Hk. specialize (Hm k q Hk). simpl in *.
    destruct (decide (p = q)) as [->|Hne].
    + rewrite lookup_insert_eq. rewrite Hp in Hm. simpl in *. congruence.
    + by rewrite lookup_insert_ne.
  - destruct (decide (p = selfNode c)) as [->|Hne].
    + rewrite lookup_insert_eq. eauto.
    + by rewrite lookup_insert_ne.
Qed.

Lemma self_active_frame c c' :
  selfNode c' = selfNode c →
  (∀ n, heap c !! selfNode c = Some n → nodes c' !! ID n = nodes c !! ID n) →
  heap c' !! selfNode c = heap c !! selfNode c →
  self_active c → self_active c'.
Proof.
  unfold self_active. intros -> Hn ->.
  destruct (heap c !! selfNode c) as [n|]; [|done].
  by rewrite (Hn n).
Qed.

Lemma not_self_pointer c k p :
  registry_ok c → nodes c !! k = Some p → Some k ≠ selfID c → p ≠ selfNode c.
Proof.
  intros Hok Hk Hne ->.
  destruct (registry_ok_lookup c k _ Hok Hk) as (n & Hn & Hid).
  apply Hne. unfold selfID. rewrite Hn. simpl. by rewrite Hid.
Qed.

Lemma updateNodeStatus_spec now nodeID alive c :
  registry_ok c →
  ∃ c', updateNodeStatus now nodeID alive c = Returns c'
        ∧ registry_ok c' ∧ nodes c' = nodes c ∧ selfNode c' = selfNode c
        ∧ (∀ q, nodes c !! nodeID ≠ Some q → heap c' !! q = heap c !! q)
        ∧ (∀ q n, nodes c !! nodeID = Some q → heap c !! q = Some n →
             heap c' !! q
             = Some (if alive then set_LastSeen now (set_Status "active" n)
                     else set_Status "inactive" n))
        ∧ (∀ q, ID <$> heap c' !! q = ID <$> heap c !! q).
Proof.
  intros Hok. unfold updateNodeStatus.
  destruct (nodes c !! nodeID) as [p|] eqn:Hk.
  - destruct (registry_ok_lookup c _ _ Hok Hk) as (n & Hn & Hid).
    rewrite Hn. simpl. eexists. split; [reflexivity|].
    split; [|split; [done|split; [done|split; [|split]]]].
    + eapply registry_ok_store; [done..|]. by destruct alive.
    + intros q Hq. simpl. rewrite lookup_insert_ne; [done|by intros ->].
    + intros q m [= <-] Hm. simpl. rewrite lookup_insert_eq.
      rewrite Hn in Hm. by injection Hm as <-.
    + intros q. simpl. destruct (decide (p = q)) as [<-|Hne].
      * rewrite lookup_insert_eq, Hn. by destruct alive.
      * by rewrite lookup_insert_ne.
  - exists c. split_and!; done.
Qed.

Lemma RemoveNode_spec nodeID c :
  registry_ok c →
  ∃ c' log, RemoveNode nodeID c = Returns (c', log)
        ∧ registry_ok c' ∧ nodes c' = nodes c ∧ selfNode c' = selfNode c
        ∧ (∀ q, nodes c !! nodeID ≠ Some q → heap c' !! q = heap c !! q)
        ∧ (∀ q n, nodes c !! nodeID = Some q → heap c !! q = Some n →
             heap c' !! q = Some (set_Status "inactive" n)).
Proof.
  intros Hok. unfold RemoveNode.
  destruct (nodes c !! nodeID) as [p|] eqn:Hk.
  - destruct (registry_ok_lookup c _ _ Hok Hk) as (n & Hn & Hid).
    rewrite Hn. simpl. do 2 eexists. split; [reflexivity|].
    split; [|split; [done|split; [done|split]]].
    + by eapply registry_ok_store.
    + intros q Hq. simpl. rewrite lookup_insert_ne; [done|by intros ->].
    + intros q m [= <-] Hm. simpl. rewrite lookup_insert_eq.
      rewrite Hn in Hm. by injection Hm as <-.
  - exists c, []. split_and!; done.
Qed.

Lemma AddNode_spec now node n c :
  registry_ok c → heap c !! node = Some n →
  ∃ c' log, AddNode now node c = Returns (c', log)
        ∧ registry_ok c' ∧ selfNode c' = selfNode c
        ∧ nodes c' = <[ID n := node]> (nodes c)
        ∧ heap c' = <[node := set_LastSeen now n]> (heap c).
Proof.
  intros [Hm Hs] Hn. unfold AddNode. rewrite Hn. simpl.
  do 2 eexists. split; [reflexivity|]. split; [|done].
  split; simpl.
  - intros k q Hk. simpl.
    destruct (decide (node = q)) as [->|Hne].
    + rewrite lookup_insert_eq. simpl.
      destruct (decide (ID n = k)) as [<-|Hnk]; [done|].
      rewrite lookup_insert_ne in Hk by done.
      specialize (Hm k q Hk). simpl in Hm. rewrite Hn in Hm. done.
    + rewrite lookup_insert_ne by done.
      destruct (decide (ID n = k)) as [<-|Hnk].
      * rewrite lookup_insert_eq in Hk. congruence.
      * rewrite lookup_insert_ne in Hk by done. by apply (Hm k q).
  - destruct (decide (node = selfNode c)) as [->|Hne].
    + rewrite lookup_insert_eq. eauto.
    + by rewrite lookup_insert_ne.
Qed.

Lemma alloc_fresh (h : gmap addr Node) : h !! alloc h = None.
Proof. apply not_elem_of_dom. unfold alloc. apply is_fresh. Qed.

Lemma registry_ok_new c n :
  registry_ok c → registry_ok (with_heap (<[alloc (heap c) := n]> (heap c)) c).
Proof.
  intros [Hm Hs]. pose proof (alloc_fresh (heap c)) as Hf. split; simpl.
  - intros k q Hk. specialize (Hm k q Hk). simpl in *.
    rewrite lookup_insert_ne; [done|]. intros <-. by rewrite Hf in Hm.
  - rewrite lookup_insert_ne; [done|]. intros Heq. rewrite Heq in Hf.
    rewrite Hf in Hs. by destruct Hs.
Qed.

(** ** Failure detector *)

Lemma heartbeatLoop_spec http clock snapshot :
  ∀ i c,
    registry_ok c →
    Forall (fun p => ∃ k, nodes c !! k = Some p) snapshot →
    ∃ c' probed,
      heartbeatLoop http clock i snapshot c = Returns (c', probed)
      ∧ registry_ok c' ∧ nodes c' = nodes c ∧ selfNode c' = selfNode c
      ∧ heap c' !! selfNode c = heap c !! selfNode c
      ∧ Forall (notSelf c) probed.
Proof.
  induction snapshot as [|p rest IH]; intros i c Hok Hall; simpl.
  { exists c, []. split_and!; done. }
  apply Forall_cons in Hall as [[k Hk] Hrest].
  destruct (registry_ok_lookup c k p Hok Hk) as (n & Hn & Hid).
  destruct (proj2 Hok) as [self Hself]. rewrite Hn, Hself. simpl.
  destruct (decide (ID n = ID self)) as [Heq|Hne].
  - destruct (IH (S i) c Hok Hrest)
      as (c2 & probed & Hloop & Hok2 & Hn2 & Hs2 & Hh2 & Hp).
    exists c2, probed. rewrite Hself in Hh2. done.
  - destruct (updateNodeStatus_spec (clock i) (ID n) (pingNode (http i)) c Hok)
      as (c1 & Hret & Hok1 & Hnodes1 & Hself1 & Hframe & _ & Hids).
    rewrite Hret. simpl.
    destruct (IH (S i) c1 Hok1)
      as (c2 & probed & Hloop & Hok2 & Hn2 & Hs2 & Hh2 & Hp).
    { by rewrite Hnodes1. }
    rewrite Hloop. simpl. exists c2, (p :: probed).
    assert (p ≠ selfNode c) as Hpself.
    { eapply not_self_pointer; [done..|].
      unfold selfID. rewrite Hself. simpl. congruence. }
    assert (heap c1 !! selfNode c = heap c !! selfNode c) as Hkeep.
    { apply Hframe. rewrite Hid, Hk. congruence. }
    split; [done|]. split; [done|]. split; [congruence|].
    split; [congruence|]. split.
    + rewrite <- Hself, <- Hkeep, <- Hself1. done.
    + constructor.
      * unfold notSelf, selfID. rewrite Hn, Hself. simpl. congruence.
      * eapply Forall_impl; [exact Hp|]. intros q Hq.
        unfold notSelf, selfID in *.
        by rewrite Hself1, Hkeep, Hids in Hq.
Qed.

Lemma rangeMap_registered ord c :
  Forall (fun p => ∃ k, nodes c !! k = Some p) (rangeMap ord (nodes c)).
Proof.
  apply Forall_forall. intros p (k & _ & Hk)%rangeMap_elem. eauto.
Qed.

Lemma notSelf_selfNode c : registry_ok c → ¬ notSelf c (selfNode c).
Proof. intros _ H. by apply H. Qed.

Lemma performHeartbeat_spec ord http clock c :
  registry_ok c →
  ∃ c' probed,
    performHeartbeat ord http clock c = Returns (c', probed)
    ∧ registry_ok c' ∧ nodes c' = nodes c ∧ selfNode c' = selfNode c
    ∧ heap c' !! selfNode c = heap c !! selfNode c
    ∧ Forall (notSelf c) probed.
Proof.
  intros Hok. apply heartbeatLoop_spec; [done|apply rangeMap_registered].
Qed.

(** ** The self node *)

Lemma NewCluster_ok unix rnd cfg :
  registry_ok (NewCluster unix rnd cfg) ∧ self_active (NewCluster unix rnd cfg).
Proof.
  unfold NewCluster, registry_ok, self_active. cbn [heap nodes selfNode].
  rewrite lookup_singleton_eq. cbn [ID Status].
  split; [split|].
  - apply map_Forall_singleton. by rewrite lookup_singleton_eq.
  - eauto.
  - by rewrite lookup_singleton_eq.
Qed.

Lemma run_preserves_registry_ok c op c' :
  registry_ok c → run op c = Returns c' → registry_ok c'.
Proof.
  intros Hok Hrun. destruct op as [n|now node|nodeID|now nodeID alive|ord http clock];
    simpl in Hrun.
  - injection Hrun as <-. by apply registry_ok_new.
  - destruct (heap c !! node) as [n|] eqn:Hn.
    + destruct (AddNode_spec now node n c Hok Hn) as (c1 & log & Hret & Hok1 & _).
      rewrite Hret in Hrun. by injection Hrun as <-.
    + unfold AddNode in Hrun. by rewrite Hn in Hrun.
  - destruct (RemoveNode_spec nodeID c Hok) as (c1 & log & Hret & Hok1 & _).
    rewrite Hret in Hrun. by injection Hrun as <-.
  - destruct (updateNodeStatus_spec now nodeID alive c Hok) as (c1 & Hret & Hok1 & _).
    rewrite Hret in Hrun. by injection Hrun as <-.
  - destruct (performHeartbeat_spec ord http clock c Hok)
      as (c1 & probed & Hret & Hok1 & _).
    rewrite Hret in Hrun. by injection Hrun as <-.
Qed.

Lemma run_keeps_entries c op c' :
  registry_ok c → run op c = Returns c' → dom (nodes c) ⊆ dom (nodes c').
Proof.
  intros Hok Hrun. destruct op as [n|now node|nodeID|now nodeID alive|ord http clock];
    simpl in Hrun.
  - by injection Hrun as <-.
  - destruct (heap c !! node) as [n|] eqn:Hn.
    + destruct (AddNode_spec now node n c Hok Hn)
        as (c1 & log & Hret & _ & _ & Hnodes & _).
      rewrite Hret in Hrun. injection Hrun as <-. rewrite Hnodes.
      rewrite dom_insert. set_solver.
    + unfold AddNode in Hrun. by rewrite Hn in Hrun.
  - destruct (RemoveNode_spec nodeID c Hok) as (c1 & log & Hret & _ & Hnodes & _).
    rewrite Hret in Hrun. injection Hrun as <-. by rewrite Hnodes.
  - destruct (updateNodeStatus_spec now nodeID alive c Hok)
      as (c1 & Hret & _ & Hnodes & _).
    rewrite Hret in Hrun. injection Hrun as <-. by rewrite Hnodes.
  - destruct (performHeartbeat_spec ord http clock c Hok)
      as (c1 & probed & Hret & _ & Hnodes & _).
    rewrite Hret in Hrun. injection Hrun as <-. by rewrite Hnodes.
Qed.

Lemma run_preserves_self_active c op c' :
  registry_ok c → self_active c → ¬ names_self c op →
  run op c = Returns c' → self_active c'.
Proof.
  intros Hok Hact Hns Hrun.
  destruct (proj2 Hok) as [self Hself].
  destruct op as [n|now node|nodeID|now nodeID alive|ord http clock];
    simpl in Hrun, Hns.
  - injection Hrun as <-. apply (self_active_frame c); [done|done| |done].
    simpl. rewrite lookup_insert_ne; [done|].
    intros Heq. pose proof (alloc_fresh (heap c)) as Hf.
    rewrite Heq, Hself in Hf. done.
  - destruct (heap c !! node) as [n|] eqn:Hn;
      [|unfold AddNode in Hrun; by rewrite Hn in Hrun].
    destruct (AddNode_spec now node n c Hok Hn)
      as (c1 & log & Hret & _ & Hs1 & Hnodes & Hheap).
    rewrite Hret in Hrun. injection Hrun as <-.
    unfold selfID in Hns. rewrite Hself in Hns. simpl in Hns.
    apply (self_active_frame c); [done| | |done].
    + intros m Hm. rewrite Hnodes, lookup_insert_ne; [done|]. congruence.
    + rewrite Hheap, lookup_insert_ne; [done|]. intros ->. congruence.
  - destruct (RemoveNode_spec nodeID c Hok)
      as (c1 & log & Hret & _ & Hnodes & Hs1 & Hframe & _).
    rewrite Hret in Hrun. injection Hrun as <-.
    apply (self_active_frame c); [done|by rewrite Hnodes| |done].
    apply Hframe. intros Hk. by eapply not_self_pointer.
  - destruct (updateNodeStatus_spec now nodeID alive c Hok)
      as (c1 & Hret & _ & Hnodes & Hs1 & Hframe & _).
    rewrite Hret in Hrun. injection Hrun as <-.
    apply (self_active_frame c); [done|by rewrite Hnodes| |done].
    apply Hframe. intros Hk. by eapply not_self_pointer.
  - destruct (performHeartbeat_spec ord http clock c Hok)
      as (c1 & probed & Hret & _ & Hnodes & Hs1 & Hh & _).
    rewrite Hret in Hrun. injection Hrun as <-.
    apply (self_active_frame c); [done|by rewrite Hnodes|done|done].
Qed.

Lemma reachable_not_on_self_ok c :
  reachable not_on_self c → registry_ok c ∧ self_active c.
Proof.
  induction 1 as [unix rnd cfg|c op c' _ [Hok Hact] _ Hns Hrun].
  - apply NewCluster_ok.
  - split.
    + by eapply run_preserves_registry_ok.
    + by eapply run_preserves_self_active.
Qed.

(** C4, as the code has it.  In every state reached from a new cluster by
    operations that are not called on the self node's id, the self node is
    registered under its id with status active.  In such a state
    [performHeartbeat] returns, probes no node carrying the self id and
    leaves the self record as it was; no operation deletes a registry entry;
    and any operation not called on the self id keeps the self node active.
    ([RemoveNode] and [updateNodeStatus] on the self id do change its
    status.) *)
Theorem self_active_unless_named (c : Cluster) :
  reachable not_on_self c →
  registry_ok c ∧ self_active c
  ∧ (∀ ord http clock,
       ∃ c' probed,
         performHeartbeat ord http clock c = Returns (c', probed)
         ∧ Forall (notSelf c) probed ∧ (selfNode c ∉ probed)
         ∧ heap c' !! selfNode c' = heap c !! selfNode c
         ∧ self_active c')
  ∧ (∀ op c', run op c = Returns c' → dom (nodes c) ⊆ dom (nodes c'))
  ∧ (∀ op c', ¬ names_self c op → run op c = Returns c' → self_active c').
Proof.
  intros Hreach. destruct (reachable_not_on_self_ok c Hreach) as [Hok Hact].
  split; [done|]. split; [done|]. split; [|split].
  - intros ord http clock.
    destruct (performHeartbeat_spec ord http clock c Hok)
      as (c' & probed & Hret & Hok' & Hnodes & Hs & Hh & Hp).
    exists c', probed. split; [done|]. split; [done|]. split; [|split].
    + intros Hin. rewrite Forall_forall in Hp.
      by apply (notSelf_selfNode c Hok), Hp.
    + by rewrite Hs.
    + apply (self_active_frame c); [done|by rewrite Hnodes|done|done].
  - intros op c'. by apply run_keeps_entries.
  - intros op c'. by apply run_preserves_self_active.
Qed.

Lemma self_active_unless_named_witness :
  reachable not_on_self (sample.c2 1) ∧ self_active (sample.c2 1).
Proof.
  assert (reachable not_on_self (sample.c2 1)) as Hreach.
  { apply (reach_step _ (with_heap
             (<[alloc (heap (sample.c1 1))
                := sample.peer "node-1" "10.0.0.2" "active" 0]>
                (heap (sample.c1 1))) (sample.c1 1))
             (OpAddNode 50 (alloc (heap (sample.c1 1))))).
    - apply (reach_step _ (sample.c1 1)
               (OpNew (sample.peer "node-1" "10.0.0.2" "active" 0))).
      + apply reach_new.
      + exact I.
      + intros [].
      + reflexivity.
    - exact I.
    - unfold not_on_self, names_self. vm_compute. discriminate.
    - vm_compute. reflexivity. }
  split; [exact Hreach|].
  exact (proj1 (proj2 (self_active_unless_named _ Hreach))).
Defined.

(** C4, as stated: a state reached by [RemoveNode] on the self id has the
    self node inactive. *)
Lemma self_demoted_by_RemoveNode : ¬ self_always_active.
Proof.
  intros Hclaim.
  assert (reachable any_op sample.demoted) as Hreach.
  { apply (reach_step _ (sample.c1 1) (OpRemoveNode sample.selfId)).
    - apply reach_new.
    - exact I.
    - exact I.
    - vm_compute. reflexivity. }
  apply Hclaim in Hreach.
  assert (bool_decide (self_active sample.demoted) = false) as Hno
    by (vm_compute; reflexivity).
  apply bool_decide_eq_false in Hno. exact (Hno Hreach).
Qed.

(** ** [LastSeen] *)

(** C8, as the code has it.  [updateNodeStatus] changes the [LastSeen] of a
    record only when it is called with [alive], on the id of that record,
    and then the record is active with [LastSeen = now]; [RemoveNode]
    changes no [LastSeen]; [AddNode] sets the [LastSeen] of the node it is
    given to [now] whatever the status of that node, which it leaves as it
    is, and changes no other record. *)
Theorem LastSeen_writes (c : Cluster) (p : addr) (n : Node) :
  registry_ok c → heap c !! p = Some n →
  (∀ now nodeID alive,
     ∃ c' n', updateNodeStatus now nodeID alive c = Returns c'
       ∧ heap c' !! p = Some n'
       ∧ (LastSeen n' ≠ LastSeen n →
          alive = true ∧ nodes c !! nodeID = Some p
          ∧ Status n' = "active" ∧ LastSeen n' = now))
  ∧ (∀ nodeID,
       ∃ c' log n', RemoveNode nodeID c = Returns (c', log)
         ∧ heap c' !! p = Some n' ∧ LastSeen n' = LastSeen n)
  ∧ (∀ now node,
       is_Some (heap c !! node) →
       ∃ c' log n', AddNode now node c = Returns (c', log)
         ∧ heap c' !! p = Some n' ∧ Status n' = Status n
         ∧ LastSeen n' = (if decide (p = node) then now else LastSeen n))
  ∧ (∀ now ord address port,
       ∃ c' id, server.addNode now ord (server.BodyObject address port) (Some c)
                = Returns (Some c', StatusOK)
         ∧ heap c' !! alloc (heap c)
           = Some (mkNode id address port "active" now)
         ∧ heap c' !! p = Some n).
Proof.
  intros Hok Hp. split; [|split; [|split]].
  - intros now nodeID alive.
    destruct (updateNodeStatus_spec now nodeID alive c Hok)
      as (c' & Hret & _ & _ & _ & Hframe & Hset & _).
    destruct (decide (nodes c !! nodeID = Some p)) as [Hk|Hk].
    + eexists c', _. split; [done|]. split; [by apply Hset|].
      destruct alive; simpl; [done|]. intros Hne. by destruct Hne.
    + exists c', n. split; [done|]. split; [by rewrite Hframe|]. done.
  - intros nodeID.
    destruct (RemoveNode_spec nodeID c Hok)
      as (c' & log & Hret & _ & _ & _ & Hframe & Hset).
    destruct (decide (nodes c !! nodeID = Some p)) as [Hk|Hk].
    + eexists c', log, _. split; [done|]. split; [by apply Hset|]. done.
    + exists c', log, n. split; [done|]. split; [by rewrite Hframe|]. done.
  - intros now node [m Hm].
    destruct (AddNode_spec now node m c Hok Hm)
      as (c' & log & Hret & _ & _ & _ & Hheap).
    destruct (decide (p = node)) as [->|Hne].
    + exists c', log, (set_LastSeen now n). split; [done|].
      rewrite Hheap, lookup_insert_eq. split; [congruence|]. done.
    + exists c', log, n. split; [done|].
      rewrite Hheap, lookup_insert_ne by done. done.
  - intros now ord address port. unfold server.addNode. cbn [server.readNodeData].
    rewrite GetActiveNodes_spec by done. cbn [mbind option_bind].
    set (node := mkNode _ address port "active" 0).
    pose proof (alloc_fresh (heap c)) as Hfresh.
    destruct (AddNode_spec now (alloc (heap c)) node
                (with_heap (<[alloc (heap c) := node]> (heap c)) c))
      as (c' & log & Hret & _ & _ & _ & Hheap).
    { by apply registry_ok_new. }
    { apply lookup_insert_eq. }
    rewrite Hret. cbn [mbind option_bind].
    exists c', (ID node). split; [done|]. rewrite Hheap. cbn [heap with_heap].
    split; [by rewrite lookup_insert_eq|].
    rewrite !lookup_insert_ne; [done|intros Heq..]; by rewrite Heq, Hp in Hfresh.
Qed.

Lemma LastSeen_writes_witness :
  registry_ok sample.c1_joining
  ∧ heap sample.c1_joining !! 1%nat = Some sample.joining
  ∧ ∃ c' log n', AddNode 7 1%nat sample.c1_joining = Returns (c', log)
      ∧ heap c' !! 1%nat = Some n' ∧ Status n' = "joining"
      ∧ LastSeen n' = 7.
Proof.
  assert (registry_ok sample.c1_joining) as Hok by by_evaluation.
  assert (heap sample.c1_joining !! 1%nat = Some sample.joining) as Hp
    by (vm_compute; reflexivity).
  split; [exact Hok|]. split; [exact Hp|].
  destruct (LastSeen_writes _ _ _ Hok Hp) as (_ & _ & Hadd & _).
  destruct (Hadd 7 1%nat (ex_intro _ _ Hp)) as (c' & log & n' & H1 & H2 & H3 & H4).
  exists c', log, n'. split; [exact H1|]. split; [exact H2|].
  split; [exact H3|exact H4].
Defined.

(** C8, as stated: [AddNode] on a node whose status is "joining" updates its
    [LastSeen] and the node is not active afterwards. *)
Lemma AddNode_stamps_inactive_node : ¬ last_seen_only_on_activation.
Proof.
  intros Hclaim.
  assert (registry_ok sample.c1_joining) as Hok by by_evaluation.
  destruct (AddNode 7 1%nat sample.c1_joining) as [[c' log]|] eqn:Hadd;
    [|vm_compute in Hadd; discriminate].
  assert (heap c' !! 1%nat = Some (set_LastSeen 7 sample.joining)) as Hafter.
  { vm_compute in Hadd. injection Hadd as <- _. vm_compute. reflexivity. }
  specialize (Hclaim sample.c1_joining (OpAddNode 7 1%nat) c' 1%nat
                sample.joining (set_LastSeen 7 sample.joining) Hok I).
  simpl in Hclaim. rewrite Hadd in Hclaim.
  assert (Status (set_LastSeen 7 sample.joining) = "active") as Habs.
  { apply Hclaim; [reflexivity|vm_compute; reflexivity|exact Hafter|].
    vm_compute. discriminate. }
  vm_compute in Habs. discriminate.
Qed.


(** ** Replicator *)

Lemma registry_key_unique c k k' p :
  registry_ok c → nodes c !! k = Some p → nodes c !! k' = Some p → k = k'.
Proof.
  intros Hok Hk Hk'.
  destruct (registry_ok_lookup c k p Hok Hk) as (n & Hn & Hid).
  destruct (registry_ok_lookup c k' p Hok Hk') as (n' & Hn' & Hid').
  congruence.
Qed.

Lemma rangeMap_NoDup ord c :
  registry_ok c → NoDup ord → NoDup (rangeMap ord (nodes c)).
Proof.
  intros Hok Hnd. induction Hnd as [|k ord Hk _ IH]; [constructor|].
  unfold rangeMap. csimpl. fold (rangeMap ord (nodes c)).
  destruct (nodes c !! k) as [p|] eqn:Hp; [|done].
  constructor; [|done].
  intros (k' & Hin & Hk')%rangeMap_elem.
  by rewrite (registry_key_unique c k k' p Hok Hp Hk') in Hk.
Qed.

Lemma activeSnapshot_NoDup ord c :
  registry_ok c → iteration_order (nodes c) ord → NoDup (activeSnapshot ord c).
Proof.
  intros Hok [Hnd _]. apply NoDup_filter. by apply rangeMap_NoDup.
Qed.

Lemma activeSnapshot_elem ord c p :
  registry_ok c → p ∈ activeSnapshot ord c →
  ∃ n, heap c !! p = Some n ∧ nodes c !! ID n = Some p ∧ Status n = "active".
Proof.
  intros Hok [Hact (k & _ & Hk)%rangeMap_elem]%list_elem_of_filter.
  destruct (registry_ok_lookup c k p Hok Hk) as (n & Hn & <-).
  exists n. unfold isActive in Hact. rewrite Hn in Hact. simpl in Hact.
  split; [done|]. split; [done|]. congruence.
Qed.

Lemma activeSnapshot_allocated ord c :
  registry_ok c → Forall (fun p => is_Some (heap c !! p)) (activeSnapshot ord c).
Proof.
  intros Hok. apply Forall_forall. intros p Hp.
  destruct (activeSnapshot_elem ord c p Hok Hp) as (n & Hn & _). eauto.
Qed.

Lemma activeSnapshot_id_inj ord c p q n m :
  registry_ok c → p ∈ activeSnapshot ord c → q ∈ activeSnapshot ord c →
  heap c !! p = Some n → heap c !! q = Some m → ID n = ID m → p = q.
Proof.
  intros Hok Hp Hq Hn Hm Hid.
  destruct (activeSnapshot_elem ord c p Hok Hp) as (n' & Hn' & Hkp & _).
  destruct (activeSnapshot_elem ord c q Hok Hq) as (m' & Hm' & Hkq & _).
  simplify_eq. congruence.
Qed.

Section replication_facts.

Context {Value : Type}.
Implicit Types (value : Value).

Lemma findPrimaryIdx_spec h (nodes : list (option addr)) primary pn rest :
  index nodes 0 = Returns (Some primary) → h !! primary = Some pn →
  Forall (fun q => is_Some (h !! q)) rest →
  (∀ q m, q ∈ rest → h !! q = Some m → ID m = ID pn → q = primary) →
  primary ∈ rest →
  ∀ j0, ∃ i : nat,
    rest !! i = Some primary
    ∧ findPrimaryIdx h nodes j0 rest = Returns (j0 + Z.of_nat i).
Proof.
  intros Hfirst Hpn Hall. induction Hall as [|q rest [m Hm] _ IH];
    intros Hinj Hin j0.
  { by apply elem_of_nil in Hin. }
  cbn [findPrimaryIdx]. rewrite Hm, Hfirst. cbn. rewrite Hpn. cbn.
  destruct (decide (ID m = ID pn)) as [Heq|Hne].
  - exists 0%nat. rewrite (Hinj q m) by (done || constructor).
    split; [done|]. f_equal. lia.
  - apply elem_of_cons in Hin as [->|Hin]; [congruence|].
    destruct (IH (fun q' m' Hq' => Hinj q' m' (list_elem_of_further _ _ _ Hq'))
                 Hin (j0 + 1)) as (i & Hi & Hret).
    exists (S i). split; [done|]. rewrite Hret. f_equal. lia.
Qed.

(** The position in the ring, [i] steps after position [j]. *)
Lemma ring_index (j : nat) (i N : Z) :
  Z.of_nat j < N → 1 <= i < N → N < 2 ^ (intSize - 2) →
  goint.rem (goint.add intSize (Z.of_nat j) i) N = (Z.of_nat j + i) mod N
  ∧ 0 <= (Z.of_nat j + i) mod N < N.
Proof.
  intros Hj Hi HN. change (2 ^ (intSize - 2)) with 4611686018427387904 in HN.
  unfold goint.add, goint.rem. rewrite wrap_id.
  - split; [apply Z.rem_mod_nonneg; lia|]. apply Z.mod_pos_bound. lia.
  - unfold intSize. lia.
  - unfold goint.in_range. change (2 ^ (intSize - 1)) with 9223372036854775808.
    lia.
Qed.

Lemma addReplica_spec h (activeNodes : list addr) nodes primary pn (j : nat) i :
  index nodes 0 = Returns (Some primary) → h !! primary = Some pn →
  Forall (fun q => is_Some (h !! q)) activeNodes →
  (∀ q m, q ∈ activeNodes → h !! q = Some m → ID m = ID pn → q = primary) →
  NoDup activeNodes → activeNodes !! j = Some primary →
  len activeNodes < 2 ^ (intSize - 2) → 1 <= i < len activeNodes →
  ∃ r, activeNodes !! Z.to_nat ((Z.of_nat j + i) mod len activeNodes) = Some r
       ∧ addReplica h activeNodes nodes i = Returns (nodes ++ [Some r]).
Proof.
  intros Hfirst Hpn Hall Hinj Hnd Hj Hlen Hi.
  assert (primary ∈ activeNodes) as Hin by by eapply list_elem_of_lookup_2.
  destruct (findPrimaryIdx_spec h nodes primary pn activeNodes
              Hfirst Hpn Hall Hinj Hin 0) as (j' & Hj' & Hfind).
  assert (j' = j) as -> by by eapply NoDup_lookup.
  assert (Z.of_nat j < len activeNodes) as Hjlt.
  { apply lookup_lt_Some in Hj. unfold len. lia. }
  destruct (ring_index j i (len activeNodes) Hjlt Hi Hlen) as [Hrem Hbound].
  destruct (index_Some activeNodes _ Hbound) as (r & Hix & Hr).
  exists r. split; [done|].
  rewrite Z.add_0_l in Hfind.
  unfold addReplica. rewrite Hfind. cbn [mbind option_bind].
  rewrite Hrem, Hix. done.
Qed.

Lemma replicaSet_fold h (activeNodes : list addr) primary pn (j : nat) :
  h !! primary = Some pn →
  Forall (fun q => is_Some (h !! q)) activeNodes →
  (∀ q m, q ∈ activeNodes → h !! q = Some m → ID m = ID pn → q = primary) →
  NoDup activeNodes → activeNodes !! j = Some primary →
  len activeNodes < 2 ^ (intSize - 2) →
  ∀ (steps : list Z) (acc : list addr),
    Forall (fun i => 1 <= i < len activeNodes) steps →
    ∃ reps,
      foldl (fun acc i => nodes ← acc; addReplica h activeNodes nodes i)
            (Returns (Some <$> primary :: acc)) steps
      = Returns (Some <$> primary :: acc ++ reps)
      ∧ Forall2 (fun i r =>
                   activeNodes !! Z.to_nat ((Z.of_nat j + i) mod len activeNodes)
                   = Some r) steps reps.
Proof.
  intros Hpn Hall Hinj Hnd Hj Hlen steps.
  induction steps as [|i steps IH]; intros acc Hsteps.
  { exists []. rewrite app_nil_r. split; [done|constructor]. }
  apply Forall_cons in Hsteps as [Hi Hsteps].
  destruct (addReplica_spec h activeNodes (Some <$> primary :: acc) primary pn j i)
    as (r & Hr & Hadd); [done..|].
  destruct (IH (acc ++ [r]) Hsteps) as (reps & Hfold & Hreps).
  exists (r :: reps). split; [|by constructor].
  cbn [foldl]. cbn [mbind option_bind]. rewrite Hadd.
  replace ((Some <$> primary :: acc) ++ [Some r])
    with (Some <$> primary :: (acc ++ [r])).
  - rewrite Hfold. by rewrite <- app_assoc.
  - rewrite !fmap_cons, fmap_app. done.
Qed.

Lemma replicateToNode_error n key value r :
  snd (replicateToNode n key value r) = None ↔ pushOK r.
Proof.
  destruct r as [cause|code]; simpl; [by split|].
  destruct (decide (code = StatusOK)); by split.
Qed.

Lemma pushLoop_spec http c key value (targets : list addr) :
  registry_ok c → Forall (fun q => is_Some (heap c !! q)) targets →
  ∀ k, ∃ evs,
    pushLoop http k c key value (Some <$> targets) = Returns evs
    ∧ posts evs = omap (pushTo c key value) (filter (notSelf c) targets)
    ∧ length (logged evs)
      = length (filter (fun t => ¬ pushOK (http t))
                       (seq k (length (filter (notSelf c) targets)))).
Proof.
  intros Hok Hall. destruct (proj2 Hok) as [self Hself].
  induction Hall as [|p targets [n Hn] _ IH]; intros k.
  { exists []. done. }
  rewrite fmap_cons. cbn [pushLoop mbind option_bind].
  rewrite Hn, Hself. cbn [mbind option_bind].
  destruct (decide (ID n = ID self)) as [Heq|Hne].
  - destruct (IH k) as (evs & Hret & Hposts & Hlogs). exists evs.
    rewrite filter_cons, decide_False; [done|].
    unfold notSelf, selfID. rewrite Hn, Hself. simpl. intros H. by apply H, f_equal.
  - destruct (IH (S k)) as (evs & Hret & Hposts & Hlogs).
    rewrite Hret. cbn [mbind option_bind].
    pose proof (replicateToNode_error n key value (http k)) as Herr.
    unfold replicateToNode in *. cbn [snd] in Herr.
    eexists. split; [reflexivity|].
    rewrite filter_cons, decide_True; last first.
    { unfold notSelf, selfID. rewrite Hn, Hself. simpl. congruence. }
    cbn [length seq]. rewrite filter_cons.
    unfold posts, logged in *. csimpl.
    unfold pushTo at 1. rewrite Hn. csimpl. rewrite !omap_app.
    destruct (decide (pushOK (http k))) as [Hok'|Hfail].
    + rewrite (proj2 Herr Hok'). csimpl. rewrite Hposts, Hlogs.
      rewrite decide_False by tauto. done.
    + rewrite decide_True by done.
      destruct (match http k with
                | HttpErr cause => Some (ErrReplicateTo (ID n) cause)
                | HttpResp code =>
                  if decide (code = StatusOK) then None
                  else Some (ErrReplicateStatus code)
                end) as [e|] eqn:He; [|by destruct Hfail; apply Herr].
      csimpl. by rewrite Hposts, Hlogs.
Qed.

Lemma omap_pushTo_length c key value (targets : list addr) :
  Forall (fun q => is_Some (heap c !! q)) targets →
  length (omap (pushTo c key value) targets) = length targets.
Proof.
  induction 1 as [|q targets [n Hn] _ IH]; [done|].
  csimpl. unfold pushTo at 1. rewrite Hn. csimpl. by rewrite IH.
Qed.

(** What [ReplicateData] selects and sends once it is past its two checks. *)
Lemma ReplicateData_selected ord ord' key c :
  registry_ok c → addressable c →
  iteration_order (nodes c) ord → iteration_order (nodes c) ord' →
  1 < config.ReplicationFactor (config c) →
  config.ReplicationFactor (config c) <= len (activeSnapshot ord c) →
  ∃ primary (j : nat) reps,
    GetPartitionForKey ord' key c = Returns (Some primary)
    ∧ activeSnapshot ord c !! j = Some primary
    ∧ Forall2 (fun i r =>
                 activeSnapshot ord c
                   !! Z.to_nat ((Z.of_nat j + i) mod len (activeSnapshot ord c))
                 = Some r)
              (seqZ 1 (Z.min (config.ReplicationFactor (config c))
                             (len (activeSnapshot ord c)) - 1)) reps
    ∧ replicaSet (heap c) (config.ReplicationFactor (config c))
                 (activeSnapshot ord c) (Some primary)
      = Returns (Some <$> primary :: reps)
    ∧ Forall (fun q => q ∈ activeSnapshot ord c) (primary :: reps)
    ∧ ∀ value http,
        ∃ evs,
          ReplicateData ord ord' http key value c = Returns (None, evs)
          ∧ posts evs
            = omap (pushTo c key value) (filter (notSelf c) (primary :: reps))
          ∧ length (logged evs)
            = length (filter (fun t => ¬ pushOK (http t))
                       (seq 0 (length (filter (notSelf c) (primary :: reps))))).
Proof.
  intros Hok Haddr Ho Ho' HR HN.
  set (R := config.ReplicationFactor (config c)) in *.
  set (A := activeSnapshot ord c) in *.
  pose proof (activeSnapshot_perm c ord ord' Ho Ho') as Hperm. fold A in Hperm.
  assert (len (activeSnapshot ord' c) = len A) as Hlen'.
  { unfold len. by rewrite <- Hperm. }
  destruct (GetPartitionForKey_spec ord' key c Hok Haddr Ho')
    as [[Hz _]|(_ & _ & primary & Hlk & Hpart)]; [lia|].
  assert (primary ∈ A) as Hin.
  { rewrite Hperm. by eapply list_elem_of_lookup_2. }
  destruct (list_elem_of_lookup_1 _ _ Hin) as [j Hj].
  destruct (activeSnapshot_elem ord c primary Hok Hin) as (pn & Hpn & _).
  pose proof (activeSnapshot_allocated ord c Hok) as Halloc. fold A in Halloc.
  pose proof (addressable_len ord c Haddr Ho) as Hfit. fold A in Hfit.
  destruct (replicaSet_fold (heap c) A primary pn j Hpn Halloc) with
    (steps := seqZ 1 (Z.min R (len A) - 1)) (acc := @nil addr)
    as (reps & Hfold & Hreps).
  { intros q m Hq Hm Hid. symmetry.
    by eapply (activeSnapshot_id_inj ord c primary q pn m). }
  { by apply activeSnapshot_NoDup. }
  { done. }
  { done. }
  { apply Forall_seqZ. lia. }
  assert (Forall (fun q => q ∈ A) (primary :: reps)) as Hsel.
  { constructor; [done|].
    eapply Forall2_Forall_r; [exact Hreps|].
    apply Forall_forall. intros i _ r Hr. by eapply list_elem_of_lookup_2. }
  assert (Forall (fun q => is_Some (heap c !! q)) (primary :: reps)) as Hsela.
  { eapply Forall_impl; [exact Hsel|]. intros q Hq.
    rewrite Forall_forall in Halloc. by apply Halloc. }
  exists primary, j, reps.
  split; [done|]. split; [done|]. split; [done|]. split; [exact Hfold|].
  split; [done|]. intros value http.
  destruct (pushLoop_spec http c key value (primary :: reps) Hok Hsela 0%nat)
    as (evs & Hpush & Hposts & Hlogs).
  exists evs. split; [|done].
  unfold ReplicateData. fold R.
  rewrite decide_False by lia.
  rewrite GetActiveNodes_spec by done. cbn [mbind option_bind]. fold A.
  rewrite decide_False by lia.
  rewrite Hpart. cbn [mbind option_bind].
  unfold replicaSet in Hfold |- *.
  change (Returns [Some primary]) with (Returns (Some <$> primary :: @nil addr)).
  rewrite Hfold. cbn [mbind option_bind]. cbn [app].
  rewrite Hpush. done.
Qed.

(** C5.  With a replication factor [R ≤ 1], [ReplicateData] returns success
    and does nothing at all; with [R > 1] it returns the "not enough active
    nodes" error exactly when fewer than [R] nodes are active, succeeds
    otherwise, and in the error case does nothing at all — in particular it
    issues no outbound call. *)
Theorem ReplicateData_replication_factor (ord ord' : list string)
    (http : nat → HttpResult) (key : string) (value : Value) (c : Cluster) :
  registry_ok c → addressable c →
  iteration_order (nodes c) ord → iteration_order (nodes c) ord' →
  let R := config.ReplicationFactor (config c) in
  ∃ activeNodes result evs,
    GetActiveNodes ord c = Returns activeNodes
    ∧ ReplicateData ord ord' http key value c = Returns (result, evs)
    ∧ (R <= 1 → result = None ∧ evs = [])
    ∧ (1 < R →
       (result = Some (ErrNotEnoughActive R) ↔ len activeNodes < R)
       ∧ (result = None ↔ R <= len activeNodes)
       ∧ (len activeNodes < R → evs = [] ∧ posts evs = [])).
Proof.
  intros Hok Haddr Ho Ho' R.
  exists (activeSnapshot ord c).
  destruct (decide (R <= 1)) as [Hle|Hgt].
  { exists None, []. split; [by apply GetActiveNodes_spec|].
    split; [|split; [done|lia]].
    unfold ReplicateData. fold R. by rewrite decide_True. }
  destruct (decide (len (activeSnapshot ord c) < R)) as [Hfew|Henough].
  - exists (Some (ErrNotEnoughActive R)), [].
    split; [by apply GetActiveNodes_spec|]. split.
    + unfold ReplicateData. fold R. rewrite decide_False by done.
      rewrite GetActiveNodes_spec by done. cbn [mbind option_bind].
      by rewrite decide_True.
    + split; [lia|]. intros _. split; [done|]. split; [|done].
      split; [done|lia].
  - destruct (ReplicateData_selected ord ord' key c Hok Haddr Ho Ho')
      as (primary & j & reps & _ & _ & _ & _ & _ & Hrun); [fold R; lia..|].
    destruct (Hrun value http) as (evs & Hret & _).
    exists None, evs. split; [by apply GetActiveNodes_spec|].
    split; [done|]. split; [lia|]. intros _.
    split; [split; [done|lia]|]. split; [|lia]. split; [lia|done].
Qed.

(** C7.  Once past the replication-factor and active-node checks,
    [ReplicateData] returns success whatever the pushes are answered: the
    nodes it posts to do not depend on the answers, each is posted to exactly
    once, and a failed push leaves one log line and nothing else. *)
Theorem ReplicateData_ignores_push_failures (ord ord' : list string)
    (key : string) (value : Value) (c : Cluster) (activeNodes : list addr) :
  registry_ok c → addressable c →
  iteration_order (nodes c) ord → iteration_order (nodes c) ord' →
  GetActiveNodes ord c = Returns activeNodes →
  1 < config.ReplicationFactor (config c) →
  config.ReplicationFactor (config c) <= len activeNodes →
  ∃ targets : list addr,
    ∀ http : nat → HttpResult,
      ∃ evs,
        ReplicateData ord ord' http key value c = Returns (None, evs)
        ∧ posts evs = omap (pushTo c key value) targets
        ∧ length (posts evs) = length targets
        ∧ length (logged evs)
          = length (filter (fun t => ¬ pushOK (http t))
                           (seq 0 (length targets)))
        ∧ length evs = (length (posts evs) + length (logged evs))%nat.
Proof.
  intros Hok Haddr Ho Ho' Hsnap HR HN.
  rewrite GetActiveNodes_spec in Hsnap by done. injection Hsnap as <-.
  destruct (ReplicateData_selected ord ord' key c Hok Haddr Ho Ho' HR HN)
    as (primary & j & reps & _ & _ & _ & _ & Hsel & Hrun).
  exists (filter (notSelf c) (primary :: reps)). intros http.
  destruct (Hrun value http) as (evs & Hret & Hposts & Hlogs).
  exists evs. split; [done|]. split; [done|]. split; [|split; [done|]].
  - rewrite Hposts. apply omap_pushTo_length.
    apply Forall_forall. intros q [_ Hq]%list_elem_of_filter.
    rewrite Forall_forall in Hsel.
    destruct (activeSnapshot_elem ord c q Hok (Hsel q Hq)) as (n & Hn & _).
    eauto.
  - clear. unfold posts, logged. induction evs as [|[u b|l] evs IH]; csimpl; lia.
Qed.

Lemma filter_all {A} (P : A → Prop) `{∀ x, Decision (P x)} (l : list A) :
  Forall P l → filter P l = l.
Proof.
  induction 1 as [|x l Hx _ IH]; [done|].
  by rewrite filter_cons, decide_True, IH.
Qed.

Lemma length_filter_but_one `{EqDecision A} (P : A → Prop) `{∀ x, Decision (P x)}
    (x : A) (l : list A) :
  NoDup l → x ∈ l → (∀ y, y ∈ l → P y ↔ y ≠ x) →
  S (length (filter P l)) = length l.
Proof.
  induction 1 as [|a l Ha Hnd IH]; intros Hin HP.
  { by apply elem_of_nil in Hin. }
  rewrite filter_cons. destruct (decide (a = x)) as [->|Hax].
  - rewrite decide_False; last first.
    { intros HPx. destruct (HP x) as [H1 _]; [left|]. by apply H1 in HPx. }
    rewrite filter_all; [done|].
    apply Forall_forall. intros y Hy. apply HP; [by right|].
    intros ->. done.
  - rewrite decide_True; last first.
    { destruct (HP a) as [_ H2]; [left|]. by apply H2. }
    apply elem_of_cons in Hin as [->|Hin]; [done|].
    cbn [length]. f_equal. apply IH; [done|].
    intros y Hy. apply HP. by right.
Qed.

Lemma notSelf_iff_ne ord c q :
  registry_ok c → selfNode c ∈ activeSnapshot ord c →
  q ∈ activeSnapshot ord c → notSelf c q ↔ q ≠ selfNode c.
Proof.
  intros Hok Hself Hq. unfold notSelf, selfID. split.
  - intros Hne ->. by apply Hne.
  - intros Hne Hid. apply Hne.
    destruct (activeSnapshot_elem ord c q Hok Hq) as (n & Hn & _).
    destruct (activeSnapshot_elem ord c _ Hok Hself) as (m & Hm & _).
    rewrite Hn, Hm in Hid. simpl in Hid.
    eapply (activeSnapshot_id_inj ord c); [done..|congruence].
Qed.

(** C6, as the code has it.  With replication factor 3 and exactly 3 active
    nodes, for every key: the replica set of [ReplicateData] is the primary
    given by [GetPartitionForKey] followed by the nodes at the next two
    positions of the snapshot modulo 3; these are all 3 active nodes; a push
    is attempted to exactly the selected nodes that are not self.  These
    are 2 nodes when the self node is one of the 3 active nodes, and all 3
    when the self node is registered but not active. *)
Theorem ReplicateData_three_of_three (ord ord' : list string)
    (http : nat → HttpResult) (key : string) (value : Value) (c : Cluster)
    (activeNodes : list addr) :
  registry_ok c → addressable c →
  iteration_order (nodes c) ord → iteration_order (nodes c) ord' →
  config.ReplicationFactor (config c) = 3 →
  GetActiveNodes ord c = Returns activeNodes → len activeNodes = 3 →
  ∃ primary (j : nat) r1 r2 evs,
    GetPartitionForKey ord' key c = Returns (Some primary)
    ∧ activeNodes !! j = Some primary
    ∧ activeNodes !! Z.to_nat ((Z.of_nat j + 1) mod 3) = Some r1
    ∧ activeNodes !! Z.to_nat ((Z.of_nat j + 2) mod 3) = Some r2
    ∧ replicaSet (heap c) 3 activeNodes (Some primary)
      = Returns [Some primary; Some r1; Some r2]
    ∧ [primary; r1; r2] ≡ₚ activeNodes
    ∧ ReplicateData ord ord' http key value c = Returns (None, evs)
    ∧ posts evs
      = omap (pushTo c key value) (filter (notSelf c) [primary; r1; r2])
    ∧ (selfNode c ∈ activeNodes →
       length (filter (notSelf c) [primary; r1; r2]) = 2%nat
       ∧ length (posts evs) = 2%nat
       ∧ selfNode c ∉ filter (notSelf c) [primary; r1; r2])
    ∧ (self_registered c → selfNode c ∉ activeNodes →
       filter (notSelf c) [primary; r1; r2] = [primary; r1; r2]
       ∧ length (posts evs) = 3%nat).
Proof.
  intros Hok Haddr Ho Ho' HR Hsnap Hlen.
  rewrite GetActiveNodes_spec in Hsnap by done. injection Hsnap as <-.
  destruct (ReplicateData_selected ord ord' key c Hok Haddr Ho Ho')
    as (primary & j & reps & Hpart & Hj & Hreps & Hset & Hsel & Hrun);
    [lia..|].
  rewrite HR, Hlen in Hreps. rewrite HR in Hset.
  change (seqZ 1 (Z.min 3 3 - 1)) with [1; 2] in Hreps.
  apply Forall2_cons_inv_l in Hreps as (r1 & reps1 & Hr1 & Hreps & ->).
  apply Forall2_cons_inv_l in Hreps as (r2 & reps2 & Hr2 & Hreps & ->).
  apply Forall2_nil_inv_l in Hreps as ->.
  destruct (Hrun value http) as (evs & Hret & Hposts & _).
  assert ([primary; r1; r2] ≡ₚ activeSnapshot ord c) as Hperm.
  { destruct (activeSnapshot ord c) as [|a0 [|a1 [|a2 [|a3 l]]]];
      try (unfold len in Hlen; cbn in Hlen; lia).
    destruct j as [|[|[|j]]]; cbn in Hj; [| | |done];
      vm_compute in Hr1, Hr2; simplify_eq.
    - done.
    - apply (Permutation_app_comm [primary; r1] [r2]).
    - apply (Permutation_app_comm [primary] [r1; r2]). }
  exists primary, j, r1, r2, evs.
  split; [done|]. split; [done|]. split; [done|]. split; [done|].
  split; [exact Hset|]. split; [done|]. split; [done|]. split; [done|].
  assert (Forall (fun q => is_Some (heap c !! q))
                 (filter (notSelf c) [primary; r1; r2])) as Halloc.
  { apply Forall_forall. intros q [_ Hq]%list_elem_of_filter.
    rewrite Forall_forall in Hsel.
    destruct (activeSnapshot_elem ord c q Hok (Hsel q Hq)) as (n & Hn & _).
    eauto. }
  split; last first.
  { intros Hreg Hnotin.
    assert (filter (notSelf c) [primary; r1; r2] = [primary; r1; r2]) as Hall.
    { apply filter_all, Forall_forall. intros q Hq.
      rewrite Forall_forall in Hsel.
      destruct (activeSnapshot_elem ord c q Hok (Hsel q Hq))
        as (n & Hn & Hkey & _).
      unfold notSelf, selfID. unfold self_registered in Hreg.
      destruct (heap c !! selfNode c) as [m|]; [|done].
      rewrite Hn. cbn. intros [= Hid]. apply Hnotin.
      rewrite Hid, Hreg in Hkey. injection Hkey as <-. by apply Hsel. }
    split; [done|].
    rewrite Hposts, omap_pushTo_length by done. by rewrite Hall. }
  intros Hself.
  assert (length (filter (notSelf c) [primary; r1; r2]) = 2%nat) as Hcount.
  { assert (S (length (filter (notSelf c) [primary; r1; r2])) = 3%nat);
      [|lia].
    rewrite Hperm.
    replace 3%nat with (length (activeSnapshot ord c)) by (unfold len in Hlen; lia).
    apply (length_filter_but_one _ (selfNode c)).
    - by apply activeSnapshot_NoDup.
    - done.
    - intros q Hq. by apply (notSelf_iff_ne ord). }
  split; [done|]. split.
  - by rewrite Hposts, omap_pushTo_length.
  - intros [Hns _]%list_elem_of_filter. by apply Hns.
Qed.

End replication_facts.

Lemma ReplicateData_replication_factor_witness :
  registry_ok (sample.c2 3) ∧ addressable (sample.c2 3)
  ∧ iteration_order (nodes (sample.c2 3)) sample.ord2
  ∧ iteration_order (nodes (sample.c2 3)) sample.ord2'
  ∧ ReplicateData sample.ord2 sample.ord2' (fun _ => HttpResp 200)
                  "user:42" "v" (sample.c2 3)
    = Returns (Some (ErrNotEnoughActive 3), []).
Proof.
  assert (registry_ok (sample.c2 3)) as H1 by by_evaluation.
  assert (addressable (sample.c2 3)) as H2 by by_evaluation.
  assert (iteration_order (nodes (sample.c2 3)) sample.ord2) as H3
    by by_evaluation.
  assert (iteration_order (nodes (sample.c2 3)) sample.ord2') as H4
    by by_evaluation.
  split; [exact H1|]. split; [exact H2|]. split; [exact H3|].
  split; [exact H4|].
  destruct (ReplicateData_replication_factor sample.ord2 sample.ord2'
              (fun _ => HttpResp 200) "user:42" "v" (sample.c2 3) H1 H2 H3 H4)
    as (activeNodes & result & evs & Hsnap & Hret & _ & Hgt).
  assert (GetActiveNodes sample.ord2 (sample.c2 3) = Returns [0; 1]%nat) as Hc
    by (vm_compute; reflexivity).
  rewrite Hc in Hsnap. injection Hsnap as <-.
  destruct Hgt as ((_ & Herr) & _ & Hnone); [reflexivity|].
  rewrite Hret, (Herr eq_refl), (proj1 (Hnone eq_refl)). reflexivity.
Defined.

Lemma ReplicateData_three_of_three_witness :
  registry_ok (sample.c3 3) ∧ addressable (sample.c3 3)
  ∧ iteration_order (nodes (sample.c3 3)) sample.ord3
  ∧ iteration_order (nodes (sample.c3 3)) sample.ord3'
  ∧ GetActiveNodes sample.ord3 (sample.c3 3) = Returns [0; 1; 2]%nat
  ∧ ∃ evs, ReplicateData sample.ord3 sample.ord3' (fun _ => HttpErr "timeout")
                         "user:42" "v" (sample.c3 3) = Returns (None, evs)
           ∧ length (posts evs) = 2%nat.
Proof.
  assert (registry_ok (sample.c3 3)) as H1 by by_evaluation.
  assert (addressable (sample.c3 3)) as H2 by by_evaluation.
  assert (iteration_order (nodes (sample.c3 3)) sample.ord3) as H3
    by by_evaluation.
  assert (iteration_order (nodes (sample.c3 3)) sample.ord3') as H4
    by by_evaluation.
  assert (GetActiveNodes sample.ord3 (sample.c3 3) = Returns [0; 1; 2]%nat)
    as H5 by (vm_compute; reflexivity).
  split; [exact H1|]. split; [exact H2|]. split; [exact H3|].
  split; [exact H4|]. split; [exact H5|].
  destruct (ReplicateData_three_of_three sample.ord3 sample.ord3'
              (fun _ => HttpErr "timeout") "user:42" "v" (sample.c3 3)
              [0; 1; 2]%nat H1 H2 H3 H4 eq_refl H5 eq_refl)
    as (primary & j & r1 & r2 & evs & _ & _ & _ & _ & _ & _ & Hret & _ & Hself
        & _).
  exists evs. split; [exact Hret|].
  apply Hself. by_evaluation.
Defined.

Lemma reachable_added now n c :
  reachable any_op c → reachable any_op (sample.added now n c).
Proof.
  intros Hreach. unfold sample.added.
  set (c1 := with_heap (<[alloc (heap c) := n]> (heap c)) c).
  assert (reachable any_op c1) as Hreach1.
  { apply (reach_step _ c (OpNew n)); [done|exact I|exact I|reflexivity]. }
  destruct (AddNode now (alloc (heap c)) c1) as [[c' log]|] eqn:Hadd; [|done].
  apply (reach_step _ c1 (OpAddNode now (alloc (heap c))));
    [done|exact I|exact I|]. cbn [run]. by rewrite Hadd.
Qed.

(** C6, as stated: with the self node set inactive by [RemoveNode] on its id
    and three peers active, replication factor 3 makes 3 pushes. *)
Lemma three_pushes_when_self_inactive : ¬ three_active_push_two.
Proof.
  intros Hclaim.
  assert (reachable any_op inactive_self_sample.c4_demoted) as Hreach.
  { apply (reach_step _ inactive_self_sample.c4
                      (OpRemoveNode sample.selfId)); [|exact I|exact I|
                                                       vm_compute; reflexivity].
    do 3 apply reachable_added. apply reach_new. }
  assert (iteration_order (nodes inactive_self_sample.c4_demoted)
                          inactive_self_sample.ord4) as Hord by by_evaluation.
  assert (ReplicateData inactive_self_sample.ord4 inactive_self_sample.ord4
            (fun _ => HttpResp StatusOK) "user:42" "v"
            inactive_self_sample.c4_demoted
          = Returns (None,
                     [Posted "http://10.0.0.3:9090/data/replicate"
                             (ReplicateBody "user:42" "v");
                      Posted "http://10.0.0.4:9090/data/replicate"
                             (ReplicateBody "user:42" "v");
                      Posted "http://10.0.0.2:9090/data/replicate"
                             (ReplicateBody "user:42" "v")])) as Hrun
    by (vm_compute; reflexivity).
  assert (GetActiveNodes inactive_self_sample.ord4
            inactive_self_sample.c4_demoted = Returns [1; 2; 3]%nat) as Hsnap
    by (vm_compute; reflexivity).
  pose proof (Hclaim string inactive_self_sample.ord4 inactive_self_sample.ord4
                (fun _ => HttpResp StatusOK) "user:42" "v"
                inactive_self_sample.c4_demoted [1; 2; 3]%nat _ _
                Hreach Hord Hord eq_refl Hsnap eq_refl Hrun) as Htwo.
  discriminate Htwo.
Qed.

Lemma ReplicateData_ignores_push_failures_witness :
  registry_ok (sample.c3 2) ∧ addressable (sample.c3 2)
  ∧ iteration_order (nodes (sample.c3 2)) sample.ord3
  ∧ iteration_order (nodes (sample.c3 2)) sample.ord3'
  ∧ GetActiveNodes sample.ord3 (sample.c3 2) = Returns [0; 1; 2]%nat
  ∧ ∃ evs, ReplicateData sample.ord3 sample.ord3' (fun _ => HttpErr "timeout")
                         "user:42" "v" (sample.c3 2) = Returns (None, evs).
Proof.
  assert (registry_ok (sample.c3 2)) as H1 by by_evaluation.
  assert (addressable (sample.c3 2)) as H2 by by_evaluation.
  assert (iteration_order (nodes (sample.c3 2)) sample.ord3) as H3
    by by_evaluation.
  assert (iteration_order (nodes (sample.c3 2)) sample.ord3') as H4
    by by_evaluation.
  assert (GetActiveNodes sample.ord3 (sample.c3 2) = Returns [0; 1; 2]%nat)
    as H5 by (vm_compute; reflexivity).
  split; [exact H1|]. split; [exact H2|]. split; [exact H3|].
  split; [exact H4|]. split; [exact H5|].
  destruct (ReplicateData_ignores_push_failures sample.ord3 sample.ord3'
              "user:42" "v" (sample.c3 2) [0; 1; 2]%nat H1 H2 H3 H4 H5)
    as (targets & Hrun); [reflexivity|vm_compute; discriminate|].
  destruct (Hrun (fun _ => HttpErr "timeout")) as (evs & Hret & _).
  exists evs. exact Hret.
Defined.

(** The scenario of C6 evaluated: the primary of "user:42" is the self node,
    and both peers are pushed to, in ring order, each push failing. *)
Example ReplicateData_c3_trace :
  ReplicateData sample.ord3 sample.ord3' (fun _ => HttpErr "timeout")
                "user:42" "v" (sample.c3 3)
  = Returns (None,
      [Posted "http://10.0.0.2:9090/data/replicate" (ReplicateBody "user:42" "v");
       Logged (LogReplicateFailed "user:42" "node-1"
                 (ErrReplicateTo "node-1" "timeout"));
       Posted "http://10.0.0.3:9090/data/replicate" (ReplicateBody "user:42" "v");
       Logged (LogReplicateFailed "user:42" "node-2"
                 (ErrReplicateTo "node-2" "timeout"))]).
Proof. vm_compute. reflexivity. Qed.


(** * Further properties of the cluster component *)

(** ** Snapshots *)

Lemma activeSnapshot_elem_iff ord c p :
  registry_ok c → iteration_order (nodes c) ord →
  p ∈ activeSnapshot ord c
  ↔ ∃ n, heap c !! p = Some n ∧ nodes c !! ID n = Some p ∧ Status n = "active".
Proof.
  intros Hok Ho. split; [by apply activeSnapshot_elem|].
  intros (n & Hn & Hk & Hact). apply list_elem_of_filter. split.
  - unfold isActive. rewrite Hn. simpl. by rewrite Hact.
  - apply rangeMap_elem. exists (ID n). split; [|done].
    apply (iteration_order_elem (nodes c)); eauto.
Qed.

(** The snapshot [GetActiveNodes] returns holds exactly the registered nodes
    whose status is "active", each once, whatever the order in which the
    registry map is visited. *)
Theorem GetActiveNodes_exactly_active (ord : list string) (c : Cluster) :
  registry_ok c → iteration_order (nodes c) ord →
  ∃ s, GetActiveNodes ord c = Returns s
       ∧ NoDup s
       ∧ (length s ≤ size (nodes c))%nat
       ∧ ∀ p, p ∈ s ↔ ∃ n, heap c !! p = Some n
                           ∧ GetNode (ID n) c = Some p
                           ∧ Status n = "active".
Proof.
  intros Hok Ho. exists (activeSnapshot ord c).
  split; [by apply GetActiveNodes_spec|].
  split; [by apply activeSnapshot_NoDup|].
  split; [by apply activeSnapshot_length|].
  intros p. by apply activeSnapshot_elem_iff.
Qed.

Lemma GetActiveNodes_exactly_active_witness :
  registry_ok (sample.c3 3)
  ∧ iteration_order (nodes (sample.c3 3)) sample.ord3'
  ∧ ∃ s, GetActiveNodes sample.ord3' (sample.c3 3) = Returns s ∧ NoDup s.
Proof.
  assert (registry_ok (sample.c3 3)) as H1 by by_evaluation.
  assert (iteration_order (nodes (sample.c3 3)) sample.ord3') as H2
    by by_evaluation.
  split; [exact H1|]. split; [exact H2|].
  destruct (GetActiveNodes_exactly_active _ _ H1 H2) as (s & Hs & Hnd & _).
  exists s. split; [exact Hs|exact Hnd].
Defined.

(** After [RemoveNode] on a registered id the entry is still in the registry
    ([GetNode] finds the same node), its status is "inactive", no later
    snapshot contains it, and every other node is in a snapshot exactly when
    it was before. *)
Theorem RemoveNode_leaves_entry_inactive (nodeID : string) (p : addr)
    (c : Cluster) :
  registry_ok c → GetNode nodeID c = Some p →
  ∃ c' n, RemoveNode nodeID c = Returns (c', [LogRemoved nodeID])
    ∧ registry_ok c'
    ∧ nodes c' = nodes c
    ∧ GetNode nodeID c' = Some p
    ∧ heap c !! p = Some n ∧ heap c' !! p = Some (set_Status "inactive" n)
    ∧ ∀ ord, iteration_order (nodes c') ord →
        (p ∉ activeSnapshot ord c')
        ∧ ∀ q, q ≠ p → q ∈ activeSnapshot ord c' ↔ q ∈ activeSnapshot ord c.
Proof.
  intros Hok Hp. unfold GetNode in *.
  destruct (registry_ok_lookup c _ _ Hok Hp) as (n & Hn & Hid).
  destruct (RemoveNode_spec nodeID c Hok)
    as (c' & log & Hret & Hok' & Hnodes & _ & Hframe & Hset).
  assert (log = [LogRemoved nodeID]) as ->.
  { unfold RemoveNode in Hret. rewrite Hp, Hn in Hret. simpl in Hret. congruence. }
  exists c', n. split; [done|]. split; [done|]. split; [done|].
  split; [by rewrite Hnodes|]. split; [done|].
  split; [by apply Hset|]. intros ord Ho.
  assert (iteration_order (nodes c) ord) as Ho0 by by rewrite <- Hnodes.
  split.
  - intros (m & Hm & _ & Hact)%activeSnapshot_elem; [|done].
    rewrite (Hset p n Hp Hn) in Hm. by simplify_eq.
  - intros q Hq. rewrite !activeSnapshot_elem_iff by done.
    rewrite Hnodes, Hframe; [done|]. rewrite Hp. congruence.
Qed.

Lemma RemoveNode_leaves_entry_inactive_witness :
  registry_ok (sample.c2 1) ∧ GetNode "node-1" (sample.c2 1) = Some 1%nat
  ∧ ∃ c', RemoveNode "node-1" (sample.c2 1) = Returns (c', [LogRemoved "node-1"])
          ∧ GetNode "node-1" c' = Some 1%nat.
Proof.
  assert (registry_ok (sample.c2 1)) as H1 by by_evaluation.
  assert (GetNode "node-1" (sample.c2 1) = Some 1%nat) as H2
    by (vm_compute; reflexivity).
  split; [exact H1|]. split; [exact H2|].
  destruct (RemoveNode_leaves_entry_inactive _ _ _ H1 H2)
    as (c' & n & Hret & _ & _ & Hget & _).
  exists c'. split; [exact Hret|exact Hget].
Defined.

(** ** Failure detector: what a round leaves behind *)

Lemma notSelf_ids c c' :
  selfNode c' = selfNode c →
  (∀ q, ID <$> heap c' !! q = ID <$> heap c !! q) →
  ∀ q, notSelf c' q ↔ notSelf c q.
Proof.
  intros Hs Hids q. unfold notSelf, selfID. by rewrite Hs, !Hids.
Qed.

Lemma heartbeatLoop_statuses http clock snapshot :
  ∀ i c,
    registry_ok c → NoDup snapshot → Forall (registered c) snapshot →
    ∃ c' probed,
      heartbeatLoop http clock i snapshot c = Returns (c', probed)
      ∧ nodes c' = nodes c ∧ selfNode c' = selfNode c
      ∧ probed = filter (notSelf c) snapshot
      ∧ (∀ q, q ∉ snapshot → heap c' !! q = heap c !! q)
      ∧ (∀ j p, snapshot !! j = Some p →
           heap c' !! p
           = if decide (notSelf c p)
             then probed_record (pingNode (http (i + j)%nat)) (clock (i + j)%nat)
                  <$> heap c !! p
             else heap c !! p).
Proof.
  induction snapshot as [|p rest IH]; intros i c Hok Hnd Hall.
  { exists c, []. split_and!; done. }
  apply NoDup_cons in Hnd as [Hp Hnd].
  apply Forall_cons in Hall as [[k Hk] Hrest].
  destruct (registry_ok_lookup c k p Hok Hk) as (n & Hn & Hid).
  destruct (proj2 Hok) as [self Hself].
  cbn [heartbeatLoop]. rewrite Hn, Hself. cbn [mbind option_bind].
  destruct (decide (ID n = ID self)) as [Heq|Hne].
  - assert (¬ notSelf c p) as Hnot.
    { unfold notSelf, selfID. rewrite Hn, Hself. simpl. intros H. apply H. congruence. }
    destruct (IH (S i) c Hok Hnd Hrest)
      as (c' & probed & Hloop & Hnodes & Hs & Hprobed & Hout & Hin).
    exists c', probed. split; [done|]. split; [done|]. split; [done|].
    split; [by rewrite filter_cons, decide_False|].
    split.
    + intros q Hq. apply Hout. intros ?. apply Hq. by right.
    + intros [|j] q Hj; simpl in Hj.
      * injection Hj as <-. rewrite decide_False by done. by apply Hout.
      * rewrite (Hin j q Hj). by replace (i + S j)%nat with (S i + j)%nat by lia.
  - assert (notSelf c p) as Hyes.
    { unfold notSelf, selfID. rewrite Hn, Hself. simpl. congruence. }
    destruct (updateNodeStatus_spec (clock i) (ID n) (pingNode (http i)) c Hok)
      as (c1 & Hret & Hok1 & Hnodes1 & Hself1 & Hframe & Hset & Hids).
    rewrite Hret. cbn [mbind option_bind].
    destruct (IH (S i) c1 Hok1 Hnd)
      as (c' & probed & Hloop & Hnodes & Hs & Hprobed & Hout & Hin).
    { eapply Forall_impl; [exact Hrest|]. intros q [k' Hk']. exists k'.
      by rewrite Hnodes1. }
    rewrite Hloop. cbn [mbind option_bind].
    pose proof (notSelf_ids c c1 Hself1 Hids) as Hsame.
    assert (heap c1 !! p = Some (probed_record (pingNode (http i)) (clock i) n))
      as Hp1.
    { apply Hset; [by rewrite Hid|done]. }
    assert (∀ q, q ≠ p → heap c1 !! q = heap c !! q) as Hothers.
    { intros q Hq. apply Hframe. rewrite Hid, Hk. congruence. }
    exists c', (p :: probed). split; [done|]. split; [congruence|].
    split; [congruence|]. split; [|split].
    + rewrite filter_cons, decide_True by done. f_equal.
      rewrite Hprobed. by apply list_filter_iff.
    + intros q Hq. rewrite Hout, Hothers; [done|..].
      * intros ->. apply Hq. by left.
      * intros ?. apply Hq. by right.
    + intros [|j] q Hj; simpl in Hj.
      * injection Hj as <-. rewrite decide_True by done.
        rewrite Hout by done. rewrite Hp1, Hn. simpl.
        by replace (i + 0)%nat with i by lia.
      * assert (q ≠ p) as Hqp.
        { intros ->. apply Hp. by eapply list_elem_of_lookup_2. }
        rewrite (Hin j q Hj), Hothers by done.
        replace (i + S j)%nat with (S i + j)%nat by lia.
        destruct (decide (notSelf c1 q)) as [H1|H1];
          destruct (decide (notSelf c q)) as [H2|H2]; try done.
        -- by apply Hsame in H1.
        -- by apply Hsame in H2.
Qed.

(** A heartbeat round probes every registered node but self, once; the node
    at position [i] of the round is left active with [LastSeen] set when its
    probe is answered 200, inactive otherwise, so that it is in the next
    snapshot exactly when its probe succeeded; no other node is touched. *)
Theorem performHeartbeat_result (ord : list string) (http : nat → HttpResult)
    (clock : nat → Z) (c : Cluster) :
  registry_ok c → iteration_order (nodes c) ord →
  ∃ c' probed,
    performHeartbeat ord http clock c = Returns (c', probed)
    ∧ registry_ok c' ∧ nodes c' = nodes c
    ∧ probed = filter (notSelf c) (rangeMap ord (nodes c))
    ∧ (∀ q, ¬ (registered c q ∧ notSelf c q) → heap c' !! q = heap c !! q)
    ∧ ∀ i p n,
        rangeMap ord (nodes c) !! i = Some p → heap c !! p = Some n →
        notSelf c p →
        heap c' !! p = Some (probed_record (pingNode (http i)) (clock i) n)
        ∧ ∀ ord', iteration_order (nodes c') ord' →
            p ∈ activeSnapshot ord' c' ↔ pingNode (http i) = true.
Proof.
  intros Hok Ho.
  destruct (performHeartbeat_spec ord http clock c Hok)
    as (c0 & probed0 & Hret0 & Hok' & _).
  destruct (heartbeatLoop_statuses http clock (rangeMap ord (nodes c)) 0 c Hok)
    as (c' & probed & Hret & Hnodes & Hs & Hprobed & Hout & Hin).
  { apply rangeMap_NoDup; [done|apply Ho]. }
  { apply rangeMap_registered. }
  unfold performHeartbeat in *. rewrite Hret in Hret0. injection Hret0 as <- <-.
  exists c', probed. split; [done|]. split; [done|]. split; [done|].
  split; [done|]. split.
  - intros q Hq. destruct (decide (q ∈ rangeMap ord (nodes c))) as [Hel|Hel];
      [|by apply Hout].
    apply list_elem_of_lookup_1 in Hel as [j Hj].
    rewrite (Hin j q Hj). rewrite decide_False; [done|].
    intros Hns. apply Hq. split; [|done].
    apply list_elem_of_lookup_2, rangeMap_elem in Hj as (k & _ & Hk). by exists k.
  - intros i p n Hi Hn Hns.
    assert (heap c' !! p
            = Some (probed_record (pingNode (http i)) (clock i) n)) as Hp'.
    { rewrite (Hin i p Hi), decide_True by done. by rewrite Hn. }
    split; [done|]. intros ord' Ho'.
    apply list_elem_of_lookup_2, rangeMap_elem in Hi as (k & _ & Hk).
    destruct (registry_ok_lookup c k p Hok Hk) as (n' & Hn' & Hid).
    assert (n' = n) as -> by congruence.
    rewrite activeSnapshot_elem_iff by done. rewrite Hp', Hnodes. split.
    + intros (m & [= <-] & _ & Hact). by destruct (pingNode (http i)).
    + intros Halive. rewrite Halive. eexists. split; [done|]. simpl.
      by rewrite Hid.
Qed.

Lemma performHeartbeat_result_witness :
  registry_ok (sample.c2 1)
  ∧ iteration_order (nodes (sample.c2 1)) sample.ord2
  ∧ ∃ c', performHeartbeat sample.ord2 (fun _ => HttpErr "timeout")
                           (fun _ => 99) (sample.c2 1) = Returns (c', [1%nat])
          ∧ heap c' !! 1%nat
            = Some (set_Status "inactive"
                      (set_LastSeen 50 (sample.peer "node-1" "10.0.0.2" "active" 0))).
Proof.
  assert (registry_ok (sample.c2 1)) as H1 by by_evaluation.
  assert (iteration_order (nodes (sample.c2 1)) sample.ord2) as H2
    by by_evaluation.
  split; [exact H1|]. split; [exact H2|].
  destruct (performHeartbeat_result sample.ord2 (fun _ => HttpErr "timeout")
              (fun _ => 99) (sample.c2 1) H1 H2)
    as (c' & probed & Hret & _ & _ & Hprobed & _ & Hset).
  exists c'. split.
  - rewrite Hret, Hprobed. vm_compute. reflexivity.
  - refine (proj1 (Hset 1%nat 1%nat _ _ _ _)).
    + vm_compute. reflexivity.
    + vm_compute. reflexivity.
    + by_evaluation.
Defined.

(** ** Partitioner and replicator: further properties *)

(** When a single node is active it owns every key; in particular a new
    cluster, which holds the self node alone, assigns every key to self. *)
Theorem sole_active_node_owns_every_key (ord : list string) (key : string)
    (c : Cluster) (p : addr) :
  registry_ok c → addressable c → iteration_order (nodes c) ord →
  GetActiveNodes ord c = Returns [p] →
  GetPartitionForKey ord key c = Returns (Some p).
Proof.
  intros Hok Haddr Ho Hsnap.
  rewrite GetActiveNodes_spec in Hsnap by done. injection Hsnap as Hsnap.
  destruct (GetPartitionForKey_spec ord key c Hok Haddr Ho)
    as [[Hz _]|(_ & Hi & node & Hlk & Hret)].
  - rewrite Hsnap in Hz. done.
  - rewrite Hsnap in Hi, Hlk. unfold len in Hi. cbn [length] in Hi.
    rewrite Hret. do 2 f_equal.
    destruct (Z.to_nat _) as [|t] eqn:Ht; [by injection Hlk|by destruct t].
Qed.

Lemma sole_active_node_owns_every_key_witness :
  GetPartitionForKey [sample.selfId] "user:42" (sample.c1 1)
  = Returns (Some (selfNode (sample.c1 1))).
Proof.
  apply sole_active_node_owns_every_key; [by_evaluation..|].
  vm_compute. reflexivity.
Defined.

Lemma ring_positions_distinct (j a b N : Z) :
  0 <= a < N → 0 <= b < N → (j + a) mod N = (j + b) mod N → a = b.
Proof.
  intros Ha Hb Hmod.
  pose proof (Z.div_mod (j + a) N ltac:(lia)) as H1.
  pose proof (Z.div_mod (j + b) N ltac:(lia)) as H2.
  rewrite Hmod in H1.
  set (k := (j + a) / N - (j + b) / N).
  assert (a - b = N * k) as Hk by (unfold k; lia).
  clearbody k. clear H1 H2 Hmod.
  destruct (Z.lt_trichotomy k 0) as [Hlt|[->|Hgt]]; [exfalso; nia|lia|exfalso; nia].
Qed.

Section replication_more.

Context {Value : Type}.
Implicit Types (value : Value).

Lemma ring_walk_lookup (A : list addr) (j : nat) (R : Z) primary reps :
  A !! j = Some primary → 1 < R → R <= len A →
  Forall2 (fun i r => A !! Z.to_nat ((Z.of_nat j + i) mod len A) = Some r)
          (seqZ 1 (Z.min R (len A) - 1)) reps →
  length (primary :: reps) = Z.to_nat R
  ∧ ∀ t x, (primary :: reps) !! t = Some x →
           Z.of_nat t < R
           ∧ A !! Z.to_nat ((Z.of_nat j + Z.of_nat t) mod len A) = Some x.
Proof.
  intros Hj HR HN Hreps.
  assert (Z.of_nat j < len A) as Hjlt.
  { apply lookup_lt_Some in Hj. unfold len. lia. }
  pose proof (Forall2_length _ _ _ Hreps) as Hlen. rewrite length_seqZ in Hlen.
  split; [cbn [length]; lia|].
  intros [|t] x Hx; simpl in Hx.
  - injection Hx as <-. split; [lia|].
    rewrite Z.add_0_r, Z.mod_small by lia. by rewrite Nat2Z.id.
  - destruct (Forall2_lookup_r _ _ _ _ _ Hreps Hx) as (i & Hi & Hix).
    apply lookup_seqZ in Hi as [-> Hlt].
    split; [lia|]. by replace (Z.of_nat (S t)) with (1 + Z.of_nat t) by lia.
Qed.

(** Past its two checks, [ReplicateData] selects exactly [R] nodes, all of
    them active and no two the same, the first being the node
    [GetPartitionForKey] gives; it posts to [R - 1] nodes when self is among
    the selected ones, and to all [R] when self is active but not
    selected. *)
Theorem ReplicateData_replicas_distinct (ord ord' : list string)
    (key : string) (value : Value) (c : Cluster) (activeNodes : list addr) :
  registry_ok c → addressable c →
  iteration_order (nodes c) ord → iteration_order (nodes c) ord' →
  GetActiveNodes ord c = Returns activeNodes →
  1 < config.ReplicationFactor (config c) →
  config.ReplicationFactor (config c) <= len activeNodes →
  ∃ primary selected,
    GetPartitionForKey ord' key c = Returns (Some primary)
    ∧ replicaSet (heap c) (config.ReplicationFactor (config c)) activeNodes
                 (Some primary) = Returns (Some <$> selected)
    ∧ head selected = Some primary
    ∧ NoDup selected
    ∧ len selected = config.ReplicationFactor (config c)
    ∧ (∀ q, q ∈ selected → q ∈ activeNodes)
    ∧ ∀ http : nat → HttpResult,
        ∃ evs,
          ReplicateData ord ord' http key value c = Returns (None, evs)
          ∧ (selfNode c ∈ selected →
             len (posts evs) = config.ReplicationFactor (config c) - 1)
          ∧ (selfNode c ∈ activeNodes → selfNode c ∉ selected →
             len (posts evs) = config.ReplicationFactor (config c)).
Proof.
  intros Hok Haddr Ho Ho' Hsnap HR HN.
  rewrite GetActiveNodes_spec in Hsnap by done. injection Hsnap as <-.
  set (R := config.ReplicationFactor (config c)) in *.
  destruct (ReplicateData_selected (Value:=Value) ord ord' key c
              Hok Haddr Ho Ho' HR HN)
    as (primary & j & reps & Hpart & Hj & Hreps & Hset & Hsel & Hrun).
  fold R in Hreps, Hset.
  destruct (ring_walk_lookup _ j R primary reps Hj HR HN Hreps) as [Hlen Hlk].
  pose proof (activeSnapshot_NoDup ord c Hok Ho) as HndA.
  assert (NoDup (primary :: reps)) as Hnd.
  { apply NoDup_alt. intros t1 t2 x H1 H2.
    destruct (Hlk t1 x H1) as [Ht1 Hx1]. destruct (Hlk t2 x H2) as [Ht2 Hx2].
    pose proof (NoDup_lookup _ _ _ _ HndA Hx1 Hx2) as Heq.
    assert (0 < len (activeSnapshot ord c)) as Hpos by lia.
    pose proof (Z.mod_pos_bound (Z.of_nat j + Z.of_nat t1) _ Hpos).
    pose proof (Z.mod_pos_bound (Z.of_nat j + Z.of_nat t2) _ Hpos).
    apply Z2Nat.inj in Heq; [|lia..].
    apply ring_positions_distinct in Heq; lia. }
  rewrite Forall_forall in Hsel.
  exists primary, (primary :: reps).
  split; [done|]. split; [done|]. split; [done|]. split; [done|].
  split; [unfold len; lia|]. split; [done|]. intros http.
  destruct (Hrun value http) as (evs & Hret & Hposts & _).
  exists evs. split; [done|].
  assert (length (posts evs) = length (filter (notSelf c) (primary :: reps)))
    as Hcount.
  { rewrite Hposts. apply omap_pushTo_length.
    apply Forall_forall. intros q [_ Hq]%list_elem_of_filter.
    destruct (activeSnapshot_elem ord c q Hok (Hsel q Hq)) as (n & Hn & _).
    eauto. }
  unfold len. rewrite Hcount. split.
  - intros Hself.
    pose proof (length_filter_but_one (notSelf c) (selfNode c) (primary :: reps)
                  Hnd Hself) as Hone.
    rewrite <- Hone in Hlen; [lia|].
    intros q Hq. apply (notSelf_iff_ne ord); auto.
  - intros HselfA Hnot. rewrite filter_all; [lia|].
    apply Forall_forall. intros q Hq.
    apply (notSelf_iff_ne ord); auto. by intros ->.
Qed.

End replication_more.

Lemma ReplicateData_replicas_distinct_witness :
  registry_ok (sample.c3 2) ∧ addressable (sample.c3 2)
  ∧ iteration_order (nodes (sample.c3 2)) sample.ord3'
  ∧ iteration_order (nodes (sample.c3 2)) sample.ord3
  ∧ GetActiveNodes sample.ord3' (sample.c3 2) = Returns [2; 0; 1]%nat
  ∧ ∃ selected,
      replicaSet (heap (sample.c3 2)) 2 [2; 0; 1]%nat (Some 1%nat)
      = Returns (Some <$> selected)
      ∧ NoDup selected ∧ len selected = 2.
Proof.
  assert (registry_ok (sample.c3 2)) as H1 by by_evaluation.
  assert (addressable (sample.c3 2)) as H2 by by_evaluation.
  assert (iteration_order (nodes (sample.c3 2)) sample.ord3') as H3
    by by_evaluation.
  assert (iteration_order (nodes (sample.c3 2)) sample.ord3) as H4
    by by_evaluation.
  assert (GetActiveNodes sample.ord3' (sample.c3 2) = Returns [2; 0; 1]%nat)
    as H5 by (vm_compute; reflexivity).
  split; [exact H1|]. split; [exact H2|]. split; [exact H3|].
  split; [exact H4|]. split; [exact H5|].
  destruct (ReplicateData_replicas_distinct sample.ord3' sample.ord3
              "user:42" "v" (sample.c3 2) [2; 0; 1]%nat H1 H2 H3 H4 H5)
    as (primary & selected & Hpart & Hset & _ & Hnd & Hlen & _);
    [reflexivity|vm_compute; discriminate|].
  assert (GetPartitionForKey sample.ord3 "user:42" (sample.c3 2)
          = Returns (Some 1%nat)) as Hp by (vm_compute; reflexivity).
  rewrite Hp in Hpart. injection Hpart as <-.
  exists selected. split; [exact Hset|]. split; [exact Hnd|exact Hlen].
Defined.

(** The same registry and key, replication factor 2: the two selected nodes
    are the two peers, and both are posted to. *)
Example ReplicateData_c3_two_pushes :
  ReplicateData sample.ord3' sample.ord3 (fun _ => HttpResp 200)
                "user:42" "v" (sample.c3 2)
  = Returns (None,
      [Posted "http://10.0.0.2:9090/data/replicate" (ReplicateBody "user:42" "v");
       Posted "http://10.0.0.3:9090/data/replicate" (ReplicateBody "user:42" "v")]).
Proof. vm_compute. reflexivity. Qed.

(** ** Gossip round and joining *)

Section gossip_facts.

Context {Value : Type}.

Lemma posts_app (e1 e2 : list (Event Value)) :
  posts (e1 ++ e2) = posts e1 ++ posts e2.
Proof. unfold posts. apply omap_app. Qed.

Lemma exchangeGossip_spec ord node n r c :
  registry_ok c → heap c !! node = Some n →
  ∃ members (evs : list (Event Value)),
    exchangeGossip ord node r c = Returns evs
    ∧ posts evs = [(nodeURL n "/cluster/gossip", GossipBody members)]
    ∧ Forall2 (fun p m => heap c !! p = Some m) (activeSnapshot ord c) members
    ∧ Forall (fun m => Status m = "active") members.
Proof.
  intros Hok Hn. unfold exchangeGossip. rewrite Hn.
  rewrite GetActiveNodes_spec by done. cbn [mbind option_bind].
  destruct (mapM (fun p => heap c !! p) (activeSnapshot ord c))
    as [members|] eqn:Hm.
  - apply mapM_Some in Hm. exists members. eexists. split; [reflexivity|].
    split; [|split; [done|]].
    + unfold posts. csimpl. destruct r as [cause|code]; [done|].
      by destruct (decide (code = StatusOK)).
    + eapply Forall2_Forall_r; [exact Hm|].
      apply Forall_forall. intros p Hp m Hpm.
      destruct (activeSnapshot_elem ord c p Hok Hp) as (m' & Hm' & _ & Hact).
      congruence.
  - exfalso. apply eq_None_not_Some in Hm. apply Hm, mapM_is_Some.
    eapply Forall_impl; [by apply activeSnapshot_allocated|]. done.
Qed.

Lemma gossipLoop_spec ords rnd http ord c :
  registry_ok c → 0 < len (activeSnapshot ord c) →
  ∀ turns i,
    ∃ evs : list (Event Value),
      gossipLoop ords rnd http (activeSnapshot ord c) c i turns = Returns evs
      ∧ (length (posts evs) ≤ turns)%nat
      ∧ ∀ url body, (url, body) ∈ posts evs →
          ∃ p n members,
            p ∈ activeSnapshot ord c ∧ heap c !! p = Some n ∧ notSelf c p
            ∧ url = nodeURL n "/cluster/gossip" ∧ body = GossipBody members
            ∧ Forall (fun m => Status m = "active") members.
Proof.
  intros Hok Hpos. destruct (proj2 Hok) as [self Hself].
  induction turns as [|turns IH]; intros i.
  { exists []. split; [done|]. split; [done|]. intros url body Hin.
    by apply elem_of_nil in Hin. }
  cbn [gossipLoop]. unfold Intn.
  destruct (index_Some (activeSnapshot ord c) (rnd i mod len (activeSnapshot ord c)))
    as (p & Hix & Hp); [by apply Z.mod_pos_bound|].
  rewrite Hix. cbn [mbind option_bind].
  apply list_elem_of_lookup_2 in Hp.
  destruct (activeSnapshot_elem ord c p Hok Hp) as (n & Hn & _).
  rewrite Hn, Hself. cbn [mbind option_bind].
  destruct (IH (S i)) as (rest & Hrest & Hlen & Hall).
  destruct (decide (ID n = ID self)) as [Heq|Hne].
  - exists rest. split; [done|]. split; [lia|done].
  - destruct (exchangeGossip_spec (ords i) p n (http i) c Hok Hn)
      as (members & evs & Hex & Hposts & _ & Hact).
    rewrite Hex, Hrest. cbn [mbind option_bind].
    exists (evs ++ rest). split; [done|]. rewrite posts_app, Hposts.
    split; [cbn [length app]; lia|].
    intros url body [Hhd|Htl]%elem_of_cons; [|by apply Hall].
    injection Hhd as -> ->. exists p, n, members.
    split_and!; try done.
    unfold notSelf, selfID. rewrite Hn, Hself. simpl. congruence.
Qed.

(** A gossip round does nothing when at most one node is active; otherwise
    it posts at most twice, each time the list of active records to the
    gossip endpoint of an active node that is not self. *)
Theorem runGossipRound_posts (ord : list string) (ords : nat → list string)
    (rnd : nat → Z) (http : nat → HttpResult) (c : Cluster) :
  registry_ok c → iteration_order (nodes c) ord →
  ∃ (s : list addr) (evs : list (Event Value)),
    GetActiveNodes ord c = Returns s
    ∧ runGossipRound ord ords rnd http c = Returns evs
    ∧ (len s <= 1 → evs = [])
    ∧ (length (posts evs) ≤ 2)%nat
    ∧ ∀ url body, (url, body) ∈ posts evs →
        ∃ p n members,
          p ∈ s ∧ heap c !! p = Some n ∧ notSelf c p
          ∧ url = nodeURL n "/cluster/gossip" ∧ body = GossipBody members
          ∧ Forall (fun m => Status m = "active") members.
Proof.
  intros Hok Ho. exists (activeSnapshot ord c).
  unfold runGossipRound. rewrite GetActiveNodes_spec by done.
  cbn [mbind option_bind].
  destruct (decide (len (activeSnapshot ord c) <= 1)) as [Hle|Hgt].
  { exists []. split_and!;
      [done|done|done|cbn; lia|intros url body Hin; by apply elem_of_nil in Hin]. }
  rewrite decide_False by lia. change (Z.to_nat 2) with 2%nat.
  destruct (gossipLoop_spec ords rnd http ord c Hok ltac:(lia) 2%nat 0%nat)
    as (evs & Hret & Hlen & Hall).
  exists evs. split_and!; try done; lia.
Qed.

End gossip_facts.

Lemma runGossipRound_posts_witness :
  registry_ok (sample.c3 1) ∧ iteration_order (nodes (sample.c3 1)) sample.ord3
  ∧ ∃ evs : list (Event string),
      runGossipRound sample.ord3 (fun _ => sample.ord3') (fun i => Z.of_nat i)
                     (fun _ => HttpResp 404) (sample.c3 1) = Returns evs
      ∧ (length (posts evs) ≤ 2)%nat.
Proof.
  assert (registry_ok (sample.c3 1)) as H1 by by_evaluation.
  assert (iteration_order (nodes (sample.c3 1)) sample.ord3) as H2
    by by_evaluation.
  split; [exact H1|]. split; [exact H2|].
  destruct (runGossipRound_posts (Value:=string) sample.ord3
              (fun _ => sample.ord3') (fun i => Z.of_nat i)
              (fun _ => HttpResp 404) (sample.c3 1) H1 H2)
    as (s & evs & _ & Hret & _ & Hlen & _).
  exists evs. split; [exact Hret|exact Hlen].
Defined.

(** With draws 0 and 1 the round above skips self and gossips with one peer,
    whose answer (404) is logged. *)
Example runGossipRound_c3_trace :
  runGossipRound (Value:=string) sample.ord3 (fun _ => sample.ord3')
                 (fun i => Z.of_nat i) (fun _ => HttpResp 404) (sample.c3 1)
  = Returns
      [Posted "http://10.0.0.2:9090/cluster/gossip"
         (GossipBody
            [mkNode "node-2" "10.0.0.3" "9090" "active" 60;
             mkNode sample.selfId "localhost" "9090" "active" 0;
             mkNode "node-1" "10.0.0.2" "9090" "active" 50]);
       Logged (LogGossipStatus "node-1" 404)].
Proof. vm_compute. reflexivity. Qed.

(** [Join] posts the self node as it is in memory at the time of the call:
    a status written through the registry entry of the self node (the same
    object) is the status a later [Join] sends; the call fails unless the
    seed answers 200. *)
Theorem Join_posts_current_self (seedAddress nodeID : string) (now : Z)
    (alive : bool) (r : HttpResult) (c : Cluster) :
  registry_ok c → GetNode nodeID c = Some (selfNode c) →
  ∃ c' self url err,
    heap c !! selfNode c = Some self
    ∧ updateNodeStatus now nodeID alive c = Returns c'
    ∧ Join seedAddress r c' = Returns (url, probed_record alive now self, err)
    ∧ Status (probed_record alive now self)
      = (if alive then "active" else "inactive")
    ∧ (err = None ↔ pushOK r).
Proof.
  intros Hok Hget. unfold GetNode in Hget.
  destruct (registry_ok_lookup c _ _ Hok Hget) as (self & Hself & Hid).
  destruct (updateNodeStatus_spec now nodeID alive c Hok)
    as (c' & Hret & _ & _ & Hs & _ & Hset & _).
  exists c', self. do 2 eexists. split; [done|]. split; [done|].
  unfold Join. rewrite Hs, (Hset _ _ Hget Hself). cbn [mbind option_bind].
  split; [reflexivity|]. split; [by destruct alive|].
  destruct r as [cause|code]; simpl; [by split|].
  destruct (decide (code = StatusOK)); by split.
Qed.

Lemma Join_posts_current_self_witness :
  registry_ok (sample.c1 1)
  ∧ GetNode sample.selfId (sample.c1 1) = Some (selfNode (sample.c1 1))
  ∧ ∃ c' url err,
      updateNodeStatus 7 sample.selfId false (sample.c1 1) = Returns c'
      ∧ Join "seed:8080" (HttpResp 200) c'
        = Returns (url, mkNode sample.selfId "localhost" "9090" "inactive" 0, err).
Proof.
  assert (registry_ok (sample.c1 1)) as H1 by by_evaluation.
  assert (GetNode sample.selfId (sample.c1 1) = Some (selfNode (sample.c1 1)))
    as H2 by (vm_compute; reflexivity).
  split; [exact H1|]. split; [exact H2|].
  destruct (Join_posts_current_self "seed:8080" sample.selfId 7 false
              (HttpResp 200) (sample.c1 1) H1 H2)
    as (c' & self & url & err & Hself & Hret & Hjoin & _).
  assert (heap (sample.c1 1) !! selfNode (sample.c1 1)
          = Some (mkNode sample.selfId "localhost" "9090" "active" 0)) as Hc
    by (vm_compute; reflexivity).
  rewrite Hc in Hself. injection Hself as <-.
  exists c', url, err. split; [exact Hret|exact Hjoin].
Defined.

(** ** The cluster client against this server *)

Lemma route_not_registered m p q :
  p ≠ "health" → p ≠ "docs" → p ≠ "kv" → p ≠ "columns" → p ≠ "graph" →
  (p = "cluster" → q ≠ "status" ∧ q ≠ "nodes") →
  server.route m [p; q] = server.notFoundHandler.
Proof.
  intros H1 H2 H3 H4 H5 H6. unfold server.route, server.routes.
  cbn [find]. unfold server.matchRoute.
  cbn [server.template server.isPrefix server.matchPath server.matchSeg
       server.methods server.handler].
  rewrite !(bool_decide_eq_false_2 (_ = p)) by congruence.
  cbn [andb].
  destruct (decide (p = "cluster")) as [->|Hp].
  - destruct (H6 eq_refl) as [Hq1 Hq2].
    rewrite !(bool_decide_eq_false_2 (_ = q)) by congruence.
    rewrite !andb_false_r. cbn [andb]. reflexivity.
  - rewrite !(bool_decide_eq_false_2 (_ = p)) by congruence.
    cbn [andb]. reflexivity.
Qed.

(** The endpoints the cluster client calls besides the health probe —
    [/cluster/join] and [/data/replicate] — are not served: answered by a
    peer running this server, [Join] returns its status error with 404 and
    every push of [ReplicateData] fails and is logged; the peer's state is
    not touched. *)
Theorem cluster_calls_not_served {Value : Type} (ord ord' : list string)
    (key : string) (value : Value) (c : Cluster) (activeNodes : list addr) :
  registry_ok c → addressable c →
  iteration_order (nodes c) ord → iteration_order (nodes c) ord' →
  GetActiveNodes ord c = Returns activeNodes →
  1 < config.ReplicationFactor (config c) →
  config.ReplicationFactor (config c) <= len activeNodes →
  ∀ (peer : nat → option Cluster) (now : nat → Z) (pord : nat → list string)
    (m : server.Method) (body : nat → server.RequestBody),
    let served_by k path :=
      server.serve (now k) (pord k) (server.mkRequest m path (body k)) (peer k) in
    (∀ k path, path = ["cluster"; "join"] ∨ path = ["data"; "replicate"] →
       served_by k path = Returns (peer k, Some server.StatusNotFound))
    ∧ (∀ seedAddress, ∃ url self,
         Join seedAddress (answerOf (served_by 0%nat ["cluster"; "join"])) c
         = Returns (url, self, Some (ErrJoinStatus server.StatusNotFound)))
    ∧ ∃ evs,
        ReplicateData ord ord'
          (fun k => answerOf (served_by k ["data"; "replicate"])) key value c
        = Returns (None, evs)
        ∧ length (logged evs) = length (posts evs).
Proof.
  intros Hok Haddr Ho Ho' Hsnap HR HN peer now pord m body served_by.
  assert (∀ k path, path = ["cluster"; "join"] ∨ path = ["data"; "replicate"] →
            served_by k path = Returns (peer k, Some server.StatusNotFound))
    as Hserved.
  { intros k path Hpath. unfold served_by, server.serve.
    cbn [server.method server.path].
    replace (server.route m path) with server.notFoundHandler; [done|].
    symmetry. destruct Hpath as [-> | ->];
      apply route_not_registered; try done; intros [=]. }
  split; [exact Hserved|]. split.
  - intros seedAddress. destruct (proj2 Hok) as [self Hself].
    exists ("http://" +:+ seedAddress +:+ "/cluster/join"), self.
    rewrite Hserved by auto. unfold Join. rewrite Hself. done.
  - rewrite GetActiveNodes_spec in Hsnap by done. injection Hsnap as <-.
    destruct (ReplicateData_selected (Value:=Value) ord ord' key c
                Hok Haddr Ho Ho' HR HN)
      as (primary & j & reps & _ & _ & _ & _ & Hsel & Hrun).
    destruct (Hrun value (fun k => answerOf (served_by k ["data"; "replicate"])))
      as (evs & Hret & Hposts & Hlogs).
    exists evs. split; [done|]. rewrite Hlogs, Hposts.
    rewrite omap_pushTo_length; last first.
    { apply Forall_forall. intros q [_ Hq]%list_elem_of_filter.
      rewrite Forall_forall in Hsel.
      destruct (activeSnapshot_elem ord c q Hok (Hsel q Hq)) as (n & Hn & _).
      eauto. }
    rewrite filter_all; [by rewrite length_seq|].
    apply Forall_forall. intros k _. rewrite Hserved by auto. simpl.
    unfold server.StatusNotFound, StatusOK. lia.
Qed.

Lemma cluster_calls_not_served_witness :
  registry_ok (sample.c3 2) ∧ addressable (sample.c3 2)
  ∧ iteration_order (nodes (sample.c3 2)) sample.ord3
  ∧ iteration_order (nodes (sample.c3 2)) sample.ord3'
  ∧ GetActiveNodes sample.ord3 (sample.c3 2) = Returns [0; 1; 2]%nat
  ∧ ∃ url self,
      Join "10.0.0.2:8080"
        (answerOf (server.serve 0 sample.ord2
                     (server.mkRequest server.POST ["cluster"; "join"]
                                       server.BodyInvalid)
                     (Some (sample.c2 1)))) (sample.c3 2)
      = Returns (url, self, Some (ErrJoinStatus 404)).
Proof.
  assert (registry_ok (sample.c3 2)) as H1 by by_evaluation.
  assert (addressable (sample.c3 2)) as H2 by by_evaluation.
  assert (iteration_order (nodes (sample.c3 2)) sample.ord3) as H3
    by by_evaluation.
  assert (iteration_order (nodes (sample.c3 2)) sample.ord3') as H4
    by by_evaluation.
  assert (GetActiveNodes sample.ord3 (sample.c3 2) = Returns [0; 1; 2]%nat)
    as H5 by (vm_compute; reflexivity).
  split; [exact H1|]. split; [exact H2|]. split; [exact H3|].
  split; [exact H4|]. split; [exact H5|].
  destruct (cluster_calls_not_served sample.ord3 sample.ord3' "user:42" "v"
              (sample.c3 2) [0; 1; 2]%nat H1 H2 H3 H4 H5 eq_refl
              ltac:(vm_compute; discriminate)
              (fun _ => Some (sample.c2 1)) (fun _ => 0) (fun _ => sample.ord2)
              server.POST (fun _ => server.BodyInvalid))
    as (_ & Hjoin & _).
  exact (Hjoin "10.0.0.2:8080").
Defined.

(** ** The self node under the program's own callers *)

Lemma has_dash_app a b : has_dash (a +:+ b) = has_dash a || has_dash b.
Proof.
  induction a as [|x a IH]; [done|]. simpl. rewrite IH. by rewrite orb_assoc.
Qed.

Lemma pretty_N_go_no_dash x s :
  has_dash s = false → has_dash (pretty_N_go x s) = false.
Proof.
  revert s. induction (N.lt_wf_0 x) as [x _ IH]; intros s Hs.
  assert (x = 0 ∨ 0 < x)%N as [->|Hx] by lia.
  - by rewrite pretty_N_go_0.
  - rewrite pretty_N_go_step by done. apply IH.
    { by apply N.div_lt. }
    cbn [has_dash]. rewrite Hs. unfold pretty_N_char.
    by repeat case_match.
Qed.

Lemma pretty_nonneg_no_dash (z : Z) : 0 <= z → has_dash (pretty z) = false.
Proof.
  intros Hz. destruct z as [|x|x]; [done| |lia].
  unfold pretty, pretty_Z, pretty, pretty_positive, pretty, pretty_N.
  rewrite decide_False by done. by apply pretty_N_go_no_dash.
Qed.

(** The ids [addNodeHandler] makes up are never the id of a self node. *)
Lemma handler_id_not_self_id unix rnd (n : Z) :
  0 <= n → "node-" +:+ pretty n ≠ generateNodeID unix rnd.
Proof.
  intros Hn Heq. unfold generateNodeID in Heq. simpl in Heq.
  injection Heq as Heq. apply (f_equal has_dash) in Heq.
  rewrite !has_dash_app, (pretty_nonneg_no_dash n) in Heq by done.
  cbn [has_dash] in Heq. rewrite bool_decide_eq_true_2 in Heq by done.
  cbn [orb] in Heq. by rewrite orb_true_r in Heq.
Qed.

Lemma served_invariant c :
  served c →
  registry_ok c ∧ self_active c
  ∧ ∃ unix rnd, selfID c = Some (generateNodeID unix rnd).
Proof.
  induction 1 as [unix rnd cfg
                 |c now ord body c' code _ (Hok & Hact & unix & rnd & Hid) Ho Hadd
                 |c ord http clock c' probed _ (Hok & Hact & unix & rnd & Hid) Ho Hhb].
  - destruct (NewCluster_ok unix rnd cfg) as [Hok Hact].
    split; [done|]. split; [done|]. exists unix, rnd.
    unfold selfID, NewCluster. cbn [heap selfNode]. by rewrite lookup_singleton_eq.
  - unfold server.addNode in Hadd.
    destruct (server.readNodeData body) as [[address port]|];
      [|injection Hadd as <- _; eauto 10].
    rewrite GetActiveNodes_spec in Hadd by done. cbn [mbind option_bind] in Hadd.
    set (node := mkNode _ address port "active" 0) in Hadd.
    set (p := alloc (heap c)) in Hadd.
    set (c0 := with_heap (<[p := node]> (heap c)) c) in Hadd.
    assert (run (OpNew node) c = Returns c0) as Hrun0 by done.
    assert (selfID c0 = selfID c) as Hid0.
    { unfold selfID, c0. cbn [heap selfNode with_heap].
      rewrite lookup_insert_ne; [done|]. intros Heq.
      destruct (proj2 Hok) as [self Hself].
      pose proof (alloc_fresh (heap c)) as Hf. fold p in Hf.
      rewrite Heq, Hself in Hf. done. }
    assert (registry_ok c0) as Hok0 by by eapply run_preserves_registry_ok.
    assert (self_active c0) as Hact0.
    { eapply run_preserves_self_active; [exact Hok|exact Hact| |exact Hrun0].
      intros []. }
    destruct (AddNode now p c0) as [[c1 log]|] eqn:HA; [|done].
    cbn [mbind option_bind] in Hadd. injection Hadd as <- _.
    assert (run (OpAddNode now p) c0 = Returns c1) as Hrun1.
    { simpl. by rewrite HA. }
    assert (¬ names_self c0 (OpAddNode now p)) as Hns.
    { unfold names_self. rewrite Hid0, Hid. unfold c0.
      cbn [heap with_heap]. rewrite lookup_insert_eq. intros Heq.
      apply (inj Some) in Heq.
      eapply handler_id_not_self_id; [|exact Heq]. unfold len. lia. }
    split; [by eapply run_preserves_registry_ok|].
    split; [by eapply run_preserves_self_active|].
    exists unix, rnd. rewrite <- Hid, <- Hid0.
    destruct (AddNode_spec now p node c0 Hok0) as (c1' & log' & HA' & _ & Hs & _ & Hh).
    { unfold c0. cbn [heap with_heap]. apply lookup_insert_eq. }
    rewrite HA in HA'. injection HA' as <- <-.
    unfold selfID. rewrite Hs, Hh.
    rewrite lookup_insert_ne; [done|]. intros Heq.
    destruct (proj2 Hok) as [self Hself].
    pose proof (alloc_fresh (heap c)) as Hf. fold p in Hf.
    unfold c0 in Heq. cbn [selfNode with_heap] in Heq.
    rewrite Heq, Hself in Hf. done.
  - destruct (performHeartbeat_spec ord http clock c Hok)
      as (c1 & probed1 & Hret & Hok1 & Hnodes & Hs & Hh & _).
    rewrite Hret in Hhb. injection Hhb as <- <-.
    split; [done|]. split.
    + apply (self_active_frame c); [done|by rewrite Hnodes|done|done].
    + exists unix, rnd. unfold selfID in *. by rewrite Hs, Hh.
Qed.

(** In every state the program can bring the registry to — through
    [addNodeHandler] requests and heartbeat rounds, the only callers of the
    registry's writers — the self node is registered under its id with
    status active, every entry is filed under the id of its node, and the
    self node is in every snapshot of the active nodes. *)
Theorem served_self_active (c : Cluster) (ord : list string) :
  served c → iteration_order (nodes c) ord →
  registry_ok c ∧ self_active c
  ∧ ∃ s, GetActiveNodes ord c = Returns s ∧ selfNode c ∈ s.
Proof.
  intros Hs Ho. destruct (served_invariant c Hs) as (Hok & Hact & _).
  split; [done|]. split; [done|]. exists (activeSnapshot ord c).
  split; [by apply GetActiveNodes_spec|].
  apply activeSnapshot_elem_iff; [done..|].
  unfold self_active in Hact.
  destruct (heap c !! selfNode c) as [n|] eqn:Hn; [|done].
  exists n. by destruct Hact.
Qed.

Lemma served_self_active_witness :
  served (sample.c2 1) ∧ iteration_order (nodes (sample.c2 1)) sample.ord2'
  ∧ ∃ s, GetActiveNodes sample.ord2' (sample.c2 1) = Returns s
         ∧ selfNode (sample.c2 1) ∈ s.
Proof.
  assert (served (sample.c2 1)) as H1.
  { apply (served_addNode (sample.c1 1) 50 [sample.selfId]
             (server.BodyObject "10.0.0.2" "9090") _ StatusOK).
    - apply served_new.
    - by_evaluation.
    - vm_compute. reflexivity. }
  assert (iteration_order (nodes (sample.c2 1)) sample.ord2') as H2
    by by_evaluation.
  split; [exact H1|]. split; [exact H2|].
  exact (proj2 (proj2 (served_self_active _ _ H1 H2))).
Defined.


(** * Properties of the stores *)

(** ** Document store *)

(** [InsertDocument] stores the document under a free key, where
    [GetDocument] then finds it and a second insert is refused; on a taken
    key it returns the "already exists" error and changes nothing; no other
    key is affected. *)
Theorem InsertDocument_then_GetDocument (collection id : string)
    (doc doc2 : db.Document) (d : db.MultiModelDatabase) :
  (db.documents d !! db.docKey collection id = None →
   ∃ d', db.InsertDocument collection id doc d = (d', None)
     ∧ db.GetDocument collection id d' = (doc, None)
     ∧ db.InsertDocument collection id doc2 d'
       = (d', Some (db.ErrDocExists id collection))
     ∧ ∀ c2 id2, db.docKey c2 id2 ≠ db.docKey collection id →
         db.GetDocument c2 id2 d' = db.GetDocument c2 id2 d)
  ∧ (is_Some (db.documents d !! db.docKey collection id) →
     db.InsertDocument collection id doc d
     = (d, Some (db.ErrDocExists id collection))).
Proof.
  split.
  - intros Hfree. eexists. unfold db.InsertDocument at 1. rewrite Hfree.
    split; [reflexivity|].
    unfold db.GetDocument, db.InsertDocument. cbn [db.documents db.with_documents].
    rewrite lookup_insert_eq. split; [done|]. split; [done|].
    intros c2 id2 Hne. by rewrite lookup_insert_ne.
  - intros [old Hold]. unfold db.InsertDocument. by rewrite Hold.
Qed.

Lemma InsertDocument_then_GetDocument_witness :
  ∃ d', db.InsertDocument "users" "1" None
          (db.NewMultiModelDatabase 0 0 (sample.cfg 1)) = (d', None)
        ∧ db.GetDocument "users" "1" d' = (None, None).
Proof.
  destruct (proj1 (InsertDocument_then_GetDocument "users" "1" None None
                     (db.NewMultiModelDatabase 0 0 (sample.cfg 1))))
    as (d' & H1 & H2 & _); [vm_compute; reflexivity|].
  exists d'. split; [exact H1|exact H2].
Defined.

(** Collection and id are joined by a '.' without escaping: two different
    (collection, id) pairs with the same joined key are one document — what
    is inserted under one is found, refused and deleted under the other. *)
Theorem document_keys_collide (c1 id1 c2 id2 : string) (doc doc' : db.Document)
    (d : db.MultiModelDatabase) :
  db.docKey c1 id1 = db.docKey c2 id2 →
  db.documents d !! db.docKey c1 id1 = None →
  ∃ d' d'',
    db.InsertDocument c1 id1 doc d = (d', None)
    ∧ db.GetDocument c2 id2 d' = (doc, None)
    ∧ db.InsertDocument c2 id2 doc' d' = (d', Some (db.ErrDocExists id2 c2))
    ∧ db.DeleteDocument c2 id2 d' = (d'', None)
    ∧ db.GetDocument c1 id1 d'' = (None, Some (db.ErrDocNotFound id1 c1)).
Proof.
  intros Hkey Hfree. do 2 eexists.
  unfold db.InsertDocument at 1. rewrite Hfree. split; [reflexivity|].
  unfold db.GetDocument, db.InsertDocument, db.DeleteDocument.
  cbn [db.documents db.with_documents]. rewrite <- Hkey, !lookup_insert_eq.
  split; [done|]. split; [done|]. split; [reflexivity|].
  cbn [db.documents db.with_documents]. by rewrite lookup_delete_eq.
Qed.

Lemma document_keys_collide_witness :
  db.docKey "a.b" "c" = db.docKey "a" "b.c"
  ∧ ∃ d', db.InsertDocument "a.b" "c" None
            (db.NewMultiModelDatabase 0 0 (sample.cfg 1)) = (d', None)
          ∧ db.GetDocument "a" "b.c" d' = (None, None).
Proof.
  assert (db.docKey "a.b" "c" = db.docKey "a" "b.c") as Hk by reflexivity.
  split; [exact Hk|].
  destruct (document_keys_collide "a.b" "c" "a" "b.c" None None
              (db.NewMultiModelDatabase 0 0 (sample.cfg 1)) Hk)
    as (d' & d'' & H1 & H2 & _); [vm_compute; reflexivity|].
  exists d'. split; [exact H1|exact H2].
Defined.

Lemma append_nil_l (s : string) : "" +:+ s = s.
Proof. reflexivity. Qed.

Lemma append_cons (x : Ascii.ascii) (a b : string) :
  String x a +:+ b = String x (a +:+ b).
Proof. reflexivity. Qed.

(** When no collection name has a '.' in it, the joined key determines the
    collection and the id. *)
Theorem docKey_unambiguous_without_dot (c1 id1 c2 id2 : string) :
  has_dot c1 = false → has_dot c2 = false →
  db.docKey c1 id1 = db.docKey c2 id2 → c1 = c2 ∧ id1 = id2.
Proof.
  unfold db.docKey. revert c2.
  induction c1 as [|x c1 IH]; intros [|y c2] H1 H2 Hkey;
    rewrite ?append_cons, ?append_nil_l in Hkey; cbn [has_dot] in H1, H2.
  - by injection Hkey as ->.
  - injection Hkey as <- _. by rewrite bool_decide_eq_true_2 in H2.
  - injection Hkey as -> _. by rewrite bool_decide_eq_true_2 in H1.
  - injection Hkey as -> Hkey.
    apply orb_false_iff in H1 as [_ H1]. apply orb_false_iff in H2 as [_ H2].
    destruct (IH c2 H1 H2 Hkey) as [-> ->]. done.
Qed.

Lemma docKey_unambiguous_without_dot_witness :
  "users" = "users" ∧ "a.b" = "a.b".
Proof.
  apply (docKey_unambiguous_without_dot "users" "a.b" "users" "a.b");
    reflexivity.
Defined.

(** [UpdateDocument] on a stored document writes the entries of [updates]
    over the map the document refers to: afterwards that map has every field
    of [updates] with the value given there and every other field as before.
    The table of documents, every other map and the other stores are as they
    were, so every holder of the same map sees the update. *)
Theorem UpdateDocument_merges (collection id : string) (updates : db.Document)
    (d : db.MultiModelDatabase) (a : addr) (m upd : gmap string db.Value) :
  db.documents d !! db.docKey collection id = Some (Some a) →
  db.docHeap d !! a = Some m →
  db.fieldsOf (db.docHeap d) updates = Returns upd →
  ∃ d', db.UpdateDocument collection id updates d = Returns (d', None)
    ∧ db.documents d' = db.documents d
    ∧ (∃ m', db.docHeap d' !! a = Some m'
        ∧ (∀ f v, upd !! f = Some v → m' !! f = Some v)
        ∧ (∀ f, upd !! f = None → m' !! f = m !! f))
    ∧ (∀ b, b ≠ a → db.docHeap d' !! b = db.docHeap d !! b)
    ∧ db.keyValues d' = db.keyValues d
    ∧ db.columnFamilies d' = db.columnFamilies d
    ∧ db.graphNodes d' = db.graphNodes d
    ∧ db.graphEdges d' = db.graphEdges d.
Proof.
  intros Hdoc Hm Hupd. unfold db.UpdateDocument. rewrite Hdoc, Hupd.
  cbn [mbind option_bind]. destruct (decide (upd = ∅)) as [->|Hne].
  - eexists. split; [reflexivity|].
    cbn [db.documents db.with_documents db.docHeap db.keyValues
         db.columnFamilies db.graphNodes db.graphEdges].
    split; [by apply insert_id|]. split; [|done].
    exists m. split; [done|]. split; [|done]. intros f v Hf.
    by rewrite lookup_empty in Hf.
  - rewrite Hm. cbn [mbind option_bind]. eexists. split; [reflexivity|].
    cbn [db.documents db.with_documents db.docHeap db.with_docHeap db.keyValues
         db.columnFamilies db.graphNodes db.graphEdges].
    split; [by apply insert_id|]. split.
    { exists (upd ∪ m). rewrite lookup_insert_eq. split; [done|]. split.
      - intros f v Hf. by apply lookup_union_Some_l.
      - intros f Hf. by apply lookup_union_r. }
    split; [|done]. intros b Hb. by rewrite lookup_insert_ne.
Qed.

Lemma UpdateDocument_merges_witness :
  ∃ d', db.UpdateDocument "users" "1" (Some 1%nat) store_sample.d2
        = Returns (d', None)
        ∧ db.docHeap d' !! 0%nat
          = Some ({[ "name" := db.VString "Ann"; "city" := db.VString "Rome";
                     "zip" := db.VString "00100" ]} : gmap string db.Value).
Proof.
  destruct (UpdateDocument_merges "users" "1" (Some 1%nat) store_sample.d2
              0%nat store_sample.ann store_sample.move)
    as (d' & Hrun & _); [vm_compute; reflexivity..|].
  exists d'. split; [exact Hrun|].
  assert (Some (d', @None db.error)
          = db.UpdateDocument "users" "1" (Some 1%nat) store_sample.d2) as Heq
    by (symmetry; exact Hrun).
  vm_compute in Heq. injection Heq as ->. vm_compute. reflexivity.
Defined.

(** A stored nil document can never be updated with a non-empty [updates]:
    [InsertDocument] accepts the nil map, and [UpdateDocument] then panics
    on its first write; with nothing to write it succeeds. *)
Theorem UpdateDocument_nil_document_panics (collection id : string)
    (updates : db.Document) (d : db.MultiModelDatabase)
    (upd : gmap string db.Value) :
  db.documents d !! db.docKey collection id = None →
  db.fieldsOf (db.docHeap d) updates = Returns upd →
  ∃ d', db.InsertDocument collection id None d = (d', None)
    ∧ (upd ≠ ∅ → db.UpdateDocument collection id updates d' = Panics)
    ∧ (upd = ∅ → ∃ d'', db.UpdateDocument collection id updates d'
                         = Returns (d'', None)).
Proof.
  intros Hfree Hupd. eexists. unfold db.InsertDocument. rewrite Hfree.
  split; [reflexivity|]. unfold db.UpdateDocument.
  cbn [db.documents db.with_documents db.docHeap]. rewrite lookup_insert_eq, Hupd.
  cbn [mbind option_bind]. split; intros H; destruct (decide (upd = ∅)); try done.
  eauto.
Qed.

Lemma UpdateDocument_nil_document_panics_witness :
  ∃ d', db.InsertDocument "users" "2" None store_sample.d2 = (d', None)
        ∧ db.UpdateDocument "users" "2" (Some 1%nat) d' = Panics.
Proof.
  destruct (UpdateDocument_nil_document_panics "users" "2" (Some 1%nat)
              store_sample.d2 store_sample.move)
    as (d' & Hins & Hpanics & _); [vm_compute; reflexivity..|].
  exists d'. split; [exact Hins|]. apply Hpanics.
  intros Hempty. apply (f_equal (fun m => m !! "zip")) in Hempty.
  vm_compute in Hempty. discriminate Hempty.
Defined.

(** [UpdateDocument] of a key that is not stored returns the "not found"
    error and changes nothing, whatever [updates] is. *)
Theorem UpdateDocument_missing (collection id : string) (updates : db.Document)
    (d : db.MultiModelDatabase) :
  db.documents d !! db.docKey collection id = None →
  db.UpdateDocument collection id updates d
  = Returns (d, Some (db.ErrDocNotFound id collection)).
Proof. intros Hfree. unfold db.UpdateDocument. by rewrite Hfree. Qed.

Lemma UpdateDocument_missing_witness :
  db.UpdateDocument "users" "2" (Some 1%nat) store_sample.d2
  = Returns (store_sample.d2, Some (db.ErrDocNotFound "2" "users")).
Proof.
  apply (UpdateDocument_missing "users" "2" (Some 1%nat) store_sample.d2).
  vm_compute. reflexivity.
Defined.

(** [DeleteDocument] removes a stored document: [GetDocument] then reports
    it missing and the key can be inserted again; a key that is not stored
    gives the "not found" error and no change; other keys are unaffected. *)
Theorem DeleteDocument_then_GetDocument (collection id : string)
    (doc : db.Document) (d : db.MultiModelDatabase) :
  (is_Some (db.documents d !! db.docKey collection id) →
   ∃ d' d'', db.DeleteDocument collection id d = (d', None)
     ∧ db.GetDocument collection id d'
       = (None, Some (db.ErrDocNotFound id collection))
     ∧ db.InsertDocument collection id doc d' = (d'', None)
     ∧ ∀ c2 id2, db.docKey c2 id2 ≠ db.docKey collection id →
         db.GetDocument c2 id2 d' = db.GetDocument c2 id2 d)
  ∧ (db.documents d !! db.docKey collection id = None →
     db.DeleteDocument collection id d
     = (d, Some (db.ErrDocNotFound id collection))).
Proof.
  split.
  - intros [old Hold]. do 2 eexists. unfold db.DeleteDocument at 1.
    rewrite Hold. split; [reflexivity|].
    unfold db.GetDocument, db.InsertDocument.
    cbn [db.documents db.with_documents]. rewrite lookup_delete_eq.
    split; [done|]. split; [reflexivity|].
    intros c2 id2 Hne. by rewrite lookup_delete_ne.
  - intros Hfree. unfold db.DeleteDocument. by rewrite Hfree.
Qed.

Lemma DeleteDocument_then_GetDocument_witness :
  ∃ d', db.DeleteDocument "users" "1" store_sample.d2 = (d', None)
        ∧ db.GetDocument "users" "1" d'
          = (None, Some (db.ErrDocNotFound "1" "users")).
Proof.
  destruct (proj1 (DeleteDocument_then_GetDocument "users" "1" None
                     store_sample.d2))
    as (d' & d'' & Hdel & Hget & _).
  { exists (Some 0%nat). vm_compute. reflexivity. }
  exists d'. split; [exact Hdel|exact Hget].
Defined.


(** ** Queries over the document store *)

Lemma rangeEntries_elem {A} (m : gmap string A) ord k v :
  keys_order m ord → (k, v) ∈ db.rangeEntries ord m ↔ m !! k = Some v.
Proof.
  intros [_ Hdom]. unfold db.rangeEntries. rewrite list_elem_of_omap. split.
  - intros (k' & _ & Hk'). apply fmap_Some in Hk' as (v' & Hv' & [= -> ->]). done.
  - intros Hk. exists k. split; [|by rewrite Hk].
    assert (k ∈ dom m) as Hin by (apply elem_of_dom; eauto).
    rewrite <- Hdom in Hin. by apply elem_of_list_to_set in Hin.
Qed.

Lemma iface_eq_comparable actual v :
  comparable v = true → ∃ same, db.iface_eq actual v = Returns same.
Proof. destruct actual, v; cbn; intros; try done; eauto. Qed.

Lemma iface_eq_string actual s :
  db.iface_eq actual (db.VString s) = Returns true → actual = db.VString s.
Proof.
  destruct actual; cbn; intros [= H]. apply bool_decide_eq_true in H. by subst.
Qed.

Lemma matchesFilter_spec fields entries :
  Forall (fun e => comparable e.2 = true) entries →
  ∃ b, db.matchesFilter fields entries = Returns b
    ∧ (b = true ↔
       Forall (fun e => ∃ actual, fields !! e.1 = Some actual
                          ∧ db.iface_eq actual e.2 = Returns true) entries).
Proof.
  induction 1 as [|[f v] entries Hv _ IH]; cbn [db.matchesFilter].
  - exists true. split; [done|]. split; [by constructor|done].
  - destruct (fields !! f) as [actual|] eqn:Hf.
    + destruct (iface_eq_comparable actual v Hv) as [same Hsame].
      rewrite Hsame. cbn [mbind option_bind]. destruct same.
      * destruct IH as (b & -> & Hb). exists b. split; [done|].
        rewrite Hb. split.
        -- intros Hall. constructor; [|done]. exists actual. cbn. by rewrite Hf.
        -- by inversion 1.
      * exists false. split; [done|]. split; [done|].
        inversion 1 as [|? ? (actual' & Ha & Heq) _]; subst. cbn in Ha, Heq.
        rewrite Hf in Ha. injection Ha as <-. rewrite Hsame in Heq. done.
    + exists false. split; [done|]. split; [done|].
      inversion 1 as [|? ? (actual' & Ha & _) _]; subst. cbn in Ha.
      by rewrite Hf in Ha.
Qed.

Lemma matchesFilter_satisfies h filter ford doc fields :
  keys_order filter ford →
  map_Forall (fun _ v => comparable v = true) filter →
  db.fieldsOf h doc = Returns fields →
  ∃ b, db.matchesFilter fields (db.rangeEntries ford filter) = Returns b
    ∧ (b = true ↔ satisfies h filter doc).
Proof.
  intros Hford Hcmp Hfields.
  destruct (matchesFilter_spec fields (db.rangeEntries ford filter))
    as (b & Hrun & Hb).
  { apply Forall_forall. intros [f v] Hin.
    apply rangeEntries_elem in Hin; [|done]. by apply (Hcmp f v). }
  exists b. split; [done|]. rewrite Hb, Forall_forall. unfold satisfies. split.
  - intros Hall. exists fields. split; [done|]. intros f v Hfv.
    apply (Hall (f, v)). by apply rangeEntries_elem.
  - intros (fields' & Hfields' & Hall) [f v] Hin.
    rewrite Hfields in Hfields'. injection Hfields' as <-.
    apply Hall. by apply (rangeEntries_elem filter ford).
Qed.

Lemma queryLoop_spec h collection filter fords entries :
  (∀ i, keys_order filter (fords i)) →
  map_Forall (fun _ v => comparable v = true) filter →
  (∀ key doc, (key, doc) ∈ entries → is_Some (db.fieldsOf h doc)) →
  ∀ i results,
  ∃ out, db.queryLoop h collection filter fords i entries results = Returns out
    ∧ ∀ doc, doc ∈ out ↔
        doc ∈ results
        ∨ ∃ key, (key, doc) ∈ entries ∧ selected collection key
                 ∧ satisfies h filter doc.
Proof.
  intros Hfords Hcmp.
  induction entries as [|[key doc] rest IH]; intros Halloc i results;
    cbn [db.queryLoop].
  - exists results. split; [done|]. intros doc. split; [by left|].
    intros [?|(key & Hin & _)]; [done|]. by apply elem_of_nil in Hin.
  - assert (∀ key doc, (key, doc) ∈ rest → is_Some (db.fieldsOf h doc))
      as Hrest by (intros k' d' Hin; apply (Halloc k'); by right).
    destruct (bool_decide (collection = "") || String.prefix collection key)
      eqn:Hsel.
    + destruct (Halloc key doc) as [fields Hfields]; [by left|].
      rewrite Hfields. cbn [mbind option_bind].
      destruct (matchesFilter_satisfies h filter (fords i) doc fields)
        as (b & -> & Hb); [done..|]. cbn [mbind option_bind].
      destruct (IH Hrest (S i) (if b then results ++ [doc] else results))
        as (out & -> & Hout).
      exists out. split; [done|]. intros doc'. rewrite Hout. split.
      * intros [Hin|(key' & Hin & Hs & Hm)].
        -- destruct b; [|by left]. apply elem_of_app in Hin as [Hin|Hin];
             [by left|]. apply list_elem_of_singleton in Hin as ->.
           right. exists key. split; [by left|]. split; [|by apply Hb].
           apply orb_true_iff in Hsel as [Hc|Hp]; [left|by right].
           by apply bool_decide_eq_true in Hc.
        -- right. exists key'. split; [by right|done].
      * intros [Hin|(key' & Hin & Hs & Hm)].
        -- left. destruct b; [|done]. apply elem_of_app. by left.
        -- apply elem_of_cons in Hin as [[= -> ->]|Hin].
           ++ left. apply Hb in Hm as ->. apply elem_of_app. right.
              by apply list_elem_of_singleton.
           ++ right. exists key'. done.
    + destruct (IH Hrest (S i) results) as (out & -> & Hout).
      exists out. split; [done|]. intros doc'. rewrite Hout. split.
      * intros [Hin|(key' & Hin & Hs & Hm)]; [by left|].
        right. exists key'. split; [by right|done].
      * intros [Hin|(key' & Hin & Hs & Hm)]; [by left|].
        apply elem_of_cons in Hin as [[= -> ->]|Hin].
        -- apply orb_false_iff in Hsel as [Hc Hp].
           destruct Hs as [->|Hs]; [done|]. by rewrite Hs in Hp.
        -- right. exists key'. done.
Qed.

Lemma QueryDocuments_spec (ord : list string) (fords : nat → list string)
    (collection : string) (filter : gmap string db.Value)
    (d : db.MultiModelDatabase) :
  docs_ok d →
  keys_order (db.documents d) ord →
  (∀ i, keys_order filter (fords i)) →
  map_Forall (fun _ v => comparable v = true) filter →
  ∃ results,
    db.QueryDocuments ord fords collection filter d = Returns (results, None)
    ∧ ∀ doc, doc ∈ results ↔
        ∃ key, db.documents d !! key = Some doc ∧ selected collection key
               ∧ satisfies (db.docHeap d) filter doc.
Proof.
  intros Hok Hord Hfords Hcmp. unfold db.QueryDocuments.
  destruct (queryLoop_spec (db.docHeap d) collection filter fords
              (db.rangeEntries ord (db.documents d)) Hfords Hcmp) with
    (i := 0%nat) (results := @nil db.Document) as (out & -> & Hout).
  { intros key doc Hin. apply rangeEntries_elem in Hin; [|done].
    specialize (Hok key doc Hin). destruct doc as [a|]; cbn in *; eauto. }
  exists out. split; [done|]. intros doc. rewrite Hout. split.
  - intros [Hin|(key & Hin & Hrest)]; [by apply elem_of_nil in Hin|].
    exists key. split; [|done]. by apply (rangeEntries_elem _ ord).
  - intros (key & Hin & Hrest). right. exists key. split; [|done].
    by apply rangeEntries_elem.
Qed.

Lemma prefix_append (a b c : string) :
  String.prefix a b = true → String.prefix a (b +:+ c) = true.
Proof.
  revert b. induction a as [|x a IH]; intros [|y b];
    rewrite ?append_cons, ?append_nil_l; cbn [String.prefix]; try done.
  - by destruct c.
  - destruct (Ascii.ascii_dec x y); [apply IH|done].
Qed.

(** [QueryDocuments] with a filter of comparable values (as the HTTP handler
    builds it: strings only) never panics and never fails, in whatever order
    the maps are visited, and returns exactly the stored documents whose key
    starts with [collection] (every document when [collection] is empty) and
    that have every filter field with an equal value; for a string in the
    filter that is the same string. *)
Theorem QueryDocuments_result (ord : list string) (fords : nat → list string)
    (collection : string) (filter : gmap string db.Value)
    (d : db.MultiModelDatabase) :
  docs_ok d →
  keys_order (db.documents d) ord →
  (∀ i, keys_order filter (fords i)) →
  map_Forall (fun _ v => comparable v = true) filter →
  ∃ results,
    db.QueryDocuments ord fords collection filter d = Returns (results, None)
    ∧ (∀ doc, doc ∈ results ↔
         ∃ key, db.documents d !! key = Some doc ∧ selected collection key
                ∧ satisfies (db.docHeap d) filter doc)
    ∧ (∀ doc f s, doc ∈ results → filter !! f = Some (db.VString s) →
         ∃ fields, db.fieldsOf (db.docHeap d) doc = Returns fields
                   ∧ fields !! f = Some (db.VString s)).
Proof.
  intros Hok Hord Hfords Hcmp.
  destruct (QueryDocuments_spec ord fords collection filter d Hok Hord Hfords
              Hcmp) as (results & Hrun & Hres).
  exists results. split; [done|]. split; [done|].
  intros doc f s Hin Hf. apply Hres in Hin as (_ & _ & _ & fields & Hfields & Hall).
  destruct (Hall f _ Hf) as (actual & Hactual & Heq).
  apply iface_eq_string in Heq as ->. eauto.
Qed.

Lemma QueryDocuments_result_witness :
  db.QueryDocuments ["users.1"; "users_archive.7"] (fun _ => ["city"]) "users."
    {[ "city" := db.VString "Oslo" ]} store_sample.d2
  = Returns ([Some 0%nat], None).
Proof.
  destruct (QueryDocuments_result ["users.1"; "users_archive.7"]
              (fun _ => ["city"]) "users."
              {[ "city" := db.VString "Oslo" ]} store_sample.d2)
    as (results & Hrun & _).
  - by_evaluation.
  - by_evaluation.
  - intros _. by_evaluation.
  - intros f v Hf. apply lookup_singleton_Some in Hf as [_ <-]. reflexivity.
  - rewrite Hrun. assert (Some (results, @None db.error)
        = db.QueryDocuments ["users.1"; "users_archive.7"] (fun _ => ["city"])
            "users." {[ "city" := db.VString "Oslo" ]} store_sample.d2) as Heq
      by (symmetry; exact Hrun).
    vm_compute in Heq. injection Heq as ->. reflexivity.
Defined.

(** The collection test of [QueryDocuments] compares the start of the key
    with the bare collection name, so a query for one collection also
    returns the documents of every collection whose name begins with it. *)
Theorem QueryDocuments_includes_longer_collections (ord : list string)
    (collection longer id : string) (doc : db.Document)
    (d : db.MultiModelDatabase) :
  docs_ok d →
  keys_order (db.documents d) ord →
  String.prefix collection longer = true →
  db.documents d !! db.docKey longer id = Some doc →
  ∃ results,
    db.QueryDocuments ord (fun _ => []) collection ∅ d
    = Returns (results, None)
    ∧ doc ∈ results.
Proof.
  intros Hok Hord Hpre Hdoc.
  destruct (QueryDocuments_spec ord (fun _ => []) collection ∅ d Hok Hord)
    as (results & Hrun & Hres).
  { intros i. split; [apply NoDup_nil_2|]. by rewrite dom_empty_L. }
  { apply map_Forall_empty. }
  exists results. split; [done|]. apply Hres. exists (db.docKey longer id).
  split; [done|]. split.
  - right. by apply prefix_append.
  - specialize (Hok _ _ Hdoc). destruct doc as [a|]; cbn in Hok.
    + destruct Hok as [fields Hfields]. exists fields. split; [done|].
      intros f v Hf. by rewrite lookup_empty in Hf.
    + exists ∅. split; [done|]. intros f v Hf. by rewrite lookup_empty in Hf.
Qed.

Lemma QueryDocuments_includes_longer_collections_witness :
  ∃ results,
    db.QueryDocuments ["users.1"; "users_archive.7"] (fun _ => []) "users" ∅
      store_sample.d2 = Returns (results, None)
    ∧ Some 2%nat ∈ results.
Proof.
  apply (QueryDocuments_includes_longer_collections
           ["users.1"; "users_archive.7"] "users"
           "users_archive" "7" (Some 2%nat) store_sample.d2).
  - by_evaluation.
  - by_evaluation.
  - reflexivity.
  - vm_compute. reflexivity.
Defined.

(** ** Key-value store *)

(** [SetKeyValue] always succeeds and [GetKeyValue] then returns the value
    set; [DeleteKey] of a stored key makes [GetKeyValue] report it missing,
    and of a key that is not stored returns the "not found" error without a
    change; neither touches another key. *)
Theorem SetKeyValue_then_GetKeyValue (key : string) (value : db.Value)
    (d : db.MultiModelDatabase) :
  (∃ d', db.SetKeyValue key value d = (d', None)
     ∧ db.GetKeyValue key d' = (value, None)
     ∧ (∀ k, k ≠ key → db.GetKeyValue k d' = db.GetKeyValue k d)
     ∧ ∃ d'', db.DeleteKey key d' = (d'', None)
         ∧ db.GetKeyValue key d'' = (db.VNil, Some (db.ErrKeyNotFound key))
         ∧ ∀ k, k ≠ key → db.GetKeyValue k d'' = db.GetKeyValue k d)
  ∧ (db.keyValues d !! key = None →
     db.DeleteKey key d = (d, Some (db.ErrKeyNotFound key))).
Proof.
  split.
  - eexists. split; [reflexivity|]. unfold db.GetKeyValue, db.DeleteKey.
    cbn [db.keyValues db.with_keyValues]. rewrite lookup_insert_eq.
    split; [done|]. split.
    { intros k Hk. by rewrite lookup_insert_ne. }
    eexists. split; [reflexivity|]. cbn [db.keyValues db.with_keyValues].
    rewrite lookup_delete_eq. split; [done|].
    intros k Hk. by rewrite lookup_delete_ne, lookup_insert_ne.
  - intros Hfree. unfold db.DeleteKey. by rewrite Hfree.
Qed.

Lemma SetKeyValue_then_GetKeyValue_witness :
  db.DeleteKey "k" store_sample.d2
  = (store_sample.d2, Some (db.ErrKeyNotFound "k")).
Proof.
  apply (proj2 (SetKeyValue_then_GetKeyValue "k" db.VNil store_sample.d2)).
  vm_compute. reflexivity.
Defined.

(** ** Column store *)

Lemma GetColumn_cell columnFamily rowKey columnName d v :
  db.GetColumn columnFamily rowKey columnName d = (v, None)
  ↔ cell d columnFamily rowKey columnName = Some v.
Proof.
  unfold db.GetColumn, cell. destruct (db.columnFamilies d !! columnFamily) as [cf|];
    cbn; [|naive_solver].
  destruct (cf !! rowKey) as [row|]; cbn; [|naive_solver].
  destruct (row !! columnName); naive_solver.
Qed.

Lemma InsertColumn_cell columnFamily rowKey columnName value d cf' row' col' :
  cell (db.InsertColumn columnFamily rowKey columnName value d).1 cf' row' col'
  = if decide (cf' = columnFamily ∧ row' = rowKey ∧ col' = columnName)
    then Some value
    else cell d cf' row' col'.
Proof.
  unfold db.InsertColumn, cell. cbn [fst db.columnFamilies db.with_columnFamilies].
  destruct (decide (cf' = columnFamily)) as [->|Hcf].
  2:{ rewrite lookup_insert_ne by done.
      rewrite decide_False by (by intros [? _]). done. }
  rewrite lookup_insert_eq. cbn [mbind option_bind].
  destruct (decide (row' = rowKey)) as [->|Hrow].
  2:{ rewrite lookup_insert_ne by done.
      rewrite decide_False by (by intros (_ & ? & _)).
      destruct (db.columnFamilies d !! columnFamily); cbn; [done|].
      by rewrite lookup_empty. }
  rewrite lookup_insert_eq. cbn [mbind option_bind].
  destruct (decide (col' = columnName)) as [->|Hcol].
  - rewrite lookup_insert_eq. by rewrite decide_True.
  - rewrite lookup_insert_ne by done.
    rewrite decide_False by (by intros (_ & _ & ?)).
    destruct (db.columnFamilies d !! columnFamily) as [cf|]; cbn;
      [|by rewrite lookup_empty].
    destruct (cf !! rowKey); cbn; [done|]. by rewrite lookup_empty.
Qed.

(** [InsertColumn] always succeeds, creating the column family and the row
    when they are missing; [GetColumn] then returns the value at that cell,
    and at every other cell finds what it found before: no other cell is
    lost, changed or created. *)
Theorem InsertColumn_then_GetColumn (columnFamily rowKey columnName : string)
    (value : db.Value) (d : db.MultiModelDatabase) :
  ∃ d', db.InsertColumn columnFamily rowKey columnName value d = (d', None)
    ∧ db.GetColumn columnFamily rowKey columnName d' = (value, None)
    ∧ ∀ cf' row' col' v,
        ¬ (cf' = columnFamily ∧ row' = rowKey ∧ col' = columnName) →
        db.GetColumn cf' row' col' d' = (v, None)
        ↔ db.GetColumn cf' row' col' d = (v, None).
Proof.
  eexists. split; [reflexivity|].
  pose proof (InsertColumn_cell columnFamily rowKey columnName value d) as Hcell.
  cbn [fst db.InsertColumn] in Hcell. split.
  - apply GetColumn_cell. rewrite Hcell. by rewrite decide_True.
  - intros cf' row' col' v Hne. rewrite !GetColumn_cell, Hcell.
    by rewrite decide_False.
Qed.

Lemma InsertColumn_then_GetColumn_witness :
  ∃ d', db.InsertColumn "cf" "r" "c" (db.VBool true) store_sample.d0 = (d', None)
        ∧ (db.GetColumn "cf" "r" "other" d' = (db.VBool false, None)
           ↔ db.GetColumn "cf" "r" "other" store_sample.d0
             = (db.VBool false, None)).
Proof.
  destruct (InsertColumn_then_GetColumn "cf" "r" "c" (db.VBool true)
              store_sample.d0) as (d' & Hrun & _ & Hframe).
  exists d'. split; [exact Hrun|]. apply Hframe. intros (_ & _ & Hc).
  discriminate Hc.
Defined.

(** ** Invariants of the stores *)

Lemma allocated_heap_insert d doc a m h :
  allocated d doc → db.docHeap d ⊆ h ∨ h = <[a := m]> (db.docHeap d) →
  allocated (db.with_docHeap h d) doc.
Proof.
  destruct doc as [b|]; [|done]. cbn. intros [m' Hb] [Hsub| ->].
  - exists m'. by eapply lookup_weaken.
  - apply lookup_insert_is_Some'. right. eauto.
Qed.

Lemma store_step_docs_ok d op d' :
  docs_ok d → well_formed_op d op → apply op d = Returns d' → docs_ok d'.
Proof.
  intros Hok Hwf Hrun. destruct op; cbn in Hrun, Hwf.
  - injection Hrun as <-. intros k doc Hk. cbn in Hk.
    apply (allocated_heap_insert d doc (fresh (dom (db.docHeap d))) m);
      [by apply (Hok k)|by right].
  - injection Hrun as <-. unfold db.InsertDocument.
    destruct (db.documents d !! db.docKey collection id); [done|]. cbn.
    apply map_Forall_insert_2; [by destruct doc|].
    intros k doc' Hk. specialize (Hok k doc' Hk). by destruct doc'.
  - apply fmap_Some in Hrun as ([d'' err] & Hrun & ->). cbn.
    unfold db.UpdateDocument in Hrun.
    destruct (db.documents d !! db.docKey collection id) as [doc|] eqn:Hdoc;
      [|by injection Hrun as <- _].
    destruct (db.fieldsOf (db.docHeap d) updates) as [upd|]; [|done].
    cbn [mbind option_bind] in Hrun. destruct (decide (upd = ∅)).
    + injection Hrun as <- _. rewrite insert_id by done.
      intros k doc' Hk. specialize (Hok k doc' Hk). by destruct doc'.
    + destruct doc as [a|]; [|done]. cbn [mbind option_bind] in Hrun.
      destruct (db.docHeap d !! a) as [m|]; [|done]. injection Hrun as <- _.
      rewrite insert_id by done. intros k doc' Hk. cbn in Hk.
      specialize (Hok k doc' Hk). destruct doc' as [b|]; [|done]. cbn in *.
      apply lookup_insert_is_Some'. by right.
  - injection Hrun as <-. unfold db.DeleteDocument.
    destruct (db.documents d !! db.docKey collection id); [|done]. cbn.
    intros k doc' Hk. cbn in Hk. apply lookup_delete_Some in Hk as [_ Hk].
    specialize (Hok k doc' Hk). by destruct doc'.
  - injection Hrun as <-. intros k doc' Hk. specialize (Hok k doc' Hk).
    by destruct doc'.
  - injection Hrun as <-. unfold db.DeleteKey.
    destruct (db.keyValues d !! key); [|done].
    intros k doc' Hk. specialize (Hok k doc' Hk). by destruct doc'.
  - injection Hrun as <-. intros k doc' Hk. specialize (Hok k doc' Hk).
    by destruct doc'.
  - injection Hrun as <-. unfold db.CreateNode.
    destruct (db.graphNodes d !! id); [done|].
    intros k doc' Hk. specialize (Hok k doc' Hk). by destruct doc'.
  - injection Hrun as <-. unfold db.CreateEdge.
    destruct (db.graphEdges d !! id); [done|].
    destruct (db.graphNodes d !! from); [|done].
    destruct (db.graphNodes d !! to); [|done].
    intros k doc' Hk. specialize (Hok k doc' Hk). by destruct doc'.
Qed.

Lemma graph_ok_same d d' :
  db.graphNodes d' = db.graphNodes d → db.graphEdges d' = db.graphEdges d →
  graph_ok d → graph_ok d'.
Proof. unfold graph_ok. by intros -> ->. Qed.

Lemma store_step_graph_ok d op d' :
  graph_ok d → apply op d = Returns d' → graph_ok d'.
Proof.
  intros Hok Hrun. destruct op; cbn in Hrun.
  - injection Hrun as <-. by apply (graph_ok_same d).
  - injection Hrun as <-. unfold db.InsertDocument.
    destruct (db.documents d !! db.docKey collection id); [done|].
    by apply (graph_ok_same d).
  - apply fmap_Some in Hrun as ([d'' err] & Hrun & ->). cbn.
    unfold db.UpdateDocument in Hrun.
    destruct (db.documents d !! db.docKey collection id) as [doc|];
      [|by injection Hrun as <- _].
    destruct (db.fieldsOf (db.docHeap d) updates) as [upd|]; [|done].
    cbn [mbind option_bind] in Hrun. destruct (decide (upd = ∅)).
    + injection Hrun as <- _. by apply (graph_ok_same d).
    + destruct doc as [a|]; [|done]. cbn [mbind option_bind] in Hrun.
      destruct (db.docHeap d !! a) as [m|]; [|done]. injection Hrun as <- _.
      by apply (graph_ok_same d).
  - injection Hrun as <-. unfold db.DeleteDocument.
    destruct (db.documents d !! db.docKey collection id); [|done].
    by apply (graph_ok_same d).
  - injection Hrun as <-. by apply (graph_ok_same d).
  - injection Hrun as <-. unfold db.DeleteKey.
    destruct (db.keyValues d !! key); [|done]. by apply (graph_ok_same d).
  - injection Hrun as <-. by apply (graph_ok_same d).
  - injection Hrun as <-. unfold db.CreateNode.
    destruct (db.graphNodes d !! id) eqn:Hid; [done|].
    destruct Hok as [Hnodes Hedges]. split; cbn.
    + by apply map_Forall_insert_2.
    + intros k e He. destruct (Hedges k e He) as (Hk & Hfrom & Hto).
      split; [done|]. split; apply lookup_insert_is_Some'; by right.
  - injection Hrun as <-. unfold db.CreateEdge.
    destruct (db.graphEdges d !! id) eqn:Hid; [done|].
    destruct (db.graphNodes d !! from) eqn:Hfrom; [|done].
    destruct (db.graphNodes d !! to) eqn:Hto; [|done].
    destruct Hok as [Hnodes Hedges]. split; cbn; [done|].
    apply map_Forall_insert_2; [|done]. cbn. rewrite Hfrom, Hto. eauto.
Qed.

Lemma store_reachable_ok d : store_reachable d → docs_ok d ∧ graph_ok d.
Proof.
  induction 1 as [unix rnd cfg|d op d' _ [Hdocs Hgraph] Hwf Hrun].
  - split; [apply map_Forall_empty|].
    split; apply map_Forall_empty.
  - split; [by apply (store_step_docs_ok d op)|by apply (store_step_graph_ok d op)].
Qed.

(** ** Graph store *)

(** In every state the store operations lead to from a new database, an
    edge that [GetEdge] returns carries the id it was asked for, and
    [GetNode] finds a node at each of its two ends, carrying that end's
    id. *)
Theorem edges_join_stored_nodes (d : db.MultiModelDatabase) (id : string)
    (e : db.GraphEdge.t) :
  store_reachable d →
  db.GetEdge id d = (Some e, None) →
  db.GraphEdge.ID e = id
  ∧ ∃ source target,
      db.GetNode (db.GraphEdge.From e) d = (Some source, None)
      ∧ db.GetNode (db.GraphEdge.To e) d = (Some target, None)
      ∧ db.GraphNode.ID source = db.GraphEdge.From e
      ∧ db.GraphNode.ID target = db.GraphEdge.To e.
Proof.
  intros Hreach Hget. destruct (store_reachable_ok d Hreach) as [_ [Hnodes Hedges]].
  unfold db.GetEdge in Hget.
  destruct (db.graphEdges d !! id) as [e'|] eqn:He; [|done].
  injection Hget as ->. destruct (Hedges id e He) as (Hid & [n1 H1] & [n2 H2]).
  split; [done|]. exists n1, n2. unfold db.GetNode. rewrite H1, H2.
  split; [done|]. split; [done|]. split; [by apply (Hnodes _ _ H1)|].
  by apply (Hnodes _ _ H2).
Qed.

Lemma store_sample_g2_reachable : store_reachable store_sample.g2.
Proof.
  eapply (store_step _ (DoCreateEdge "e1" "n1" "n2" "knows" db.VNil));
    [|exact I|reflexivity].
  eapply (store_step _ (DoCreateNode "n2" None None)); [|exact I|reflexivity].
  eapply (store_step _ (DoCreateNode "n1" None None)); [|exact I|reflexivity].
  apply store_new.
Defined.

Lemma edges_join_stored_nodes_witness :
  db.GetEdge "e1" store_sample.g2
  = (Some (db.GraphEdge.mk "e1" "n1" "n2" "knows" db.VNil), None)
  ∧ ∃ source target,
      db.GetNode "n1" store_sample.g2 = (Some source, None)
      ∧ db.GetNode "n2" store_sample.g2 = (Some target, None).
Proof.
  assert (db.GetEdge "e1" store_sample.g2
          = (Some (db.GraphEdge.mk "e1" "n1" "n2" "knows" db.VNil), None))
    as Hget by (vm_compute; reflexivity).
  split; [exact Hget|].
  destruct (edges_join_stored_nodes store_sample.g2 "e1" _
              store_sample_g2_reachable Hget)
    as (_ & source & target & Hs & Ht & _).
  exists source, target. split; [exact Hs|exact Ht].
Defined.


(** * Properties of the cluster handlers *)

Lemma addNode_spec now ord address port c :
  registry_ok c →
  ∃ c', server.addNode now ord (server.BodyObject address port) (Some c)
        = Returns (Some c', StatusOK)
    ∧ registry_ok c' ∧ selfNode c' = selfNode c
    ∧ nodes c' = <["node-" +:+ pretty (len (activeSnapshot ord c))
                   := alloc (heap c)]> (nodes c)
    ∧ heap c' = <[alloc (heap c)
                  := mkNode ("node-" +:+ pretty (len (activeSnapshot ord c)))
                            address port "active" now]> (heap c).
Proof.
  intros Hok. unfold server.addNode. cbn [server.readNodeData].
  rewrite GetActiveNodes_spec by done. cbn [mbind option_bind].
  set (node := mkNode _ address port "active" 0).
  destruct (AddNode_spec now (alloc (heap c)) node
              (with_heap (<[alloc (heap c) := node]> (heap c)) c))
    as (c' & log & -> & Hok' & Hself & Hnodes & Hheap).
  { by apply registry_ok_new. }
  { cbn. by rewrite lookup_insert_eq. }
  cbn [mbind option_bind]. exists c'. split; [done|]. split; [done|].
  split; [done|]. split; [done|]. rewrite Hheap. cbn. by rewrite insert_insert_eq.
Qed.

(** [addNodeHandler] on a well-formed body always answers 200 and registers
    a new record under the id "node-<count of active nodes>", with the
    address and port of the body, status "active" and the current time;
    every other id keeps its node and no record that existed is changed. *)
Theorem addNodeHandler_registers (now : Z) (ord : list string)
    (address port : string) (c : Cluster) :
  registry_ok c →
  ∃ c' p,
    server.addNode now ord (server.BodyObject address port) (Some c)
    = Returns (Some c', StatusOK)
    ∧ heap c !! p = None
    ∧ nodes c' !! ("node-" +:+ pretty (len (activeSnapshot ord c))) = Some p
    ∧ heap c' !! p
      = Some (mkNode ("node-" +:+ pretty (len (activeSnapshot ord c)))
                     address port "active" now)
    ∧ (∀ k, k ≠ "node-" +:+ pretty (len (activeSnapshot ord c)) →
         nodes c' !! k = nodes c !! k)
    ∧ (∀ q n, heap c !! q = Some n → heap c' !! q = Some n)
    ∧ selfNode c' = selfNode c.
Proof.
  intros Hok.
  destruct (addNode_spec now ord address port c Hok)
    as (c' & Hrun & _ & Hself & Hnodes & Hheap).
  pose proof (alloc_fresh (heap c)) as Hfresh.
  exists c', (alloc (heap c)). split; [done|]. split; [done|].
  rewrite Hnodes, Hheap, !lookup_insert_eq. split; [done|]. split; [done|].
  split; [|split; [|done]].
  - intros k Hk. by rewrite lookup_insert_ne.
  - intros q n Hq. rewrite lookup_insert_ne; [done|]. intros <-. congruence.
Qed.

Lemma addNodeHandler_registers_witness :
  ∃ c' p,
    server.addNode 80 sample.ord3 (server.BodyObject "10.0.0.4" "9090")
      (Some (sample.c3 3)) = Returns (Some c', StatusOK)
    ∧ nodes c' !! "node-3" = Some p.
Proof.
  destruct (addNodeHandler_registers 80 sample.ord3 "10.0.0.4" "9090"
              (sample.c3 3)) as (c' & p & Hrun & _ & Hid & _);
    [by_evaluation|].
  exists c', p. split; [exact Hrun|].
  assert ("node-" +:+ pretty (len (activeSnapshot sample.ord3 (sample.c3 3)))
          = "node-3") as Heq by (vm_compute; reflexivity).
  rewrite Heq in Hid. exact Hid.
Defined.

(** The id [addNodeHandler] gives is the count of active nodes, not a fresh
    number: when that id is registered already (as after a peer with a
    lower number was marked inactive), the call answers 200, the registry
    does not grow, and the node that had the id is dropped from it — no id
    refers to it any more. *)
Theorem addNodeHandler_replaces_registered_id (now : Z) (ord : list string)
    (address port : string) (c : Cluster) (old : addr) :
  registry_ok c →
  nodes c !! ("node-" +:+ pretty (len (activeSnapshot ord c))) = Some old →
  ∃ c' p,
    server.addNode now ord (server.BodyObject address port) (Some c)
    = Returns (Some c', StatusOK)
    ∧ dom (nodes c') = dom (nodes c)
    ∧ nodes c' !! ("node-" +:+ pretty (len (activeSnapshot ord c))) = Some p
    ∧ p ≠ old
    ∧ (∀ k, nodes c' !! k ≠ Some old).
Proof.
  intros Hok Hold.
  destruct (addNode_spec now ord address port c Hok)
    as (c' & Hrun & _ & _ & Hnodes & _).
  pose proof (alloc_fresh (heap c)) as Hfresh.
  destruct (registry_ok_lookup c _ old Hok Hold) as (n & Hn & Hid).
  assert (alloc (heap c) ≠ old) as Hne by (intros <-; congruence).
  exists c', (alloc (heap c)). split; [done|]. rewrite Hnodes. split.
  { apply dom_insert_lookup_L. eauto. }
  rewrite lookup_insert_eq. split; [done|]. split; [done|].
  intros k Hk. destruct (decide (k = "node-" +:+ pretty (len (activeSnapshot ord c))))
    as [->|Hkne].
  - rewrite lookup_insert_eq in Hk. congruence.
  - rewrite lookup_insert_ne in Hk by done.
    destruct (registry_ok_lookup c _ old Hok Hk) as (n' & Hn' & Hid').
    congruence.
Qed.

Lemma addNodeHandler_replaces_registered_id_witness :
  nodes served_sample.c3_after_probe !! "node-2" = Some 2%nat
  ∧ ∃ c',
      server.addNode 80 sample.ord3 (server.BodyObject "10.0.0.4" "9090")
        (Some served_sample.c3_after_probe) = Returns (Some c', StatusOK)
      ∧ dom (nodes c') = dom (nodes served_sample.c3_after_probe)
      ∧ (∀ k, nodes c' !! k ≠ Some 2%nat).
Proof.
  assert ("node-" +:+ pretty
            (len (activeSnapshot sample.ord3 served_sample.c3_after_probe))
          = "node-2") as Heq by (vm_compute; reflexivity).
  assert (nodes served_sample.c3_after_probe !! "node-2" = Some 2%nat) as Hold
    by (vm_compute; reflexivity).
  split; [exact Hold|].
  destruct (addNodeHandler_replaces_registered_id 80 sample.ord3 "10.0.0.4"
              "9090" served_sample.c3_after_probe 2%nat)
    as (c' & p & Hrun & Hdom & _ & _ & Hgone).
  - by_evaluation.
  - rewrite Heq. exact Hold.
  - exists c'. split; [exact Hrun|]. split; [exact Hdom|exact Hgone].
Defined.

(** [clusterStatusHandler] answers 200 and lists one record for each active
    node of the registry, in the order the snapshot has them: exactly the
    records that are registered under their id with status "active". *)
Theorem clusterStatusHandler_lists_active (ord : list string) (c : Cluster) :
  registry_ok c → iteration_order (nodes c) ord →
  ∃ nodeInfo,
    server.clusterStatus ord (Some c) = Returns (StatusOK, nodeInfo)
    ∧ length nodeInfo = length (activeSnapshot ord c)
    ∧ ∀ n, n ∈ nodeInfo ↔
        Status n = "active"
        ∧ ∃ p, nodes c !! ID n = Some p ∧ heap c !! p = Some n.
Proof.
  intros Hok Hord. unfold server.clusterStatus.
  rewrite GetActiveNodes_spec by done. cbn [mbind option_bind].
  destruct (mapM (fun p => heap c !! p) (activeSnapshot ord c))
    as [nodeInfo|] eqn:Hmap.
  2:{ exfalso. assert (is_Some (mapM (fun p => heap c !! p)
                                    (activeSnapshot ord c))) as [? Hsome].
      { apply mapM_is_Some. apply activeSnapshot_allocated. done. }
      congruence. }
  cbn [mbind option_bind]. exists nodeInfo. split; [done|].
  apply mapM_Some in Hmap. split; [symmetry; by eapply Forall2_length|].
  intros n. split.
  - intros Hn. apply list_elem_of_lookup in Hn as [i Hi].
    destruct (Forall2_lookup_r _ _ _ _ _ Hmap Hi) as (p & Hp & Hpn).
    apply list_elem_of_lookup_2 in Hp.
    apply (activeSnapshot_elem_iff ord c p Hok Hord) in Hp
      as (n' & Hn' & Hreg & Hact).
    assert (n' = n) as -> by congruence. eauto.
  - intros (Hact & p & Hreg & Hp).
    assert (p ∈ activeSnapshot ord c) as Hin
      by (apply activeSnapshot_elem_iff; eauto).
    apply list_elem_of_lookup in Hin as [i Hi].
    destruct (Forall2_lookup_l _ _ _ _ _ Hmap Hi) as (n' & Hn' & Hpn).
    assert (n' = n) as -> by congruence. by eapply list_elem_of_lookup_2.
Qed.

Lemma clusterStatusHandler_lists_active_witness :
  ∃ nodeInfo,
    server.clusterStatus sample.ord3 (Some served_sample.c3_after_probe)
    = Returns (StatusOK, nodeInfo)
    ∧ length nodeInfo = 2%nat.
Proof.
  destruct (clusterStatusHandler_lists_active sample.ord3
              served_sample.c3_after_probe) as (nodeInfo & Hrun & Hlen & _);
    [by_evaluation..|].
  exists nodeInfo. split; [exact Hrun|]. rewrite Hlen. vm_compute. reflexivity.
Defined.

Lemma route_addNodeHandler m path :
  server.route m path = server.addNodeHandler →
  m = server.POST ∧ path = ["cluster"; "nodes"].
Proof.
  unfold server.route.
  destruct (find (server.matchRoute m path) server.routes) as [r|] eqn:Hfind;
    [|done].
  apply find_some in Hfind as [Hin Hmatch]. intros Hr.
  cbn [server.routes In] in Hin.
  repeat (destruct Hin as [<-|Hin]; [try discriminate Hr|]); [|done].
  unfold server.matchRoute in Hmatch.
  cbn [server.template server.isPrefix server.methods] in Hmatch.
  apply andb_true_iff in Hmatch as [Hpath Hmeth]. split.
  - destruct m; try done.
  - destruct path as [|a [|b [|x rest]]]; cbn in Hpath; try done.
    + by rewrite andb_false_r in Hpath.
    + rewrite andb_true_r in Hpath.
      apply andb_true_iff in Hpath as [Ha Hb].
      apply bool_decide_eq_true in Ha, Hb. by subst.
    + by rewrite !andb_false_r in Hpath.
Qed.


(** * Properties of the document handlers *)

Lemma newDocument_spec content d doc d1 :
  api.newDocument content d = (doc, d1) →
  db.documents d1 = db.documents d
  ∧ db.docHeap d ⊆ db.docHeap d1
  ∧ db.fieldsOf (db.docHeap d1) doc = Returns (default ∅ content)
  ∧ api.encode (db.docHeap d1) doc = Returns content
  ∧ (∀ a, doc = Some a → db.docHeap d !! a = None).
Proof.
  unfold api.newDocument. destruct content as [m|]; intros [= <- <-]; cbn.
  - pose proof (is_fresh (dom (db.docHeap d))) as Hfresh.
    apply not_elem_of_dom in Hfresh. rewrite lookup_insert_eq.
    split; [done|]. split; [by apply insert_subseteq|]. split; [done|].
    split; [done|]. by intros a [= <-].
  - done.
Qed.

Lemma getDocumentHandler_frame collection id d d' :
  docs_ok d →
  db.documents d' !! db.docKey collection id
  = db.documents d !! db.docKey collection id →
  (∀ a, db.documents d !! db.docKey collection id = Some (Some a) →
        db.docHeap d' !! a = db.docHeap d !! a) →
  api.getDocumentHandler collection id d'
  = api.getDocumentHandler collection id d.
Proof.
  intros Hok Hdoc Hheap. unfold api.getDocumentHandler, db.GetDocument.
  rewrite Hdoc. destruct (db.documents d !! db.docKey collection id)
    as [[a|]|] eqn:Hk; [|done..].
  cbn. by rewrite (Hheap a).
Qed.

Lemma api_reachable_ok d : api.reachable d → docs_ok d ∧ docs_separate d.
Proof.
  induction 1 as [unix rnd cfg|d w d' r _ [Hok Hsep] Hrun].
  - split; [apply map_Forall_empty|]. intros k1 k2 a Hk. cbn in Hk.
    by rewrite lookup_empty in Hk.
  - destruct w as [collection id body|collection id body|collection id];
      cbn [api.handle] in Hrun.
    + injection Hrun as Hrun. unfold api.createDocumentHandler in Hrun.
      destruct body as [|content]; [by injection Hrun as <- _|].
      destruct (api.newDocument content d) as [doc d1] eqn:Hnew.
      destruct (newDocument_spec _ _ _ _ Hnew) as (Hdocs & Hsub & _ & _ & Hfresh).
      assert (docs_ok d1) as Hok1.
      { intros k doc' Hk. rewrite Hdocs in Hk. specialize (Hok k doc' Hk).
        destruct doc' as [b|]; [|done]. cbn in *. destruct Hok as [m Hm].
        exists m. by eapply lookup_weaken. }
      unfold db.InsertDocument in Hrun. rewrite Hdocs in Hrun.
      destruct (db.documents d !! db.docKey collection id) eqn:Hkey.
      { injection Hrun as <- _. split; [done|]. intros k1 k2 a.
        rewrite Hdocs. apply Hsep. }
      injection Hrun as <- _. split.
      * intros k doc' Hk. cbn in Hk.
        apply lookup_insert_Some in Hk as [[<- <-]|[Hne Hk]].
        -- destruct doc as [a|]; [|done]. cbn.
           destruct content as [m|]; [|done]. cbn in Hnew.
           injection Hnew as <- <-. cbn. rewrite lookup_insert_eq. eauto.
        -- specialize (Hok1 k doc'). rewrite Hdocs in Hok1.
           specialize (Hok1 Hk). by destruct doc'.
      * intros k1 k2 a. cbn. intros H1 H2.
        apply lookup_insert_Some in H1 as [[<- H1]|[Hne1 H1]];
          apply lookup_insert_Some in H2 as [[<- H2]|[Hne2 H2]]; try done.
        -- subst doc. specialize (Hok k2 _ H2). cbn in Hok.
           rewrite (Hfresh a eq_refl) in Hok. by destruct Hok.
        -- subst doc. specialize (Hok k1 _ H1). cbn in Hok.
           rewrite (Hfresh a eq_refl) in Hok. by destruct Hok.
        -- by apply (Hsep k1 k2 a).
    + unfold api.updateDocumentHandler in Hrun.
      destruct body as [|content]; [by injection Hrun as <- _|].
      destruct (api.newDocument content d) as [updates d1] eqn:Hnew.
      destruct (newDocument_spec _ _ _ _ Hnew) as (Hdocs & Hsub & Hupd & _ & _).
      assert (docs_ok d1) as Hok1.
      { intros k doc' Hk. rewrite Hdocs in Hk. specialize (Hok k doc' Hk).
        destruct doc' as [b|]; [|done]. cbn in *. destruct Hok as [m Hm].
        exists m. by eapply lookup_weaken. }
      assert (docs_separate d1) as Hsep1.
      { intros k1 k2 a. rewrite Hdocs. apply Hsep. }
      unfold db.UpdateDocument in Hrun.
      destruct (db.documents d1 !! db.docKey collection id) as [doc|] eqn:Hkey.
      2:{ cbn in Hrun. by injection Hrun as <- _. }
      rewrite Hupd in Hrun. cbn [mbind option_bind] in Hrun.
      destruct (decide (default ∅ content = ∅)).
      { cbn in Hrun. injection Hrun as <- _. split.
        - intros k doc' Hk. cbn in Hk. rewrite insert_id in Hk by done.
          specialize (Hok1 k doc' Hk). by destruct doc'.
        - intros k1 k2 a. cbn. rewrite insert_id by done. apply Hsep1. }
      destruct doc as [a|]; [|done]. cbn [mbind option_bind] in Hrun.
      destruct (db.docHeap d1 !! a) as [m|]; [|done]. cbn in Hrun.
      injection Hrun as <- _. split.
      * intros k doc' Hk. cbn in Hk. rewrite insert_id in Hk by done.
        specialize (Hok1 k doc' Hk). destruct doc' as [b|]; [|done]. cbn in *.
        apply lookup_insert_is_Some'. by right.
      * intros k1 k2 b. cbn. rewrite insert_id by done. apply Hsep1.
    + injection Hrun as Hrun. unfold api.deleteDocumentHandler in Hrun.
      unfold db.DeleteDocument in Hrun.
      destruct (db.documents d !! db.docKey collection id);
        [|by injection Hrun as <- _].
      injection Hrun as <- _. split.
      * intros k doc' Hk. cbn in Hk. apply lookup_delete_Some in Hk as [_ Hk].
        specialize (Hok k doc' Hk). by destruct doc'.
      * intros k1 k2 a. cbn. intros H1 H2.
        apply lookup_delete_Some in H1 as [_ H1].
        apply lookup_delete_Some in H2 as [_ H2]. by apply (Hsep k1 k2 a).
Qed.

(** POST /docs/{collection}/{id} with a body that decodes: on a free key
    the answer is 201 and a GET of the same path then answers 200 with the
    document sent; on a taken key the answer is 500 with the "already
    exists" error and the stored document stays; a GET of any other key
    answers as before. *)
Theorem createDocumentHandler_answers (collection id : string)
    (content : option (gmap string db.Value)) (d : db.MultiModelDatabase) :
  docs_ok d →
  ∃ d' r,
    api.createDocumentHandler collection id (api.DecodeOK content) d = (d', r)
    ∧ (db.documents d !! db.docKey collection id = None →
       api.code r = api.StatusCreated
       ∧ api.getDocumentHandler collection id d'
         = Returns (api.mkResponse StatusOK true EmptyString
                                   (api.DocData content) None))
    ∧ (is_Some (db.documents d !! db.docKey collection id) →
       api.code r = api.StatusInternalServerError
       ∧ api.Error r
         = Some (api.StoreError (db.ErrDocExists id collection))
       ∧ api.getDocumentHandler collection id d'
         = api.getDocumentHandler collection id d)
    ∧ (∀ c2 id2, db.docKey c2 id2 ≠ db.docKey collection id →
         api.getDocumentHandler c2 id2 d' = api.getDocumentHandler c2 id2 d).
Proof.
  intros Hok. unfold api.createDocumentHandler.
  destruct (api.newDocument content d) as [doc d1] eqn:Hnew.
  destruct (newDocument_spec _ _ _ _ Hnew) as (Hdocs & Hsub & _ & Henc & Hfresh).
  assert (∀ k a, db.documents d !! k = Some (Some a) →
                 db.docHeap d1 !! a = db.docHeap d !! a) as Hsame.
  { intros k a Hk. destruct (Hok k _ Hk) as [m Hm]. rewrite Hm.
    by eapply lookup_weaken. }
  unfold db.InsertDocument. rewrite Hdocs.
  destruct (db.documents d !! db.docKey collection id) as [old|] eqn:Hkey.
  - do 2 eexists. split; [reflexivity|]. split; [done|]. split.
    + intros _. split; [done|]. split; [done|].
      apply getDocumentHandler_frame; [done|by rewrite Hdocs|].
      intros a Ha. by apply (Hsame (db.docKey collection id)).
    + intros c2 id2 Hne. apply getDocumentHandler_frame; [done|by rewrite Hdocs|].
      intros a Ha. by apply (Hsame (db.docKey c2 id2)).
  - do 2 eexists. split; [reflexivity|]. split; [|split; [by intros [? ?]|]].
    + intros _. split; [done|]. unfold api.getDocumentHandler, db.GetDocument.
      cbn [db.documents db.with_documents db.docHeap].
      rewrite lookup_insert_eq, Henc. done.
    + intros c2 id2 Hne. apply getDocumentHandler_frame; [done|..].
      * cbn. by rewrite lookup_insert_ne.
      * intros a Ha. cbn. by apply (Hsame (db.docKey c2 id2)).
Qed.

Lemma createDocumentHandler_answers_witness :
  ∃ d' r,
    api.createDocumentHandler "users" "1" (api.DecodeOK (Some store_sample.ann))
      store_sample.d2 = (d', r)
    ∧ api.code r = api.StatusInternalServerError.
Proof.
  destruct (createDocumentHandler_answers "users" "1" (Some store_sample.ann)
              store_sample.d2) as (d' & r & Hrun & _ & Htaken & _);
    [by_evaluation|].
  exists d', r. split; [exact Hrun|]. apply Htaken.
  exists (Some 0%nat). vm_compute. reflexivity.
Defined.

(** Whatever requests the document handlers have answered before, a PUT of
    one document changes no other: a GET of any other key answers as
    before, whether the PUT succeeds or not; and when the PUT answers 200
    on a stored map, a GET of its key answers with the sent entries written
    over that map. *)
Theorem updateDocumentHandler_changes_one_document (collection id : string)
    (body : api.Decoded (option (gmap string db.Value)))
    (d d' : db.MultiModelDatabase) (r : api.Response) :
  api.reachable d →
  api.updateDocumentHandler collection id body d = Returns (d', r) →
  (∀ c2 id2, db.docKey c2 id2 ≠ db.docKey collection id →
     api.getDocumentHandler c2 id2 d' = api.getDocumentHandler c2 id2 d)
  ∧ (∀ upd m,
       body = api.DecodeOK (Some upd) →
       api.getDocumentHandler collection id d
       = Returns (api.mkResponse StatusOK true EmptyString
                                 (api.DocData (Some m)) None) →
       api.code r = StatusOK
       ∧ api.getDocumentHandler collection id d'
         = Returns (api.mkResponse StatusOK true EmptyString
                                   (api.DocData (Some (upd ∪ m))) None)).
Proof.
  intros Hreach Hrun. destruct (api_reachable_ok d Hreach) as [Hok Hsep].
  unfold api.updateDocumentHandler in Hrun.
  destruct body as [|content].
  { injection Hrun as <- _. split; [done|]. by intros upd m [=]. }
  destruct (api.newDocument content d) as [updates d1] eqn:Hnew.
  destruct (newDocument_spec _ _ _ _ Hnew) as (Hdocs & Hsub & Hupd & _ & Hfresh).
  assert (∀ k a, db.documents d !! k = Some (Some a) →
                 db.docHeap d1 !! a = db.docHeap d !! a) as Hsame.
  { intros k a Hk. destruct (Hok k _ Hk) as [m Hm]. rewrite Hm.
    by eapply lookup_weaken. }
  unfold db.UpdateDocument in Hrun. rewrite Hdocs in Hrun.
  destruct (db.documents d !! db.docKey collection id) as [doc|] eqn:Hkey.
  2:{ cbn in Hrun. injection Hrun as <- <-. split.
      - intros c2 id2 Hne. apply getDocumentHandler_frame; [done|by rewrite Hdocs|].
        intros a Ha. by apply (Hsame (db.docKey c2 id2)).
      - intros upd m _ Hget. unfold api.getDocumentHandler, db.GetDocument in Hget.
        by rewrite Hkey in Hget. }
  rewrite Hupd in Hrun. cbn [mbind option_bind] in Hrun.
  destruct (decide (default ∅ content = ∅)) as [Hempty|Hne].
  { cbn in Hrun. injection Hrun as <- <-. split.
    - intros c2 id2 Hne. apply getDocumentHandler_frame; [done|..].
      + cbn. by rewrite insert_id.
      + intros a Ha. cbn. by apply (Hsame (db.docKey c2 id2)).
    - intros upd m [= ->] Hget. cbn in Hempty. subst upd. split; [done|].
      rewrite (left_id_L ∅ (∪)). rewrite <- Hget.
      apply getDocumentHandler_frame; [done|..].
      + cbn. by rewrite insert_id.
      + intros a Ha. cbn. by apply (Hsame (db.docKey collection id)). }
  destruct doc as [a|]; [|done]. cbn [mbind option_bind] in Hrun.
  rewrite (Hsame _ _ Hkey) in Hrun.
  destruct (db.docHeap d !! a) as [m0|] eqn:Hm0; [|done]. cbn in Hrun.
  injection Hrun as <- <-. split.
  - intros c2 id2 Hne2. apply getDocumentHandler_frame; [done|..].
    + cbn. by rewrite insert_id.
    + intros b Hb. cbn. rewrite lookup_insert_ne.
      * by apply (Hsame (db.docKey c2 id2)).
      * intros <-. apply Hne2. by apply (Hsep _ _ a).
  - intros upd m [= ->] Hget. split; [done|].
    unfold api.getDocumentHandler, db.GetDocument in Hget |- *.
    rewrite Hkey in Hget. cbn in Hget. rewrite Hm0 in Hget. cbn in Hget.
    injection Hget as <-. cbn [db.documents db.with_documents db.docHeap
                                db.with_docHeap].
    rewrite insert_id by done. rewrite Hkey. cbn. rewrite lookup_insert_eq. done.
Qed.

Lemma api_sample_reachable : api.reachable api_sample.s2.
Proof.
  eapply (api.reachable_step _ (api.Create "users_archive" "7"
                                  (api.DecodeOK (Some store_sample.bob)))).
  - eapply (api.reachable_step _ (api.Create "users" "1"
                                    (api.DecodeOK (Some store_sample.ann)))).
    + apply api.reachable_new.
    + cbn [api.handle]. reflexivity.
  - cbn [api.handle]. reflexivity.
Defined.

Lemma updateDocumentHandler_changes_one_document_witness :
  ∃ d' r,
    api.updateDocumentHandler "users" "1" (api.DecodeOK (Some store_sample.move))
      api_sample.s2 = Returns (d', r)
    ∧ api.getDocumentHandler "users_archive" "7" d'
      = api.getDocumentHandler "users_archive" "7" api_sample.s2.
Proof.
  destruct (api.updateDocumentHandler "users" "1"
              (api.DecodeOK (Some store_sample.move)) api_sample.s2)
    as [[d' r]|] eqn:Hrun; [|vm_compute in Hrun; discriminate Hrun].
  exists d', r. split; [reflexivity|].
  apply (updateDocumentHandler_changes_one_document "users" "1"
           (api.DecodeOK (Some store_sample.move)) api_sample.s2 d' r
           api_sample_reachable Hrun).
  intros Hkey. vm_compute in Hkey. discriminate Hkey.
Defined.

(** The document handlers panic in one case only: a PUT with a non-empty
    object on a key that holds the nil document (one created from the JSON
    body [null]). *)
Theorem updateDocumentHandler_panics_iff (collection id : string)
    (body : api.Decoded (option (gmap string db.Value)))
    (d : db.MultiModelDatabase) :
  api.reachable d →
  api.updateDocumentHandler collection id body d = Panics
  ↔ db.documents d !! db.docKey collection id = Some None
    ∧ ∃ upd, body = api.DecodeOK (Some upd) ∧ upd ≠ ∅.
Proof.
  intros Hreach. destruct (api_reachable_ok d Hreach) as [Hok _].
  unfold api.updateDocumentHandler. destruct body as [|content].
  { split; [done|]. by intros (_ & upd & [=] & _). }
  destruct (api.newDocument content d) as [updates d1] eqn:Hnew.
  destruct (newDocument_spec _ _ _ _ Hnew) as (Hdocs & Hsub & Hupd & _ & _).
  unfold db.UpdateDocument. rewrite Hdocs.
  destruct (db.documents d !! db.docKey collection id) as [doc|] eqn:Hkey.
  2:{ cbn. split; [done|]. by intros [[=] _]. }
  rewrite Hupd. cbn [mbind option_bind].
  destruct (decide (default ∅ content = ∅)) as [Hempty|Hne].
  { cbn. split; [done|]. intros (_ & upd & [= ->] & Hupd'). done. }
  destruct doc as [a|]; cbn [mbind option_bind].
  - destruct (Hok _ _ Hkey) as [m Hm].
    rewrite (lookup_weaken _ _ _ _ Hm Hsub). cbn. split; [done|].
    by intros [[=] _].
  - split; [|done]. intros _. split; [done|]. destruct content as [upd|];
      [|done]. exists upd. done.
Qed.

Lemma updateDocumentHandler_panics_iff_witness :
  api.updateDocumentHandler "users" "2" (api.DecodeOK (Some store_sample.move))
    (api.createDocumentHandler "users" "2" (api.DecodeOK None)
       (db.NewMultiModelDatabase 0 0 (sample.cfg 1))).1
  = Panics.
Proof.
  apply updateDocumentHandler_panics_iff.
  - eapply (api.reachable_step _ (api.Create "users" "2" (api.DecodeOK None)));
      [apply api.reachable_new|]. cbn [api.handle]. reflexivity.
  - split; [vm_compute; reflexivity|]. exists store_sample.move.
    split; [reflexivity|]. intros Hempty.
    apply (f_equal (fun m => m !! "zip")) in Hempty. vm_compute in Hempty.
    discriminate Hempty.
Defined.


(** GET /docs/{collection} never panics and always answers 200, whatever the
    query string and the requests answered before: the filter the handler
    builds holds strings only.  The answer lists the stored documents whose
    key starts with the collection name and that have, for every query
    parameter, a field of that name holding the parameter's first value as
    a string. *)
Theorem queryDocumentsHandler_answers (ord : list string)
    (fords : nat → list string) (collection : string)
    (query : gmap string (list string)) (d : db.MultiModelDatabase) :
  api.reachable d →
  keys_order (db.documents d) ord →
  (∀ i, keys_order (api.filtersOf query) (fords i)) →
  ∃ docs,
    api.queryDocumentsHandler ord fords collection query d
    = Returns (api.mkResponse StatusOK true EmptyString (api.DocsData docs) None)
    ∧ ∀ fields, fields ∈ docs ↔
        ∃ key doc,
          db.documents d !! key = Some doc ∧ selected collection key
          ∧ api.encode (db.docHeap d) doc = Returns fields
          ∧ ∀ f s rest, query !! f = Some (s :: rest) →
              ∃ m, fields = Some m ∧ m !! f = Some (db.VString s).
Proof.
  intros Hreach Hord Hfords. destruct (api_reachable_ok d Hreach) as [Hok _].
  assert (∀ f v, api.filtersOf query !! f = Some v
                 ↔ ∃ s rest, query !! f = Some (s :: rest) ∧ v = db.VString s)
    as Hfilter.
  { intros f v. unfold api.filtersOf. rewrite lookup_fmap, lookup_omap.
    destruct (query !! f) as [[|s rest]|]; cbn; split.
    - done.
    - by intros (? & ? & [=] & _).
    - intros [= <-]. eauto.
    - by intros (? & ? & [= <- <-] & ->).
    - done.
    - by intros (? & ? & [=] & _). }
  assert (∀ doc fields, allocated d doc →
            api.encode (db.docHeap d) doc = Returns fields →
            satisfies (db.docHeap d) (api.filtersOf query) doc
            ↔ ∀ f s rest, query !! f = Some (s :: rest) →
                ∃ m, fields = Some m ∧ m !! f = Some (db.VString s)) as Hsat.
  { intros doc fields Halloc Henc. unfold satisfies. destruct doc as [a|];
      cbn in Halloc, Henc |- *.
    - destruct Halloc as [m Hm]. rewrite Hm in Henc |- *. cbn in Henc.
      injection Henc as <-. split.
      + intros (m' & [= <-] & Hall) f s rest Hq. exists m. split; [done|].
        destruct (Hall f (db.VString s)) as (actual & Hactual & Heq).
        { apply Hfilter. eauto. }
        by apply iface_eq_string in Heq as ->.
      + intros Hall. exists m. split; [done|]. intros f v Hv.
        apply Hfilter in Hv as (s & rest & Hq & ->).
        destruct (Hall f s rest Hq) as (m' & [= <-] & Hf).
        exists (db.VString s). split; [done|]. cbn.
        by rewrite bool_decide_eq_true_2.
    - injection Henc as <-. split.
      + intros (m' & [= <-] & Hall) f s rest Hq.
        destruct (Hall f (db.VString s)) as (actual & Hactual & _).
        { apply Hfilter. eauto. }
        by rewrite lookup_empty in Hactual.
      + intros Hall. exists ∅. split; [done|]. intros f v Hv.
        apply Hfilter in Hv as (s & rest & Hq & ->).
        by destruct (Hall f s rest Hq) as (m' & [=] & _). }
  unfold api.queryDocumentsHandler.
  destruct (QueryDocuments_spec ord fords collection (api.filtersOf query) d
              Hok Hord Hfords) as (results & -> & Hres).
  { intros f v Hv. apply Hfilter in Hv as (s & rest & _ & ->). done. }
  cbn [mbind option_bind].
  assert (∀ doc, doc ∈ results → allocated d doc) as Halloc.
  { intros doc Hin. apply Hres in Hin as (key & Hk & _). by apply (Hok key). }
  destruct (mapM (api.encode (db.docHeap d)) results) as [docs|] eqn:Hmap.
  2:{ exfalso. assert (is_Some (mapM (api.encode (db.docHeap d)) results))
        as [? Hsome]; [|congruence].
      apply mapM_is_Some, Forall_forall. intros doc Hin.
      specialize (Halloc doc Hin). destruct doc as [a|]; cbn in *; [|eauto].
      destruct Halloc as [m ->]. cbn. eauto. }
  cbn [mbind option_bind]. exists docs. split; [done|].
  apply mapM_Some in Hmap. intros fields. split.
  - intros Hin. apply list_elem_of_lookup in Hin as [i Hi].
    destruct (Forall2_lookup_r _ _ _ _ _ Hmap Hi) as (doc & Hdoc & Henc).
    apply list_elem_of_lookup_2 in Hdoc.
    destruct (proj1 (Hres doc) Hdoc) as (key & Hk & Hsel & Hsatisfies).
    exists key, doc. split; [done|]. split; [done|]. split; [done|].
    apply (Hsat doc fields); [by apply Halloc|done|done].
  - intros (key & doc & Hk & Hsel & Henc & Hall).
    assert (doc ∈ results) as Hin.
    { apply Hres. exists key. split; [done|]. split; [done|].
      apply (Hsat doc fields); [by apply (Hok key)|done|done]. }
    apply list_elem_of_lookup in Hin as [i Hi].
    destruct (Forall2_lookup_l _ _ _ _ _ Hmap Hi) as (fields' & Hf & Henc').
    assert (fields' = fields) as -> by congruence.
    by eapply list_elem_of_lookup_2.
Qed.

Lemma queryDocumentsHandler_answers_witness :
  api.queryDocumentsHandler ["users.1"; "users_archive.7"] (fun _ => ["city"])
    "users" {[ "city" := ["Oslo"; "Rome"] ]} api_sample.s2
  = Returns (api.mkResponse StatusOK true EmptyString
               (api.DocsData [Some store_sample.ann; Some store_sample.bob])
               None).
Proof.
  destruct (queryDocumentsHandler_answers ["users.1"; "users_archive.7"]
              (fun _ => ["city"]) "users" {[ "city" := ["Oslo"; "Rome"] ]}
              api_sample.s2 api_sample_reachable) as (docs & Hrun & _).
  - by_evaluation.
  - intros _. by_evaluation.
  - rewrite Hrun.
    assert (Some (api.mkResponse StatusOK true EmptyString (api.DocsData docs)
                    None)
            = api.queryDocumentsHandler ["users.1"; "users_archive.7"]
                (fun _ => ["city"]) "users" {[ "city" := ["Oslo"; "Rome"] ]}
                api_sample.s2) as Heq by (symmetry; exact Hrun).
    vm_compute in Heq. injection Heq as ->. vm_compute. reflexivity.
Defined.

(** * The router and the cluster *)

Example cleanPath_cases :
  mux.isClean ["docs"; "users"; "1"] = true
  ∧ mux.isClean ["docs"; "users"; EmptyString] = true
  ∧ mux.isClean [] = true
  ∧ mux.isClean ["docs"; EmptyString; "1"] = false
  ∧ mux.isClean ["docs"; "."; "1"] = false
  ∧ mux.cleanPath ["docs"; EmptyString; "1"] = "/docs/1"
  ∧ mux.cleanPath ["docs"; "users"; ".."; "kv"; "."; EmptyString] = "/docs/kv/"
  ∧ mux.cleanPath [".."] = "/".
Proof. vm_compute. repeat split. Qed.

Lemma createDocumentHandler_Cluster collection id body d :
  db.Cluster (api.createDocumentHandler collection id body d).1 = db.Cluster d.
Proof.
  unfold api.createDocumentHandler, api.newDocument, db.InsertDocument.
  destruct body as [|[m|]]; cbn; [done|..];
    destruct (_ !! db.docKey collection id); done.
Qed.

Lemma updateDocumentHandler_Cluster collection id body d d' r :
  api.updateDocumentHandler collection id body d = Returns (d', r) →
  db.Cluster d' = db.Cluster d.
Proof.
  unfold api.updateDocumentHandler. destruct body as [|content].
  { by intros [= <- _]. }
  destruct (api.newDocument content d) as [updates d1] eqn:Hnew.
  assert (db.Cluster d1 = db.Cluster d) as <-.
  { unfold api.newDocument in Hnew. destruct content; by injection Hnew as _ <-. }
  unfold db.UpdateDocument.
  destruct (db.documents d1 !! db.docKey collection id) as [doc|];
    [|by intros [= <- _]].
  destruct (db.fieldsOf (db.docHeap d1) updates) as [upd|]; [|done].
  cbn [mbind option_bind]. destruct (decide (upd = ∅)); [by intros [= <- _]|].
  destruct doc as [a|]; [|done]. cbn [mbind option_bind].
  destruct (db.docHeap d1 !! a); [|done]. by intros [= <- _].
Qed.

Lemma deleteDocumentHandler_Cluster collection id d :
  db.Cluster (api.deleteDocumentHandler collection id d).1 = db.Cluster d.
Proof.
  unfold api.deleteDocumentHandler, db.DeleteDocument.
  by destruct (_ !! db.docKey collection id).
Qed.

Lemma setKeyValueHandler_Cluster key body d :
  db.Cluster (api.setKeyValueHandler key body d).1 = db.Cluster d.
Proof. by destruct body. Qed.

Lemma deleteKeyHandler_Cluster key d :
  db.Cluster (api.deleteKeyHandler key d).1 = db.Cluster d.
Proof.
  unfold api.deleteKeyHandler, db.DeleteKey. by destruct (_ !! key).
Qed.

Lemma insertColumnHandler_Cluster family row column body d :
  db.Cluster (api.insertColumnHandler family row column body d).1
  = db.Cluster d.
Proof. by destruct body. Qed.

Lemma createNodeHandler_Cluster body d :
  db.Cluster (api.createNodeHandler body d).1 = db.Cluster d.
Proof.
  unfold api.createNodeHandler, db.CreateNode.
  destruct body as [|[[id labels] props]]; [done|].
  by destruct (_ !! id).
Qed.

Lemma createEdgeHandler_Cluster body d :
  db.Cluster (api.createEdgeHandler body d).1 = db.Cluster d.
Proof.
  unfold api.createEdgeHandler, db.CreateEdge.
  destruct body as [|[[[[id from] to] edgeType] props]]; [done|].
  destruct (db.graphEdges d !! id); [done|].
  destruct (db.graphNodes d !! from); [|done].
  by destruct (db.graphNodes d !! to).
Qed.

Lemma addNodeHandler_serve now ord body d d' r :
  api.addNodeHandler now ord body d = Returns (d', r) →
  server.addNode now ord body (db.Cluster d)
  = Returns (db.Cluster d', api.code r)
  ∧ (db.Cluster d' ≠ db.Cluster d → api.code r = StatusOK).
Proof.
  unfold api.addNodeHandler, server.addNode.
  destruct (db.Cluster d) as [c|] eqn:Hc; [|intros [= <- <-]; by rewrite Hc].
  destruct (server.readNodeData body) as [[address port]|];
    [|intros [= <- <-]; by rewrite Hc].
  destruct (GetActiveNodes ord c) as [active|]; [|done].
  cbn [mbind option_bind].
  destruct (AddNode _ _ _) as [[c' log]|]; [|done]. cbn [mbind option_bind].
  destruct (heap c' !! alloc (heap c)); [|done]. by intros [= <- <-].
Qed.

(** Of all the requests the router dispatches (with method GET, POST, PUT
    or DELETE), only a POST to /cluster/nodes changes the cluster: when an
    answered request leaves [db.Cluster] different, it is that one and it is
    answered 200.  No handler of the stores and no redirect touches it. *)
Theorem only_addNode_changes_cluster (env : api.Env) (req : api.Request)
    (d d' : db.MultiModelDatabase) (answer : api.Answer) :
  api.ServeHTTP env req d = Returns (d', answer) →
  db.Cluster d' ≠ db.Cluster d →
  api.method req = server.POST
  ∧ api.path req = ["cluster"; "nodes"]
  ∧ ∃ r, answer = api.Answered r ∧ api.code r = StatusOK.
Proof.
  unfold api.ServeHTTP. intros Hrun Hne.
  destruct (mux.isClean (api.path req)); cbn [negb] in Hrun;
    [|by injection Hrun as <- _].
  destruct (server.route (api.method req) (api.path req)) eqn:Hroute.
  - by injection Hrun as <- _.
  - destruct (api.createDocumentHandler _ _ _ d) as [d1 r] eqn:Hh.
    injection Hrun as <- _. exfalso. apply Hne.
    by rewrite <- (createDocumentHandler_Cluster
                     (api.segment req 1) (api.segment req 2)
                     (api.asDocument req) d), Hh.
  - destruct (api.getDocumentHandler _ _ d); [|done]. by injection Hrun as <- _.
  - destruct (api.updateDocumentHandler _ _ _ d) as [[d1 r]|] eqn:Hh; [|done].
    injection Hrun as <- _. exfalso. apply Hne.
    by apply updateDocumentHandler_Cluster in Hh.
  - destruct (api.deleteDocumentHandler _ _ d) as [d1 r] eqn:Hh.
    injection Hrun as <- _. exfalso. apply Hne.
    by rewrite <- (deleteDocumentHandler_Cluster
                     (api.segment req 1) (api.segment req 2) d), Hh.
  - destruct (api.queryDocumentsHandler _ _ _ _ d); [|done].
    by injection Hrun as <- _.
  - destruct (api.setKeyValueHandler _ _ d) as [d1 r] eqn:Hh.
    injection Hrun as <- _. exfalso. apply Hne.
    by rewrite <- (setKeyValueHandler_Cluster (api.segment req 1)
                     (api.asValue req) d), Hh.
  - by injection Hrun as <- _.
  - destruct (api.deleteKeyHandler _ d) as [d1 r] eqn:Hh.
    injection Hrun as <- _. exfalso. apply Hne.
    by rewrite <- (deleteKeyHandler_Cluster (api.segment req 1) d), Hh.
  - destruct (api.insertColumnHandler _ _ _ _ d) as [d1 r] eqn:Hh.
    injection Hrun as <- _. exfalso. apply Hne.
    by rewrite <- (insertColumnHandler_Cluster (api.segment req 1)
                     (api.segment req 2) (api.segment req 3)
                     (api.asValue req) d), Hh.
  - by injection Hrun as <- _.
  - destruct (api.createNodeHandler _ d) as [d1 r] eqn:Hh.
    injection Hrun as <- _. exfalso. apply Hne.
    by rewrite <- (createNodeHandler_Cluster (api.asNodeFields req) d), Hh.
  - by injection Hrun as <- _.
  - destruct (api.createEdgeHandler _ d) as [d1 r] eqn:Hh.
    injection Hrun as <- _. exfalso. apply Hne.
    by rewrite <- (createEdgeHandler_Cluster (api.asEdgeFields req) d), Hh.
  - by injection Hrun as <- _.
  - destruct (api.clusterStatusHandler _ d); [|done]. by injection Hrun as <- _.
  - apply route_addNodeHandler in Hroute as [Hm Hp].
    destruct (api.addNodeHandler _ _ _ d) as [[d1 r]|] eqn:Hh; [|done].
    injection Hrun as <- <-. split; [done|]. split; [done|].
    exists r. split; [done|]. by apply (addNodeHandler_serve _ _ _ _ _ _ Hh).
  - by injection Hrun as <- _.
Qed.

Lemma only_addNode_changes_cluster_witness :
  ∃ d' r,
    api.ServeHTTP request_sample.env request_sample.addPeer store_sample.d0
    = Returns (d', api.Answered r)
    ∧ db.Cluster d' ≠ db.Cluster store_sample.d0
    ∧ api.code r = StatusOK.
Proof.
  destruct (api.ServeHTTP request_sample.env request_sample.addPeer
              store_sample.d0) as [[d' answer]|] eqn:Hrun;
    [|vm_compute in Hrun; discriminate Hrun].
  assert (db.Cluster d' ≠ db.Cluster store_sample.d0) as Hne.
  { intros Heq. vm_compute in Hrun. injection Hrun as <- _.
    vm_compute in Heq. discriminate Heq. }
  destruct (only_addNode_changes_cluster _ _ _ _ _ Hrun Hne)
    as (_ & _ & r & -> & Hcode).
  exists d', r. split; [reflexivity|]. split; [exact Hne|exact Hcode].
Defined.

(** What [server.serve] says a request does to the cluster is what the
    router does with it: whenever the router answers a request with a clean
    path, [server.serve] returns on the cluster of the database before, with
    the cluster of the database after, and where it gives a status code it
    is the one of the answer. *)
Theorem serve_agrees_with_ServeHTTP (env : api.Env) (req : api.Request)
    (d d' : db.MultiModelDatabase) (answer : api.Answer) :
  mux.isClean (api.path req) = true →
  api.ServeHTTP env req d = Returns (d', answer) →
  ∃ r code,
    answer = api.Answered r
    ∧ server.serve (api.now env) (api.registryOrder env)
        (server.mkRequest (api.method req) (api.path req)
                          (api.asClusterNode req))
        (db.Cluster d)
      = Returns (db.Cluster d', code)
    ∧ ∀ z, code = Some z → api.code r = z.
Proof.
  unfold api.ServeHTTP, server.serve. intros -> Hrun. cbn [negb] in Hrun.
  cbn [server.method server.path server.body].
  destruct (server.route (api.method req) (api.path req)) eqn:Hroute.
  - injection Hrun as <- <-. do 2 eexists. split; [done|]. split; [done|].
    by intros z [= <-].
  - destruct (api.createDocumentHandler _ _ _ d) as [d1 r] eqn:Hh.
    injection Hrun as <- <-. exists r, None. split; [done|]. split; [|done].
    by rewrite <- (createDocumentHandler_Cluster
                     (api.segment req 1) (api.segment req 2)
                     (api.asDocument req) d), Hh.
  - destruct (api.getDocumentHandler _ _ d) as [r|]; [|done].
    injection Hrun as <- <-. by exists r, None.
  - destruct (api.updateDocumentHandler _ _ _ d) as [[d1 r]|] eqn:Hh; [|done].
    injection Hrun as <- <-. exists r, None. split; [done|]. split; [|done].
    by rewrite (updateDocumentHandler_Cluster _ _ _ _ _ _ Hh).
  - destruct (api.deleteDocumentHandler _ _ d) as [d1 r] eqn:Hh.
    injection Hrun as <- <-. exists r, None. split; [done|]. split; [|done].
    by rewrite <- (deleteDocumentHandler_Cluster
                     (api.segment req 1) (api.segment req 2) d), Hh.
  - destruct (api.queryDocumentsHandler _ _ _ _ d) as [r|]; [|done].
    injection Hrun as <- <-. by exists r, None.
  - destruct (api.setKeyValueHandler _ _ d) as [d1 r] eqn:Hh.
    injection Hrun as <- <-. exists r, None. split; [done|]. split; [|done].
    by rewrite <- (setKeyValueHandler_Cluster (api.segment req 1)
                     (api.asValue req) d), Hh.
  - injection Hrun as <- <-. by do 2 eexists.
  - destruct (api.deleteKeyHandler _ d) as [d1 r] eqn:Hh.
    injection Hrun as <- <-. exists r, None. split; [done|]. split; [|done].
    by rewrite <- (deleteKeyHandler_Cluster (api.segment req 1) d), Hh.
  - destruct (api.insertColumnHandler _ _ _ _ d) as [d1 r] eqn:Hh.
    injection Hrun as <- <-. exists r, None. split; [done|]. split; [|done].
    by rewrite <- (insertColumnHandler_Cluster (api.segment req 1)
                     (api.segment req 2) (api.segment req 3)
                     (api.asValue req) d), Hh.
  - injection Hrun as <- <-. by do 2 eexists.
  - destruct (api.createNodeHandler _ d) as [d1 r] eqn:Hh.
    injection Hrun as <- <-. exists r, None. split; [done|]. split; [|done].
    by rewrite <- (createNodeHandler_Cluster (api.asNodeFields req) d), Hh.
  - injection Hrun as <- <-. by do 2 eexists.
  - destruct (api.createEdgeHandler _ d) as [d1 r] eqn:Hh.
    injection Hrun as <- <-. exists r, None. split; [done|]. split; [|done].
    by rewrite <- (createEdgeHandler_Cluster (api.asEdgeFields req) d), Hh.
  - injection Hrun as <- <-. by do 2 eexists.
  - unfold api.clusterStatusHandler in Hrun. unfold server.clusterStatus.
    destruct (db.Cluster d) as [c|] eqn:Hc.
    + destruct (GetActiveNodes _ c) as [active|]; [|done].
      cbn [mbind option_bind] in Hrun |- *.
      destruct (mapM _ active) as [nodeInfo|]; [|done].
      cbn in Hrun |- *. injection Hrun as <- <-. rewrite Hc.
      do 2 eexists. split; [done|]. split; [done|]. by intros z [= <-].
    + cbn in Hrun |- *. injection Hrun as <- <-. rewrite Hc.
      do 2 eexists. split; [done|]. split; [done|]. by intros z [= <-].
  - destruct (api.addNodeHandler _ _ _ d) as [[d1 r]|] eqn:Hh; [|done].
    injection Hrun as <- <-.
    destruct (addNodeHandler_serve _ _ _ _ _ _ Hh) as [-> _].
    cbn [mbind option_bind]. exists r, (Some (api.code r)).
    split; [done|]. split; [done|]. by intros z [= <-].
  - injection Hrun as <- <-. do 2 eexists. split; [done|]. split; [done|].
    by intros z [= <-].
Qed.

Lemma serve_agrees_with_ServeHTTP_witness :
  ∃ d' r,
    api.ServeHTTP request_sample.env request_sample.addPeer store_sample.d0
    = Returns (d', api.Answered r)
    ∧ server.serve 80 [sample.selfId]
        (server.mkRequest server.POST ["cluster"; "nodes"]
                          (server.BodyObject "10.0.0.2" "9090"))
        (db.Cluster store_sample.d0)
      = Returns (db.Cluster d', Some (api.code r)).
Proof.
  destruct (api.ServeHTTP request_sample.env request_sample.addPeer
              store_sample.d0) as [[d' answer]|] eqn:Hrun;
    [|vm_compute in Hrun; discriminate Hrun].
  assert (mux.isClean (api.path request_sample.addPeer) = true) as Hclean
    by (vm_compute; reflexivity).
  destruct (serve_agrees_with_ServeHTTP _ _ _ _ _ Hclean Hrun)
    as (r & code & -> & Hserve & Hcode).
  exists d', r. split; [reflexivity|].
  change (server.serve (api.now request_sample.env)
            (api.registryOrder request_sample.env)
            (server.mkRequest (api.method request_sample.addPeer)
               (api.path request_sample.addPeer)
               (api.asClusterNode request_sample.addPeer))
            (db.Cluster store_sample.d0)
          = Returns (db.Cluster d', Some (api.code r))).
  rewrite Hserve. destruct code as [z|].
  - by rewrite (Hcode z eq_refl).
  - exfalso. vm_compute in Hrun. injection Hrun as <- _.
    vm_compute in Hserve. discriminate Hserve.
Defined.
